(** * Pod sandbox creation (cri-containerd [RunPodSandbox]) in Rocq

    A shallow embedding of [pkg/server/sandbox_run.go]: the saga
    [RunPodSandbox] with its deferred clean-ups, the specification builder
    [generateSandboxContainerSpec], the file preparation
    [setupSandboxFiles] / [unmountSandboxFiles], the resolver rendering
    [parseDNSOptions] and the port translation [toCNIPortMappings].

    The collaborators (name index, network namespaces, CNI plugin,
    containerd client, OS layer, sandbox store) are modelled as one explicit
    [World] that is threaded through the calls; every call to a collaborator
    is appended to a log, and an environment [Env] decides which calls
    fail. *)

From Stdlib Require Import ZArith Ascii String List Lia.
From stdpp Require Import base option strings gmap sets pretty.

Local Open Scope string_scope.
Local Open Scope Z_scope.

(** ** Go strings *)

Module GoStrings.

(** The line feed, Go's ["\n"]. *)
Definition nl : string := String (ascii_of_nat 10) EmptyString.

(** [strings.Join(elems, sep)]. *)
Definition Join (elems : list string) (sep : string) : string :=
  String.concat sep elems.

(** [unicode.ToLower] on the ASCII range: ['A'..'Z'] move to ['a'..'z']. *)
Definition lower_ascii (c : ascii) : ascii :=
  let n := nat_of_ascii c in
  if ((65 <=? n) && (n <=? 90))%nat then ascii_of_nat (n + 32) else c.

(** [strings.ToLower] (for ASCII input). *)
Fixpoint ToLower (s : string) : string :=
  match s with
  | EmptyString => EmptyString
  | String c r => String (lower_ascii c) (ToLower r)
  end.

(** [fmt.Sprintf("%d", n)]. *)
Definition itoa (n : Z) : string := pretty n.
#[global] Arguments itoa : simpl never.

End GoStrings.

(** ** Errors

    The Go code builds its errors with [fmt.Errorf], wrapping the cause in
    a message. [Site] names each message of the file; [error] is the cause
    chain. *)

Inductive errno := ENOENT | EOTHER.

Inductive Site :=
  | FailedReserveName          (* "failed to reserve sandbox name %q: %v" *)
  | FailedGetImage             (* "failed to get sandbox image %q: %v" *)
  | FailedCreateNetNS          (* "failed to create network namespace for sandbox %q: %v" *)
  | FailedSetupNetwork         (* "failed to setup network for sandbox %q: %v" *)
  | FailedGenerateSpec         (* "failed to generate sandbox container spec: %v" *)
  | FailedSeccomp              (* "failed to generate seccomp spec opts: %v" *)
  | FailedCreateContainer      (* "failed to create containerd container: %v" *)
  | FailedCreateRootDir        (* "failed to create sandbox root directory %q: %v" *)
  | FailedSetupFiles           (* "failed to setup sandbox files: %v" *)
  | FailedCreateTask           (* "failed to create task for sandbox %q: %v" *)
  | FailedStartTask            (* "failed to start sandbox container task %q: %v" *)
  | FailedAddStore             (* "failed to add sandbox %+v into store: %v" *)
  | FailedInitSelinux          (* "failed to init selinux options %+v: %v" *)
  | FailedHostsFile            (* "failed to generate sandbox hosts file %q: %v" *)
  | FailedParseDNS             (* "failed to parse sandbox DNSConfig %+v: %v" *)
  | FailedCopyResolv           (* "failed to copy host's resolv.conf to %q: %v" *)
  | FailedWriteResolv          (* "failed to write resolv content to %q: %v" *)
  | HostShmUnavailable         (* "host %q is not available for host ipc: %v" *)
  | FailedCreateShm            (* "failed to create sandbox shm: %v" *)
  | FailedMountShm.            (* "failed to mount sandbox shm: %v" *)

Inductive error :=
  | EmptyEntrypoint            (* "invalid empty entrypoint in image config %+v" *)
  | TooManySearches            (* "DNSOption.Searches has more than 6 domains" *)
  | NameReserved (name holder : string)   (* the name index refuses *)
  | DuplicateID (id : string)             (* the sandbox store refuses *)
  | Errno (e : errno)                     (* an OS call failed *)
  | External (what : string)              (* a collaborator failed *)
  | InvalidEnv (env : string)             (* "invalid environment variable %q" *)
  | Wrap (s : Site) (cause : error).

Inductive result (A : Type) :=
  | OK (a : A)
  | Err (e : error).
Arguments OK {A} a.
Arguments Err {A} e.

(** Modelled from the spec: the error kinds of section 7. The Go code has
    no error types, only messages; [error_kind] reads the kind off the
    message chain. *)
Inductive ErrorKind :=
  | Conflict | ImageError | NamespaceCreateError | NetworkSetupError
  | InvalidConfig | FilesystemError | ExecutionEngineError.

Fixpoint error_kind (e : error) : option ErrorKind :=
  match e with
  | EmptyEntrypoint => Some InvalidConfig
  | TooManySearches => Some InvalidConfig
  | NameReserved _ _ => Some Conflict
  | DuplicateID _ => None
  | Errno _ => Some FilesystemError
  | External _ => None
  | InvalidEnv _ => Some InvalidConfig
  | Wrap s c =>
      match s with
      | FailedReserveName => Some Conflict
      | FailedGetImage => Some ImageError
      | FailedCreateNetNS => Some NamespaceCreateError
      | FailedSetupNetwork => Some NetworkSetupError
      | FailedGenerateSpec | FailedSetupFiles | FailedParseDNS => error_kind c
      | FailedSeccomp | FailedInitSelinux => Some InvalidConfig
      | FailedCreateContainer | FailedCreateTask | FailedStartTask =>
          Some ExecutionEngineError
      | FailedAddStore => None
      | FailedCreateRootDir | FailedHostsFile | FailedCopyResolv
      | FailedWriteResolv | HostShmUnavailable | FailedCreateShm
      | FailedMountShm => Some FilesystemError
      end
  end.

(** ** Resolver rendering *)

(** Modelled from the spec: the constant [maxDNSSearches] is declared
    outside this file; the spec and the error message both give 6. *)
Definition maxDNSSearches : nat := 6.

(** [parseDNSOptions]: DNS options to resolv.conf content; empty when no
    option is given. *)
Definition parseDNSOptions (servers searches options : list string)
  : result string :=
  let resolvContent := "" in
  if (maxDNSSearches <? length searches)%nat then Err TooManySearches else
  let resolvContent :=
    if (0 <? length searches)%nat
    then resolvContent ++ ("search " ++ GoStrings.Join searches " " ++ GoStrings.nl)
    else resolvContent in
  let resolvContent :=
    if (0 <? length servers)%nat
    then resolvContent ++
         ("nameserver " ++ GoStrings.Join servers (GoStrings.nl ++ "nameserver ")
            ++ GoStrings.nl)
    else resolvContent in
  let resolvContent :=
    if (0 <? length options)%nat
    then resolvContent ++ ("options " ++ GoStrings.Join options " " ++ GoStrings.nl)
    else resolvContent in
  OK resolvContent.

(** ** Port mappings *)

(** [runtime.Protocol], the CRI enum, and its generated [String] method. *)
Inductive Protocol := TCP | UDP.

Definition Protocol_String (p : Protocol) : string :=
  match p with TCP => "TCP" | UDP => "UDP" end.

(** [runtime.PortMapping] (ports are [int32]). *)
Record PortMapping := {
  Protocol_ : Protocol;
  ContainerPort : Z;
  HostPort : Z;
  HostIp : string;
}.

(** [ocicni.PortMapping]. *)
Record CNIPortMapping := {
  cniHostPort : Z;
  cniContainerPort : Z;
  cniProtocol : string;
  cniHostIP : string;
}.

(** [toCNIPortMappings]: the loop appends to [portMappings], skipping the
    mappings whose host port is not positive. *)
Fixpoint toCNIPortMappings_loop (portMappings : list CNIPortMapping)
    (criPortMappings : list PortMapping) : list CNIPortMapping :=
  match criPortMappings with
  | [] => portMappings
  | mapping :: rest =>
      if HostPort mapping <=? 0
      then toCNIPortMappings_loop portMappings rest
      else toCNIPortMappings_loop
             (portMappings ++
                [{| cniHostPort := HostPort mapping;
                    cniContainerPort := ContainerPort mapping;
                    cniProtocol := GoStrings.ToLower (Protocol_String (Protocol_ mapping));
                    cniHostIP := HostIp mapping |}])
             rest
  end.

Definition toCNIPortMappings (criPortMappings : list PortMapping)
  : list CNIPortMapping :=
  toCNIPortMappings_loop [] criPortMappings.

(** ** The pod configuration (CRI [runtime.PodSandboxConfig])

    Pointers of the protobuf messages are options; the generated [Get*]
    accessors return the zero value on a nil receiver. *)

Record PodSandboxMetadata := {
  mdName : string; mdUid : string; mdNamespace : string; mdAttempt : Z;
}.

Record DNSConfig := {
  Servers : list string; Searches : list string; Options : list string;
}.

Record NamespaceOption := {
  HostNetwork : bool; HostPid : bool; HostIpc : bool;
}.

Record SELinuxOption := {
  seUser : string; seRole : string; seType : string; seLevel : string;
}.

Record LinuxSandboxSecurityContext := {
  NamespaceOptions : option NamespaceOption;
  SelinuxOptions : option SELinuxOption;
  RunAsUser : option Z;
  SupplementalGroups : list Z;
  Privileged : bool;
  SeccompProfilePath : string;
}.

Record LinuxPodSandboxConfig := {
  CgroupParent : string;
  SecurityContext : option LinuxSandboxSecurityContext;
  Sysctls : gmap string string;
}.

Record PodSandboxConfig := {
  Metadata : option PodSandboxMetadata;
  Hostname : string;
  DnsConfig : option DNSConfig;
  PortMappings : list PortMapping;
  Labels : gmap string string;
  Linux : option LinuxPodSandboxConfig;
}.

Definition GetName (m : option PodSandboxMetadata) : string :=
  from_option mdName "" m.
Definition GetNamespace (m : option PodSandboxMetadata) : string :=
  from_option mdNamespace "" m.
Definition GetUid (m : option PodSandboxMetadata) : string :=
  from_option mdUid "" m.
Definition GetAttempt (m : option PodSandboxMetadata) : Z :=
  from_option mdAttempt 0 m.
Definition GetSecurityContext (l : option LinuxPodSandboxConfig)
  : option LinuxSandboxSecurityContext := l ≫= SecurityContext.
Definition GetCgroupParent (l : option LinuxPodSandboxConfig) : string :=
  from_option CgroupParent "" l.
Definition GetSysctls (l : option LinuxPodSandboxConfig) : gmap string string :=
  from_option Sysctls ∅ l.
Definition GetNamespaceOptions (sc : option LinuxSandboxSecurityContext)
  : option NamespaceOption := sc ≫= NamespaceOptions.
Definition GetSelinuxOptions (sc : option LinuxSandboxSecurityContext)
  : option SELinuxOption := sc ≫= SelinuxOptions.
Definition GetRunAsUser (sc : option LinuxSandboxSecurityContext) : option Z :=
  sc ≫= RunAsUser.
Definition GetSupplementalGroups (sc : option LinuxSandboxSecurityContext)
  : list Z := from_option SupplementalGroups [] sc.
Definition GetPrivileged (sc : option LinuxSandboxSecurityContext) : bool :=
  from_option Privileged false sc.
Definition GetSeccompProfilePath (sc : option LinuxSandboxSecurityContext)
  : string := from_option SeccompProfilePath "" sc.
Definition GetHostNetwork (o : option NamespaceOption) : bool :=
  from_option HostNetwork false o.
Definition GetHostPid (o : option NamespaceOption) : bool :=
  from_option HostPid false o.
Definition GetHostIpc (o : option NamespaceOption) : bool :=
  from_option HostIpc false o.

(** The pod shares the host's network (resp. IPC) namespace. *)
Definition hostNetOf (config : PodSandboxConfig) : bool :=
  GetHostNetwork (GetNamespaceOptions (GetSecurityContext (Linux config))).
Definition hostIpcOf (config : PodSandboxConfig) : bool :=
  GetHostIpc (GetNamespaceOptions (GetSecurityContext (Linux config))).

(** ** The world of collaborators *)

(** [ocicni.PodNetwork]. *)
Record PodNetwork := {
  pnName : string;
  pnNamespace : string;
  pnID : string;
  pnNetNS : string;
  pnPortMappings : list CNIPortMapping;
}.

(** Every call the file makes to a collaborator. [NewNetNS] carries the
    path of the namespace it returns. *)
Inductive Call :=
  | Reserve (name id : string)
  | ReleaseByName (name : string)
  | EnsureImageExists (ref : string)
  | NewNetNS (path : string)
  | NetNSRemove (path : string)
  | SetUpPod (pn : PodNetwork)
  | TearDownPod (pn : PodNetwork)
  | NewContainer (id : string)
  | ContainerDelete (id : string)
  | MkdirAll (path : string) (perm : Z)
  | RemoveAll (path : string)
  | CopyFile (src dst : string) (perm : Z)
  | WriteFile (path data : string) (perm : Z)
  | Stat (path : string)
  | Mount (source target fstype : string) (flags : Z) (data : string)
  | Unmount (target : string) (flags : Z)
  | NewTask (id : string)
  | TaskDelete (id : string)
  | TaskStart (id : string)
  | StoreAdd (id : string).

(** A logged call and whether it returned without error. *)
Notation Event := (Call * bool)%type.

Record MountEntry := {
  mSource : string; mFstype : string; mFlags : Z; mData : string;
}.

(** The OS layer [c.os]: regular files with their content, directories,
    and the mount table by mount point. *)
Record OSState := {
  files : gmap string string;
  dirs : gset string;
  mounts : gmap string MountEntry;
}.

(** ** The runtime specification ([runtimespec.Spec], the fields the
    builder touches) *)

Inductive NamespaceType :=
  | PIDNamespace | NetworkNamespace | MountNamespace | IPCNamespace
  | UTSNamespace | UserNamespace | CgroupNamespace.

#[global] Instance NamespaceType_eq_dec : EqDecision NamespaceType.
Proof. solve_decision. Defined.

Record LinuxNamespace := { nsType : NamespaceType; nsPath : string }.

Record Spec := {
  ProcessArgs : list string;
  ProcessCwd : string;
  ProcessEnv : list string;
  ProcessSelinuxLabel : string;
  ProcessAdditionalGids : list Z;
  ProcessOOMScoreAdj : option Z;
  RootPath : string;
  RootReadonly : bool;
  SpecHostname : string;
  LinuxCgroupsPath : string;
  LinuxNamespaces : list LinuxNamespace;
  LinuxMountLabel : string;
  LinuxSysctl : gmap string string;
  LinuxCPUShares : option Z;
}.

(** The generator [generate.Generator] of runtime-tools: each setter
    rewrites one field of the specification it holds. *)
Module Generator.

Definition SetProcessCwd (cwd : string) (g : Spec) : Spec :=
  {| ProcessArgs := ProcessArgs g; ProcessCwd := cwd; ProcessEnv := ProcessEnv g;
     ProcessSelinuxLabel := ProcessSelinuxLabel g;
     ProcessAdditionalGids := ProcessAdditionalGids g;
     ProcessOOMScoreAdj := ProcessOOMScoreAdj g; RootPath := RootPath g;
     RootReadonly := RootReadonly g; SpecHostname := SpecHostname g;
     LinuxCgroupsPath := LinuxCgroupsPath g; LinuxNamespaces := LinuxNamespaces g;
     LinuxMountLabel := LinuxMountLabel g; LinuxSysctl := LinuxSysctl g;
     LinuxCPUShares := LinuxCPUShares g |}.

Definition SetProcessEnv (env : list string) (g : Spec) : Spec :=
  {| ProcessArgs := ProcessArgs g; ProcessCwd := ProcessCwd g; ProcessEnv := env;
     ProcessSelinuxLabel := ProcessSelinuxLabel g;
     ProcessAdditionalGids := ProcessAdditionalGids g;
     ProcessOOMScoreAdj := ProcessOOMScoreAdj g; RootPath := RootPath g;
     RootReadonly := RootReadonly g; SpecHostname := SpecHostname g;
     LinuxCgroupsPath := LinuxCgroupsPath g; LinuxNamespaces := LinuxNamespaces g;
     LinuxMountLabel := LinuxMountLabel g; LinuxSysctl := LinuxSysctl g;
     LinuxCPUShares := LinuxCPUShares g |}.

Definition SetProcessArgs (args : list string) (g : Spec) : Spec :=
  {| ProcessArgs := args; ProcessCwd := ProcessCwd g; ProcessEnv := ProcessEnv g;
     ProcessSelinuxLabel := ProcessSelinuxLabel g;
     ProcessAdditionalGids := ProcessAdditionalGids g;
     ProcessOOMScoreAdj := ProcessOOMScoreAdj g; RootPath := RootPath g;
     RootReadonly := RootReadonly g; SpecHostname := SpecHostname g;
     LinuxCgroupsPath := LinuxCgroupsPath g; LinuxNamespaces := LinuxNamespaces g;
     LinuxMountLabel := LinuxMountLabel g; LinuxSysctl := LinuxSysctl g;
     LinuxCPUShares := LinuxCPUShares g |}.

Definition SetRootPath (path : string) (g : Spec) : Spec :=
  {| ProcessArgs := ProcessArgs g; ProcessCwd := ProcessCwd g; ProcessEnv := ProcessEnv g;
     ProcessSelinuxLabel := ProcessSelinuxLabel g;
     ProcessAdditionalGids := ProcessAdditionalGids g;
     ProcessOOMScoreAdj := ProcessOOMScoreAdj g; RootPath := path;
     RootReadonly := RootReadonly g; SpecHostname := SpecHostname g;
     LinuxCgroupsPath := LinuxCgroupsPath g; LinuxNamespaces := LinuxNamespaces g;
     LinuxMountLabel := LinuxMountLabel g; LinuxSysctl := LinuxSysctl g;
     LinuxCPUShares := LinuxCPUShares g |}.

Definition SetRootReadonly (b : bool) (g : Spec) : Spec :=
  {| ProcessArgs := ProcessArgs g; ProcessCwd := ProcessCwd g; ProcessEnv := ProcessEnv g;
     ProcessSelinuxLabel := ProcessSelinuxLabel g;
     ProcessAdditionalGids := ProcessAdditionalGids g;
     ProcessOOMScoreAdj := ProcessOOMScoreAdj g; RootPath := RootPath g;
     RootReadonly := b; SpecHostname := SpecHostname g;
     LinuxCgroupsPath := LinuxCgroupsPath g; LinuxNamespaces := LinuxNamespaces g;
     LinuxMountLabel := LinuxMountLabel g; LinuxSysctl := LinuxSysctl g;
     LinuxCPUShares := LinuxCPUShares g |}.

Definition SetHostname (h : string) (g : Spec) : Spec :=
  {| ProcessArgs := ProcessArgs g; ProcessCwd := ProcessCwd g; ProcessEnv := ProcessEnv g;
     ProcessSelinuxLabel := ProcessSelinuxLabel g;
     ProcessAdditionalGids := ProcessAdditionalGids g;
     ProcessOOMScoreAdj := ProcessOOMScoreAdj g; RootPath := RootPath g;
     RootReadonly := RootReadonly g; SpecHostname := h;
     LinuxCgroupsPath := LinuxCgroupsPath g; LinuxNamespaces := LinuxNamespaces g;
     LinuxMountLabel := LinuxMountLabel g; LinuxSysctl := LinuxSysctl g;
     LinuxCPUShares := LinuxCPUShares g |}.

Definition SetLinuxCgroupsPath (path : string) (g : Spec) : Spec :=
  {| ProcessArgs := ProcessArgs g; ProcessCwd := ProcessCwd g; ProcessEnv := ProcessEnv g;
     ProcessSelinuxLabel := ProcessSelinuxLabel g;
     ProcessAdditionalGids := ProcessAdditionalGids g;
     ProcessOOMScoreAdj := ProcessOOMScoreAdj g; RootPath := RootPath g;
     RootReadonly := RootReadonly g; SpecHostname := SpecHostname g;
     LinuxCgroupsPath := path; LinuxNamespaces := LinuxNamespaces g;
     LinuxMountLabel := LinuxMountLabel g; LinuxSysctl := LinuxSysctl g;
     LinuxCPUShares := LinuxCPUShares g |}.

Definition SetLinuxNamespaces (nss : list LinuxNamespace) (g : Spec) : Spec :=
  {| ProcessArgs := ProcessArgs g; ProcessCwd := ProcessCwd g; ProcessEnv := ProcessEnv g;
     ProcessSelinuxLabel := ProcessSelinuxLabel g;
     ProcessAdditionalGids := ProcessAdditionalGids g;
     ProcessOOMScoreAdj := ProcessOOMScoreAdj g; RootPath := RootPath g;
     RootReadonly := RootReadonly g; SpecHostname := SpecHostname g;
     LinuxCgroupsPath := LinuxCgroupsPath g; LinuxNamespaces := nss;
     LinuxMountLabel := LinuxMountLabel g; LinuxSysctl := LinuxSysctl g;
     LinuxCPUShares := LinuxCPUShares g |}.

Definition SetProcessSelinuxLabel (l : string) (g : Spec) : Spec :=
  {| ProcessArgs := ProcessArgs g; ProcessCwd := ProcessCwd g; ProcessEnv := ProcessEnv g;
     ProcessSelinuxLabel := l;
     ProcessAdditionalGids := ProcessAdditionalGids g;
     ProcessOOMScoreAdj := ProcessOOMScoreAdj g; RootPath := RootPath g;
     RootReadonly := RootReadonly g; SpecHostname := SpecHostname g;
     LinuxCgroupsPath := LinuxCgroupsPath g; LinuxNamespaces := LinuxNamespaces g;
     LinuxMountLabel := LinuxMountLabel g; LinuxSysctl := LinuxSysctl g;
     LinuxCPUShares := LinuxCPUShares g |}.

Definition SetLinuxMountLabel (l : string) (g : Spec) : Spec :=
  {| ProcessArgs := ProcessArgs g; ProcessCwd := ProcessCwd g; ProcessEnv := ProcessEnv g;
     ProcessSelinuxLabel := ProcessSelinuxLabel g;
     ProcessAdditionalGids := ProcessAdditionalGids g;
     ProcessOOMScoreAdj := ProcessOOMScoreAdj g; RootPath := RootPath g;
     RootReadonly := RootReadonly g; SpecHostname := SpecHostname g;
     LinuxCgroupsPath := LinuxCgroupsPath g; LinuxNamespaces := LinuxNamespaces g;
     LinuxMountLabel := l; LinuxSysctl := LinuxSysctl g;
     LinuxCPUShares := LinuxCPUShares g |}.

Definition SetAdditionalGids (gids : list Z) (g : Spec) : Spec :=
  {| ProcessArgs := ProcessArgs g; ProcessCwd := ProcessCwd g; ProcessEnv := ProcessEnv g;
     ProcessSelinuxLabel := ProcessSelinuxLabel g;
     ProcessAdditionalGids := gids;
     ProcessOOMScoreAdj := ProcessOOMScoreAdj g; RootPath := RootPath g;
     RootReadonly := RootReadonly g; SpecHostname := SpecHostname g;
     LinuxCgroupsPath := LinuxCgroupsPath g; LinuxNamespaces := LinuxNamespaces g;
     LinuxMountLabel := LinuxMountLabel g; LinuxSysctl := LinuxSysctl g;
     LinuxCPUShares := LinuxCPUShares g |}.

Definition SetLinuxSysctl (m : gmap string string) (g : Spec) : Spec :=
  {| ProcessArgs := ProcessArgs g; ProcessCwd := ProcessCwd g; ProcessEnv := ProcessEnv g;
     ProcessSelinuxLabel := ProcessSelinuxLabel g;
     ProcessAdditionalGids := ProcessAdditionalGids g;
     ProcessOOMScoreAdj := ProcessOOMScoreAdj g; RootPath := RootPath g;
     RootReadonly := RootReadonly g; SpecHostname := SpecHostname g;
     LinuxCgroupsPath := LinuxCgroupsPath g; LinuxNamespaces := LinuxNamespaces g;
     LinuxMountLabel := LinuxMountLabel g; LinuxSysctl := m;
     LinuxCPUShares := LinuxCPUShares g |}.

Definition SetLinuxResourcesCPUShares (shares : Z) (g : Spec) : Spec :=
  {| ProcessArgs := ProcessArgs g; ProcessCwd := ProcessCwd g; ProcessEnv := ProcessEnv g;
     ProcessSelinuxLabel := ProcessSelinuxLabel g;
     ProcessAdditionalGids := ProcessAdditionalGids g;
     ProcessOOMScoreAdj := ProcessOOMScoreAdj g; RootPath := RootPath g;
     RootReadonly := RootReadonly g; SpecHostname := SpecHostname g;
     LinuxCgroupsPath := LinuxCgroupsPath g; LinuxNamespaces := LinuxNamespaces g;
     LinuxMountLabel := LinuxMountLabel g; LinuxSysctl := LinuxSysctl g;
     LinuxCPUShares := Some shares |}.

Definition SetProcessOOMScoreAdj (adj : Z) (g : Spec) : Spec :=
  {| ProcessArgs := ProcessArgs g; ProcessCwd := ProcessCwd g; ProcessEnv := ProcessEnv g;
     ProcessSelinuxLabel := ProcessSelinuxLabel g;
     ProcessAdditionalGids := ProcessAdditionalGids g;
     ProcessOOMScoreAdj := Some adj; RootPath := RootPath g;
     RootReadonly := RootReadonly g; SpecHostname := SpecHostname g;
     LinuxCgroupsPath := LinuxCgroupsPath g; LinuxNamespaces := LinuxNamespaces g;
     LinuxMountLabel := LinuxMountLabel g; LinuxSysctl := LinuxSysctl g;
     LinuxCPUShares := LinuxCPUShares g |}.

(** The namespace list of [g.spec.Linux.Namespaces]: removal drops the
    first entry of the type, add-or-replace overwrites the first entry of
    the type or appends. *)
Fixpoint remove_ns (t : NamespaceType) (l : list LinuxNamespace)
  : list LinuxNamespace :=
  match l with
  | [] => []
  | n :: r => if decide (nsType n = t) then r else n :: remove_ns t r
  end.

Fixpoint add_or_replace_ns (n : LinuxNamespace) (l : list LinuxNamespace)
  : list LinuxNamespace :=
  match l with
  | [] => [n]
  | m :: r =>
      if decide (nsType m = nsType n) then n :: r
      else m :: add_or_replace_ns n r
  end.

Definition RemoveLinuxNamespace (t : NamespaceType) (g : Spec) : Spec :=
  SetLinuxNamespaces (remove_ns t (LinuxNamespaces g)) g.

Definition AddOrReplaceLinuxNamespace (t : NamespaceType) (path : string)
    (g : Spec) : Spec :=
  SetLinuxNamespaces
    (add_or_replace_ns {| nsType := t; nsPath := path |} (LinuxNamespaces g)) g.

Definition AddProcessAdditionalGid (gid : Z) (g : Spec) : Spec :=
  SetAdditionalGids (ProcessAdditionalGids g ++ [gid]) g.

Definition AddLinuxSysctl (key value : string) (g : Spec) : Spec :=
  SetLinuxSysctl (<[key := value]> (LinuxSysctl g)) g.

Definition AddProcessEnvs (envs : list string) (g : Spec) : Spec :=
  SetProcessEnv (ProcessEnv g ++ envs) g.

End Generator.

(** The entries of a namespace type in a specification. *)
Definition ns_entries (t : NamespaceType) (s : Spec) : list LinuxNamespace :=
  filter (λ n, nsType n = t) (LinuxNamespaces s).

(** ** Images, sandboxes, containers *)

(** [imagespec.ImageConfig]. *)
Record ImageConfig := {
  Env_ : list string;
  Entrypoint : list string;
  Cmd : list string;
  WorkingDir : string;
}.

(** What [ensureImageExists] returns: the containerd image and its
    config. *)
Record Image := { imgImage : string; imgConfig : ImageConfig }.

(** [sandboxstore.NetNS], the handle of a created namespace. *)
Record NetNS := { GetPath : string }.

(** [sandboxstore.Sandbox], with the fields of its embedded [Metadata]. *)
Record Sandbox := {
  sbID : string;
  sbName : string;
  sbConfig : PodSandboxConfig;
  sbNetNSPath : string;
  sbNetNS : option NetNS;
  sbContainer : option string;
}.

Inductive SpecOpt :=
  | WithUserID (uid : Z)
  | SeccompSpecOpt (profile : string).

(** The options handed to [c.client.NewContainer]. *)
Record Container := {
  cSnapshotter : string;
  cImage : string;
  cSnapshotKey : string;
  cSpec : Spec;
  cSpecOpts : list SpecOpt;
  cLabels : gmap string string;
  cExtension : Sandbox;
  cRuntime : string;
  cRuntimeEngine : string;
  cRuntimeRoot : string;
  cSystemdCgroup : bool;
}.

Inductive TaskStatus := TaskCreated | TaskRunning.

(** The state of all collaborators and the log of the calls made so far
    (oldest first). *)
Record World := {
  names : gmap string string;          (* c.sandboxNameIndex *)
  netns : gset string;                 (* live network namespaces, by path *)
  cni : gmap string PodNetwork;        (* pods wired by c.netPlugin, by id *)
  containers : gmap string Container;  (* containerd containers, by id *)
  tasks : gmap string TaskStatus;      (* containerd tasks, by container id *)
  os : OSState;                        (* c.os *)
  store : gmap string Sandbox;         (* c.sandboxStore *)
  log : list Event;
}.

Definition set_names (f : gmap string string → gmap string string) (w : World) :=
  {| names := f (names w); netns := netns w; cni := cni w;
     containers := containers w; tasks := tasks w; os := os w;
     store := store w; log := log w |}.
Definition set_netns (f : gset string → gset string) (w : World) :=
  {| names := names w; netns := f (netns w); cni := cni w;
     containers := containers w; tasks := tasks w; os := os w;
     store := store w; log := log w |}.
Definition set_cni (f : gmap string PodNetwork → gmap string PodNetwork) (w : World) :=
  {| names := names w; netns := netns w; cni := f (cni w);
     containers := containers w; tasks := tasks w; os := os w;
     store := store w; log := log w |}.
Definition set_containers (f : gmap string Container → gmap string Container)
    (w : World) :=
  {| names := names w; netns := netns w; cni := cni w;
     containers := f (containers w); tasks := tasks w; os := os w;
     store := store w; log := log w |}.
Definition set_tasks (f : gmap string TaskStatus → gmap string TaskStatus)
    (w : World) :=
  {| names := names w; netns := netns w; cni := cni w;
     containers := containers w; tasks := f (tasks w); os := os w;
     store := store w; log := log w |}.
Definition set_os (f : OSState → OSState) (w : World) :=
  {| names := names w; netns := netns w; cni := cni w;
     containers := containers w; tasks := tasks w; os := f (os w);
     store := store w; log := log w |}.
Definition set_store (f : gmap string Sandbox → gmap string Sandbox) (w : World) :=
  {| names := names w; netns := netns w; cni := cni w;
     containers := containers w; tasks := tasks w; os := os w;
     store := f (store w); log := log w |}.
Definition set_log (f : list Event → list Event) (w : World) :=
  {| names := names w; netns := netns w; cni := cni w;
     containers := containers w; tasks := tasks w; os := os w;
     store := store w; log := f (log w) |}.

Definition set_files (f : gmap string string → gmap string string) (o : OSState) :=
  {| files := f (files o); dirs := dirs o; mounts := mounts o |}.
Definition set_dirs (f : gset string → gset string) (o : OSState) :=
  {| files := files o; dirs := f (dirs o); mounts := mounts o |}.
Definition set_mounts (f : gmap string MountEntry → gmap string MountEntry)
    (o : OSState) :=
  {| files := files o; dirs := dirs o; mounts := f (mounts o) |}.

(** ** The service

    [criContainerdService] holds the configuration [c.config] (here [c_config]), the flag
    [c.seccompEnabled], and what this file takes from outside: the helpers
    of the package that are declared in other files, the outcome of the
    random or external choices of one request ([util.GenerateID], the image
    found, the path of the next namespace) and, for every collaborator
    call, whether it fails ([fault]). *)

Record Config := {
  SandboxImage : string;
  Snapshotter : string;
  Runtime : string;
  RuntimeEngine : string;
  RuntimeRoot : string;
  SystemdCgroup : bool;
  RootDir : string;
}.

Record criContainerdService := {
  c_config : Config;
  seccompEnabled : bool;
  (* helpers of the package declared outside this file *)
  makeSandboxName : option PodSandboxMetadata → string;
  defaultRuntimeSpec : string → result Spec;
  getCgroupsPath : string → string → bool → string;
  initSelinuxOpts : option SELinuxOption → result (string * string);
  generateSeccompSpecOpts : string → bool → bool → result (option SpecOpt);
  buildLabels : gmap string string → string → gmap string string;
  defaultSandboxCPUshares : Z;
  defaultSandboxOOMAdj : Z;
  (* choices of one request *)
  GenerateID : string;
  sandboxImage : Image;
  nextNetNSPath : string;
  fault : Call → bool;
}.

(** Constants of the package; the comments of the file give their values. *)
Definition etcHosts : string := "/etc/hosts".
Definition resolvConfPath : string := "/etc/resolv.conf".
Definition devShm : string := "/dev/shm".
Definition relativeRootfsPath : string := "rootfs".
Definition containerKindSandbox : string := "sandbox".
Definition defaultShmSize : Z := 1024 * 1024 * 64.

(** [golang.org/x/sys/unix] on Linux. *)
Definition MS_NOSUID : Z := 2.
Definition MS_NODEV : Z := 4.
Definition MS_NOEXEC : Z := 8.
Definition MNT_DETACH : Z := 2.

(** File modes, written in octal in the Go code. *)
Definition mode_0644 : Z := 6 * 64 + 4 * 8 + 4.
Definition mode_0755 : Z := 7 * 64 + 5 * 8 + 5.
Definition mode_0700 : Z := 7 * 64.

(** [filepath.Join] of a directory and a name. *)
Definition filepath_Join (dir name : string) : string := dir ++ "/" ++ name.

(** Modelled from the spec: the path helpers are declared outside this
    file; the spec gives the persisted layout, a root directory per sandbox
    id that contains an [etc-hosts] file, a [resolv.conf] file and a [shm]
    mount point. *)
Definition getSandboxRootDir (rootDir id : string) : string :=
  filepath_Join rootDir id.
Definition getSandboxHosts (sandboxRootDir : string) : string :=
  filepath_Join sandboxRootDir "etc-hosts".
Definition getResolvPath (sandboxRootDir : string) : string :=
  filepath_Join sandboxRootDir "resolv.conf".
Definition getSandboxDevShm (sandboxRootDir : string) : string :=
  filepath_Join sandboxRootDir "shm".

(** ** A state and error monad *)

Definition ST (S A : Type) : Type := S → result A * S.

Definition ret {S A} (a : A) : ST S A := λ s, (OK a, s).
Definition fail {S A} (e : error) : ST S A := λ s, (Err e, s).
Definition bind {S A B} (m : ST S A) (k : A → ST S B) : ST S B :=
  λ s, match m s with
       | (OK a, s') => k a s'
       | (Err e, s') => (Err e, s')
       end.

Notation "'do' x ← m ; k" := (bind m (λ x, k))
  (at level 10, x name, m at level 100, k at level 200,
   format "'[v' 'do'  x  ←  m ; '/' k ']'").

(** [if err != nil { return fmt.Errorf(site, err) }]. *)
Definition wrap {S A} (s : Site) (m : ST S A) : ST S A :=
  λ st, match m st with
        | (OK a, st') => (OK a, st')
        | (Err e, st') => (Err (Wrap s e), st')
        end.

(** A pure fallible computation as a step. *)
Definition pure {S A} (r : result A) : ST S A := λ s, (r, s).

Definition is_OK {A} (r : result A) : bool :=
  match r with OK _ => true | Err _ => false end.

(** A collaborator call: run it and append it to the log with its
    outcome. *)
Definition logged {A} (c : Call) (m : ST World A) : ST World A :=
  λ w, let '(r, w') := m w in (r, set_log (λ l, (l ++ [(c, is_OK r)])%list) w').

(** A collaborator call that fails when the environment says so, leaving
    the world as it was, and otherwise has the given effect. *)
Definition external {A} (svc : criContainerdService) (c : Call) (what : string)
    (a : A) (effect : World → World) : ST World A :=
  logged c (λ w, if fault svc c then (Err (External what), w)
                 else (OK a, effect w)).

(** ** The collaborators *)

Section Collaborators.
Context (c : criContainerdService).

(** Modelled from the spec: the name index is declared outside this
    file. [Reserve] fails when the name is reserved by a different id and
    otherwise records the mapping; [ReleaseByName] never fails. *)
Definition sandboxNameIndex_Reserve (name id : string) : ST World unit :=
  logged (Reserve name id) (λ w,
    match names w !! name with
    | Some k => if decide (k = id) then (OK (), w)
                else (Err (NameReserved name k), w)
    | None => (OK (), set_names (<[name := id]>) w)
    end).

Definition sandboxNameIndex_ReleaseByName (name : string) : ST World unit :=
  logged (ReleaseByName name) (λ w, (OK (), set_names (delete name) w)).

(** Modelled from the spec: the sandbox store is declared outside this
    file. [Add] fails if the id already exists. *)
Definition sandboxStore_Add (sb : Sandbox) : ST World unit :=
  logged (StoreAdd (sbID sb)) (λ w,
    match store w !! sbID sb with
    | Some _ => (Err (DuplicateID (sbID sb)), w)
    | None => (OK (), set_store (<[sbID sb := sb]>) w)
    end).

Definition ensureImageExists (ref : string) : ST World Image :=
  external c (EnsureImageExists ref) "image" (sandboxImage c) id.

Definition sandboxstore_NewNetNS : ST World NetNS :=
  let p := nextNetNSPath c in
  external c (NewNetNS p) "netns" {| GetPath := p |} (set_netns (λ s, {[p]} ∪ s)).

Definition NetNS_Remove (n : NetNS) : ST World unit :=
  external c (NetNSRemove (GetPath n)) "netns" ()
    (set_netns (λ s, s ∖ {[GetPath n]})).

Definition netPlugin_SetUpPod (pn : PodNetwork) : ST World unit :=
  external c (SetUpPod pn) "cni" () (set_cni (<[pnID pn := pn]>)).

Definition netPlugin_TearDownPod (pn : PodNetwork) : ST World unit :=
  external c (TearDownPod pn) "cni" () (set_cni (delete (pnID pn))).

Definition client_NewContainer (id : string) (opts : Container)
  : ST World string :=
  external c (NewContainer id) "containerd" id (set_containers (<[id := opts]>)).

Definition container_Delete (id : string) : ST World unit :=
  external c (ContainerDelete id) "containerd" () (set_containers (delete id)).

Definition container_NewTask (id : string) : ST World string :=
  external c (NewTask id) "containerd" id (set_tasks (<[id := TaskCreated]>)).

Definition task_Delete (id : string) : ST World unit :=
  external c (TaskDelete id) "containerd" () (set_tasks (delete id)).

Definition task_Start (id : string) : ST World unit :=
  external c (TaskStart id) "containerd" () (set_tasks (<[id := TaskRunning]>)).

(** *** The OS layer [c.os]

    Modelled from the spec: the OS interface is declared outside this
    file. Its primitives are directory create and recursive remove, file
    copy and write, mount, unmount and stat. A call fails when the
    environment says so ([EOTHER]); copying a missing file and stat of a
    missing path fail with [ENOENT]. *)

Definition os_call {A} (k : Call) (m : OSState → result A * OSState)
  : ST World A :=
  logged k (λ w,
    if fault c k then (Err (Errno EOTHER), w)
    else let '(r, o) := m (os w) in (r, set_os (λ _, o) w)).

Definition os_MkdirAll (path : string) (perm : Z) : ST World unit :=
  os_call (MkdirAll path perm) (λ o, (OK (), set_dirs (λ d, {[path]} ∪ d) o)).

(** [path] itself or a path below it. *)
Definition under (root path : string) : bool :=
  bool_decide (path = root) || String.prefix (root ++ "/") path.

Definition os_RemoveAll (path : string) : ST World unit :=
  os_call (RemoveAll path) (λ o,
    (OK (),
     set_files (filter (λ kv, ¬ under path kv.1))
       (set_dirs (filter (λ d, ¬ under path d)) o))).

Definition os_CopyFile (src dst : string) (perm : Z) : ST World unit :=
  os_call (CopyFile src dst perm) (λ o,
    match files o !! src with
    | Some data => (OK (), set_files (<[dst := data]>) o)
    | None => (Err (Errno ENOENT), o)
    end).

Definition os_WriteFile (path data : string) (perm : Z) : ST World unit :=
  os_call (WriteFile path data perm) (λ o,
    (OK (), set_files (<[path := data]>) o)).

Definition exists_path (o : OSState) (path : string) : bool :=
  bool_decide (path ∈ dirs o) || bool_decide (is_Some (files o !! path)).

Definition os_Stat (path : string) : ST World unit :=
  os_call (Stat path) (λ o,
    if exists_path o path then (OK (), o) else (Err (Errno ENOENT), o)).

Definition os_Mount (source target fstype : string) (flags : Z) (data : string)
  : ST World unit :=
  os_call (Mount source target fstype flags data) (λ o,
    (OK (), set_mounts (<[target :=
        {| mSource := source; mFstype := fstype; mFlags := flags;
           mData := data |}]>) o)).

(** [Unmount] does nothing, without error, when the target is not
    mounted, and reports [ENOENT] when the target does not exist; only
    the unmount of a mounted target can fail otherwise. *)
Definition os_Unmount (target : string) (flags : Z) : ST World unit :=
  logged (Unmount target flags) (λ w,
    match mounts (os w) !! target with
    | None =>
        if exists_path (os w) target then (OK (), w)
        else (Err (Errno ENOENT), w)
    | Some _ =>
        if fault c (Unmount target flags) then (Err (Errno EOTHER), w)
        else (OK (), set_os (set_mounts (delete target)) w)
    end).

(** [os.IsNotExist]. *)
Definition os_IsNotExist (e : error) : bool :=
  match e with Errno ENOENT => true | _ => false end.

End Collaborators.

(** ** The specification builder *)

(** Go's conversion [uint32(x)] of an [int64]. *)
Definition uint32 (x : Z) : Z := x mod 2 ^ 32.

(** Modelled from the spec: [addImageEnvs] is declared outside this file.
    It imports the variables of the image config into the process
    environment; as its error result shows it can refuse one, here a
    variable that has no [=]. *)
Fixpoint has_equals (s : string) : bool :=
  match s with
  | EmptyString => false
  | String a r => bool_decide (a = "="%char) || has_equals r
  end.

Fixpoint addImageEnvs (g : Spec) (imageEnvs : list string) : result Spec :=
  match imageEnvs with
  | [] => OK g
  | e :: r =>
      if has_equals e then addImageEnvs (Generator.AddProcessEnvs [e] g) r
      else Err (InvalidEnv e)
  end.

(** [generateSandboxContainerSpec]. *)
Definition generateSandboxContainerSpec (c : criContainerdService) (id : string)
    (config : PodSandboxConfig) (imageConfig : ImageConfig) (nsPath : string)
  : result Spec :=
  (* Creates a spec Generator with the default spec. *)
  match defaultRuntimeSpec c id with
  | Err e => Err e
  | OK spec =>
  let g := spec in
  (* Apply default config from image config. *)
  match addImageEnvs g (Env_ imageConfig) with
  | Err e => Err e
  | OK g =>
  let g := if decide (WorkingDir imageConfig ≠ "")
           then Generator.SetProcessCwd (WorkingDir imageConfig) g else g in
  if (length (Entrypoint imageConfig) =? 0)%nat then
    (* Pause image must have entrypoint. *)
    Err EmptyEntrypoint
  else
  (* Set process commands. *)
  let g := Generator.SetProcessArgs
             (Entrypoint imageConfig ++ Cmd imageConfig)%list g in
  (* Set relative root path. *)
  let g := Generator.SetRootPath relativeRootfsPath g in
  (* Make root of sandbox container read-only. *)
  let g := Generator.SetRootReadonly true g in
  (* Set hostname. *)
  let g := Generator.SetHostname (Hostname config) g in
  (* Set cgroups parent. *)
  let g := if decide (GetCgroupParent (Linux config) ≠ "")
           then
             let cgroupsPath :=
               getCgroupsPath c (GetCgroupParent (Linux config)) id
                 (SystemdCgroup (c_config c)) in
             Generator.SetLinuxCgroupsPath cgroupsPath g
           else g in
  (* Set namespace options. *)
  let securityContext := GetSecurityContext (Linux config) in
  let nsOptions := GetNamespaceOptions securityContext in
  let g := if GetHostNetwork nsOptions
           then Generator.RemoveLinuxNamespace NetworkNamespace g
           else Generator.AddOrReplaceLinuxNamespace NetworkNamespace nsPath g in
  let g := if GetHostPid nsOptions
           then Generator.RemoveLinuxNamespace PIDNamespace g else g in
  let g := if GetHostIpc nsOptions
           then Generator.RemoveLinuxNamespace IPCNamespace g else g in
  let selinuxOpt := GetSelinuxOptions securityContext in
  match initSelinuxOpts c selinuxOpt with
  | Err e => Err (Wrap FailedInitSelinux e)
  | OK (processLabel, mountLabel) =>
  let g := Generator.SetProcessSelinuxLabel processLabel g in
  let g := Generator.SetLinuxMountLabel mountLabel g in
  let supplementalGroups := GetSupplementalGroups securityContext in
  let g := foldl (λ g group, Generator.AddProcessAdditionalGid (uint32 group) g)
             g supplementalGroups in
  (* Add sysctls *)
  let sysctls := GetSysctls (Linux config) in
  let g := map_fold (λ key value g, Generator.AddLinuxSysctl key value g)
             g sysctls in
  let g := Generator.SetLinuxResourcesCPUShares (defaultSandboxCPUshares c) g in
  let g := Generator.SetProcessOOMScoreAdj (defaultSandboxOOMAdj c) g in
  OK g
  end end end.

(** ** The sandbox files *)

Section Files.
Context (c : criContainerdService).

(** [setupSandboxFiles] sets up /dev/shm, /etc/hosts and
    /etc/resolv.conf of the sandbox. *)
Definition setupSandboxFiles (rootDir : string) (config : PodSandboxConfig)
  : ST World unit :=
  let sandboxEtcHosts := getSandboxHosts rootDir in
  do _ ← wrap FailedHostsFile (os_CopyFile c etcHosts sandboxEtcHosts mode_0644);
  (* Set DNS options. Maintain a resolv.conf for the sandbox. *)
  do resolvContent ←
    match DnsConfig config with
    | Some dnsConfig =>
        wrap FailedParseDNS
          (pure (parseDNSOptions (Servers dnsConfig) (Searches dnsConfig)
                   (Options dnsConfig)))
    | None => ret ""
    end;
  let resolvPath := getResolvPath rootDir in
  do _ ←
    if decide (resolvContent = "") then
      (* copy host's resolv.conf to resolvPath *)
      wrap FailedCopyResolv (os_CopyFile c resolvConfPath resolvPath mode_0644)
    else
      wrap FailedWriteResolv (os_WriteFile c resolvPath resolvContent mode_0644);
  (* Setup sandbox /dev/shm. *)
  do _ ←
    if hostIpcOf config then
      wrap HostShmUnavailable (os_Stat c devShm)
    else
      let sandboxDevShm := getSandboxDevShm rootDir in
      do _ ← wrap FailedCreateShm (os_MkdirAll c sandboxDevShm mode_0700);
      let shmproperty := "mode=1777,size=" ++ GoStrings.itoa defaultShmSize in
      wrap FailedMountShm
        (os_Mount c "shm" sandboxDevShm "tmpfs"
           (Z.lor (Z.lor MS_NOEXEC MS_NOSUID) MS_NODEV) shmproperty);
  ret ().

(** [unmountSandboxFiles] unmounts some sandbox files; the removal of
    the sandbox root directory removes the files. *)
Definition unmountSandboxFiles (rootDir : string) (config : PodSandboxConfig)
  : ST World unit :=
  if negb (hostIpcOf config) then
    λ w, match os_Unmount c (getSandboxDevShm rootDir) MNT_DETACH w with
         | (Err err, w') =>
             if negb (os_IsNotExist err) then (Err err, w') else (OK (), w')
         | (OK _, w') => (OK (), w')
         end
  else ret ().

End Files.

(** ** The saga [RunPodSandbox] *)

(** A deferred function reads the named result [retErr] and may touch the
    local [sandbox] and the collaborators. *)
Definition Deferred : Type := option error → Sandbox * World → Sandbox * World.

(** The frame of one call: the local variable [sandbox], the world, and the
    stack of deferred functions (last registered first). *)
Record Frame := {
  sandbox : Sandbox;
  world : World;
  deferred : list Deferred;
}.

Definition liftW {A} (m : ST World A) : ST Frame A :=
  λ f, let '(r, w') := m (world f) in
       (r, {| sandbox := sandbox f; world := w'; deferred := deferred f |}).

Definition defer (d : Deferred) : ST Frame unit :=
  λ f, (OK (), {| sandbox := sandbox f; world := world f;
                  deferred := d :: deferred f |}).

Definition get_sandbox : ST Frame Sandbox := λ f, (OK (sandbox f), f).

Definition update_sandbox (g : Sandbox → Sandbox) : ST Frame unit :=
  λ f, (OK (), {| sandbox := g (sandbox f); world := world f;
                  deferred := deferred f |}).

(** A clean-up whose error is only logged with [glog.Errorf]. *)
Definition logging_error (m : ST World unit) (w : World) : World := (m w).2.

(** [if retErr != nil { ... }] inside a deferred function. *)
Definition on_error (cleanup : Sandbox * World → Sandbox * World) : Deferred :=
  λ retErr st, match retErr with Some _ => cleanup st | None => st end.

Definition with_NetNS (n : option NetNS) (path : string) (sb : Sandbox) :=
  {| sbID := sbID sb; sbName := sbName sb; sbConfig := sbConfig sb;
     sbNetNSPath := path; sbNetNS := n; sbContainer := sbContainer sb |}.

Definition with_Container (ctr : option string) (sb : Sandbox) :=
  {| sbID := sbID sb; sbName := sbName sb; sbConfig := sbConfig sb;
     sbNetNSPath := sbNetNSPath sb; sbNetNS := sbNetNS sb; sbContainer := ctr |}.

(** The request; [r.GetConfig()] is assumed to be present (the function
    dereferences it). *)
Record RunPodSandboxRequest := { GetConfig : PodSandboxConfig }.

Section Saga.
Context (c : criContainerdService).

(** The body of [RunPodSandbox], up to its [return]. *)
Definition RunPodSandbox_body (r : RunPodSandboxRequest) : ST Frame string :=
  let config := GetConfig r in
  (* Generate unique id and name for the sandbox and reserve the name. *)
  let id := GenerateID c in
  let name := makeSandboxName c (Metadata config) in
  do _ ← liftW (wrap FailedReserveName (sandboxNameIndex_Reserve name id));
  do _ ← defer (on_error (λ '(sb, w),
      (* Release the name if the function returns with an error. *)
      (sb, logging_error (sandboxNameIndex_ReleaseByName name) w)));
  (* Ensure sandbox container image snapshot. *)
  do image ← liftW (wrap FailedGetImage
                      (ensureImageExists c (SandboxImage (c_config c))));
  let securityContext := GetSecurityContext (Linux config) in
  (* Create Network Namespace if it is not in host network *)
  let hostNet := GetHostNetwork (GetNamespaceOptions securityContext) in
  do _ ←
    if negb hostNet then
      do ns ← liftW (wrap FailedCreateNetNS (sandboxstore_NewNetNS c));
      do _ ← update_sandbox (with_NetNS (Some ns) (GetPath ns));
      do _ ← defer (on_error (λ '(sb, w),
          let w := match sbNetNS sb with
                   | Some n => logging_error (NetNS_Remove c n) w
                   | None => w
                   end in
          (with_NetNS (sbNetNS sb) "" sb, w)));
      do sb ← get_sandbox;
      (* Setup network for sandbox. *)
      let podNetwork :=
        {| pnName := GetName (Metadata config);
           pnNamespace := GetNamespace (Metadata config);
           pnID := id;
           pnNetNS := sbNetNSPath sb;
           pnPortMappings := toCNIPortMappings (PortMappings config) |} in
      do _ ← liftW (wrap FailedSetupNetwork (netPlugin_SetUpPod c podNetwork));
      defer (on_error (λ '(sb, w),
          (* Teardown network if an error is returned. *)
          (sb, logging_error (netPlugin_TearDownPod c podNetwork) w)))
    else ret ();
  (* Create sandbox container. *)
  do sb ← get_sandbox;
  do spec ← wrap FailedGenerateSpec
              (pure (generateSandboxContainerSpec c id config (imgConfig image)
                       (sbNetNSPath sb)));
  let specOpts : list SpecOpt := [] in
  let specOpts :=
    (* if uid := securityContext.GetRunAsUser(); uid != nil *)
    from_option (λ uid, (specOpts ++ [WithUserID (uint32 uid)])%list) specOpts
      (GetRunAsUser securityContext) in
  do seccompSpecOpts ←
    wrap FailedSeccomp
      (pure (generateSeccompSpecOpts c (GetSeccompProfilePath securityContext)
               (GetPrivileged securityContext) (seccompEnabled c)));
  let specOpts :=
    (* if seccompSpecOpts != nil *)
    from_option (λ o, (specOpts ++ [o])%list) specOpts seccompSpecOpts in
  let sandboxLabels := buildLabels c (Labels config) containerKindSandbox in
  let opts :=
    {| cSnapshotter := Snapshotter (c_config c);
       cImage := imgImage image;
       cSnapshotKey := id;
       cSpec := spec;
       cSpecOpts := specOpts;
       cLabels := sandboxLabels;
       cExtension := sb;
       cRuntime := Runtime (c_config c);
       cRuntimeEngine := RuntimeEngine (c_config c);
       cRuntimeRoot := RuntimeRoot (c_config c);
       cSystemdCgroup := SystemdCgroup (c_config c) |} in
  do container ← liftW (wrap FailedCreateContainer (client_NewContainer c id opts));
  do _ ← defer (on_error (λ '(sb, w),
      (sb, logging_error (container_Delete c container) w)));
  (* Create sandbox container root directory. *)
  let sandboxRootDir := getSandboxRootDir (RootDir (c_config c)) id in
  do _ ← liftW (wrap FailedCreateRootDir (os_MkdirAll c sandboxRootDir mode_0755));
  do _ ← defer (on_error (λ '(sb, w),
      (* Cleanup the sandbox root directory. *)
      (sb, logging_error (os_RemoveAll c sandboxRootDir) w)));
  (* Setup sandbox /dev/shm, /etc/hosts and /etc/resolv.conf. *)
  do _ ← liftW (wrap FailedSetupFiles (setupSandboxFiles c sandboxRootDir config));
  do _ ← defer (on_error (λ '(sb, w),
      (sb, logging_error (unmountSandboxFiles c sandboxRootDir config) w)));
  (* Create sandbox task in containerd. *)
  do task ← liftW (wrap FailedCreateTask (container_NewTask c container));
  do _ ← defer (on_error (λ '(sb, w),
      (* Cleanup the sandbox container if an error is returned. *)
      (sb, logging_error (task_Delete c task) w)));
  do _ ← liftW (wrap FailedStartTask (task_Start c task));
  (* Add sandbox into sandbox store. *)
  do _ ← update_sandbox (with_Container (Some container));
  do sb ← get_sandbox;
  do _ ← liftW (wrap FailedAddStore (sandboxStore_Add sb));
  ret id.

(** Go runs the deferred functions when the function returns, last
    registered first, each seeing the error being returned. *)
Definition run_deferred (retErr : option error) (ds : list Deferred)
    (st : Sandbox * World) : Sandbox * World :=
  foldl (λ st d, d retErr st) st ds.

Definition retErr_of {A} (r : result A) : option error :=
  match r with OK _ => None | Err e => Some e end.

(** [RunPodSandbox] creates and starts a pod-level sandbox. *)
Definition RunPodSandbox (r : RunPodSandboxRequest) : ST World string :=
  λ w,
    let config := GetConfig r in
    let frame :=
      {| sandbox := {| sbID := GenerateID c;
                       sbName := makeSandboxName c (Metadata config);
                       sbConfig := config;
                       sbNetNSPath := ""; sbNetNS := None;
                       sbContainer := None |};
         world := w;
         deferred := [] |} in
    let '(res, f) := RunPodSandbox_body r frame in
    (res, (run_deferred (retErr_of res) (deferred f) (sandbox f, world f)).2).

End Saga.

(** * Definitions used in the statements *)

(** The three kinds of line of a resolver file. *)
Definition search_line (searches : list string) : string :=
  match searches with
  | [] => ""
  | _ => "search " ++ GoStrings.Join searches " " ++ GoStrings.nl
  end.

Definition nameserver_lines (servers : list string) : string :=
  String.concat "" (map (λ s, "nameserver " ++ s ++ GoStrings.nl) servers).

Definition options_line (options : list string) : string :=
  match options with
  | [] => ""
  | _ => "options " ++ GoStrings.Join options " " ++ GoStrings.nl
  end.

(** The CNI entry of one CRI mapping. *)
Definition toCNI (mapping : PortMapping) : CNIPortMapping :=
  {| cniHostPort := HostPort mapping;
     cniContainerPort := ContainerPort mapping;
     cniProtocol := GoStrings.ToLower (Protocol_String (Protocol_ mapping));
     cniHostIP := HostIp mapping |}.

Definition shm_mount_entry : MountEntry :=
  {| mSource := "shm"; mFstype := "tmpfs";
     mFlags := Z.lor (Z.lor MS_NOEXEC MS_NOSUID) MS_NODEV;
     mData := "mode=1777,size=67108864" |}.

Definition is_Mount (k : Call) : bool :=
  match k with Mount _ _ _ _ _ => true | _ => false end.
Definition is_MkdirAll (k : Call) : bool :=
  match k with MkdirAll _ _ => true | _ => false end.
Definition is_WriteFile (k : Call) : bool :=
  match k with WriteFile _ _ _ => true | _ => false end.


(** The call that provides the sandbox resolv.conf for a rendered
    content. *)
Definition resolv_call (rootDir content : string) : Call :=
  if decide (content = "")
  then CopyFile resolvConfPath (getResolvPath rootDir) mode_0644
  else WriteFile (getResolvPath rootDir) content mode_0644.

(** The baseline specification has at most one entry per namespace type
    (the runtime specification forbids duplicates). *)
Definition baseline_ok (c : criContainerdService) (id : string) : Prop :=
  ∀ g, defaultRuntimeSpec c id = OK g →
       (length (ns_entries NetworkNamespace g) ≤ 1)%nat.

Definition is_compensation (k : Call) : bool :=
  match k with
  | ReleaseByName _ | NetNSRemove _ | TearDownPod _ | ContainerDelete _
  | RemoveAll _ | Unmount _ _ | TaskDelete _ => true
  | _ => false
  end.

(** The call that undoes a completed call of a run whose sandbox root
    directory is [sandboxRootDir]. Files and directories below the root
    have no compensation of their own. *)
Definition compensation (sandboxRootDir : string) (k : Call) : option Call :=
  match k with
  | Reserve name _ => Some (ReleaseByName name)
  | NewNetNS path => Some (NetNSRemove path)
  | SetUpPod pn => Some (TearDownPod pn)
  | NewContainer id => Some (ContainerDelete id)
  | MkdirAll path _ =>
      if String.eqb path sandboxRootDir then Some (RemoveAll path) else None
  | Mount _ target _ _ _ => Some (Unmount target MNT_DETACH)
  | NewTask id => Some (TaskDelete id)
  | _ => None
  end.

(** The calls of a log that returned without error. *)
Definition completed (evs : list Event) : list Call :=
  map fst (List.filter snd evs).

Definition forward_calls (evs : list Event) : list Event :=
  List.filter (λ ev, negb (is_compensation ev.1)) evs.

Definition rollback_calls (evs : list Event) : list Event :=
  List.filter (λ ev, is_compensation ev.1) evs.

(** No compensating call fails. *)
Definition no_rollback_fault (c : criContainerdService) : Prop :=
  ∀ k, is_compensation k = true → fault c k = false.

(** Nothing of the sandbox that the request would create exists: the
    namespace path and the id are new ([util.GenerateID] and [NewNetNS]
    return fresh values). *)
Definition sandbox_absent (c : criContainerdService) (w : World) : Prop :=
  let id := GenerateID c in
  let root := getSandboxRootDir (RootDir (c_config c)) id in
  (nextNetNSPath c ∉ netns w)
  ∧ (cni w !! id = None)
  ∧ (containers w !! id = None)
  ∧ (tasks w !! id = None)
  ∧ (root ∉ dirs (os w))
  ∧ (mounts (os w) !! getSandboxDevShm root = None).

(** Whether the unmount of the clean-up returned without error. *)
Definition unmount_ok (c : criContainerdService) (rootDir : string) (w : World)
  : bool :=
  is_OK (os_Unmount c (getSandboxDevShm rootDir) MNT_DETACH w).1.

(** The new part of the log is the forward calls followed by the
    clean-ups; the clean-ups are the compensations of the completed forward
    calls, last completed first; the store is untouched and the name is
    free. *)
Definition rolled_back (c : criContainerdService) (r : RunPodSandboxRequest)
    (w w' : World) : Prop :=
  let id := GenerateID c in
  let name := makeSandboxName c (Metadata (GetConfig r)) in
  let root := getSandboxRootDir (RootDir (c_config c)) id in
  ∃ new, log w' = (log w ++ new)%list
    ∧ new = (forward_calls new ++ rollback_calls new)%list
    ∧ map fst (rollback_calls new)
      = rev (omap (compensation root) (completed (forward_calls new)))
    ∧ store w' = store w
    ∧ names w' !! name = None.

Module Demo.
Definition baseSpec : Spec :=
  {| ProcessArgs := []; ProcessCwd := "/"; ProcessEnv := ["PATH=/bin"];
     ProcessSelinuxLabel := ""; ProcessAdditionalGids := [];
     ProcessOOMScoreAdj := None; RootPath := ""; RootReadonly := false;
     SpecHostname := ""; LinuxCgroupsPath := "";
     LinuxNamespaces :=
       [ {| nsType := PIDNamespace; nsPath := "" |};
         {| nsType := IPCNamespace; nsPath := "" |};
         {| nsType := UTSNamespace; nsPath := "" |};
         {| nsType := MountNamespace; nsPath := "" |};
         {| nsType := NetworkNamespace; nsPath := "" |} ];
     LinuxMountLabel := ""; LinuxSysctl := ∅; LinuxCPUShares := None |}.

Definition pause : Image :=
  {| imgImage := "pause:3.0";
     imgConfig := {| Env_ := []; Entrypoint := ["/pause"]; Cmd := [];
                     WorkingDir := "" |} |}.

Definition service (img : Image) (f : Call → bool) : criContainerdService :=
  {| c_config := {| SandboxImage := "gcr.io/google_containers/pause:3.0";
                    Snapshotter := "overlayfs";
                    Runtime := "io.containerd.runtime.v1.linux";
                    RuntimeEngine := ""; RuntimeRoot := "";
                    SystemdCgroup := false;
                    RootDir := "/var/lib/cri-containerd" |};
     seccompEnabled := false;
     makeSandboxName := λ m,
       GoStrings.Join [GetName m; GetNamespace m; GetUid m;
                       GoStrings.itoa (GetAttempt m)] "_";
     defaultRuntimeSpec := λ _, OK baseSpec;
     getCgroupsPath := λ parent id _, filepath_Join parent id;
     initSelinuxOpts := λ _, OK ("", "");
     generateSeccompSpecOpts := λ _ _ _, OK None;
     buildLabels := λ l kind, <["io.cri-containerd.kind" := kind]> l;
     defaultSandboxCPUshares := 2;
     defaultSandboxOOMAdj := -998;
     GenerateID := "sb1";
     sandboxImage := img;
     nextNetNSPath := "/var/run/netns/cni-1";
     fault := f |}.

Definition pod (hostNet hostIpc : bool) (dns : option DNSConfig) : PodSandboxConfig :=
  {| Metadata := Some {| mdName := "web"; mdUid := "u1"; mdNamespace := "default";
                         mdAttempt := 0 |};
     Hostname := "web";
     DnsConfig := dns;
     PortMappings := [];
     Labels := ∅;
     Linux := Some {| CgroupParent := "";
                      SecurityContext := Some
                        {| NamespaceOptions := Some
                             {| HostNetwork := hostNet; HostPid := false;
                                HostIpc := hostIpc |};
                           SelinuxOptions := None; RunAsUser := None;
                           SupplementalGroups := []; Privileged := false;
                           SeccompProfilePath := "" |};
                      Sysctls := ∅ |} |}.

Definition host : World :=
  {| names := ∅; netns := ∅; cni := ∅; containers := ∅; tasks := ∅;
     os := {| files := {[ "/etc/hosts" := "127.0.0.1 localhost";
                          "/etc/resolv.conf" := "nameserver 8.8.8.8" ]};
              dirs := {[ "/dev/shm" ]}; mounts := ∅ |};
     store := ∅; log := [] |}.

Definition no_entrypoint : Image :=
  {| imgImage := "broken:1";
     imgConfig := {| Env_ := []; Entrypoint := []; Cmd := ["/pause"];
                     WorkingDir := "" |} |}.

Definition seven_searches : DNSConfig :=
  {| Servers := ["10.0.0.1"];
     Searches := ["a.svc"; "b.svc"; "c.svc"; "d.svc"; "e.svc"; "f.svc"; "g.svc"];
     Options := [] |}.

Definition image_fails : Call → bool :=
  λ k, match k with EnsureImageExists _ => true | _ => false end.

Definition no_fault : Call → bool := λ _, false.
Definition start_fails : Call → bool :=
  λ k, match k with TaskStart _ => true | _ => false end.
Definition netns_remove_fails : Call → bool :=
  λ k, match k with NetNSRemove _ => true | _ => false end.
End Demo.

#[global] Instance CNIPortMapping_eq_dec : EqDecision CNIPortMapping.
Proof. solve_decision. Defined.
#[global] Instance PodNetwork_eq_dec : EqDecision PodNetwork.
Proof. solve_decision. Defined.
#[global] Instance Call_eq_dec : EqDecision Call.
Proof. solve_decision. Defined.

(** Following the spec: the order in which section 4.6 lists the
    compensations (unmount, then task and container, then the root
    directory, then CNI and namespace, then the name). *)
Definition spec_rollback_order (c : criContainerdService)
    (r : RunPodSandboxRequest) : list Call :=
  let config := GetConfig r in
  let id := GenerateID c in
  let root := getSandboxRootDir (RootDir (c_config c)) id in
  [ Unmount (getSandboxDevShm root) MNT_DETACH;
    TaskDelete id;
    ContainerDelete id;
    RemoveAll root;
    TearDownPod {| pnName := GetName (Metadata config);
                   pnNamespace := GetNamespace (Metadata config);
                   pnID := id;
                   pnNetNS := nextNetNSPath c;
                   pnPortMappings := toCNIPortMappings (PortMappings config) |};
    NetNSRemove (nextNetNSPath c);
    ReleaseByName (makeSandboxName c (Metadata config)) ].

(** The clean-ups of a failed call are the listed ones, in the listed
    order. *)
Definition rollback_in_spec_order (c : criContainerdService)
    (r : RunPodSandboxRequest) (w : World) : Prop :=
  ∀ e w', RunPodSandbox c r w = (Err e, w') →
    ∃ new, log w' = (log w ++ new)%list
      ∧ map fst (rollback_calls new)
        = filter (λ k, k ∈ map fst (rollback_calls new)) (spec_rollback_order c r).

(** The call failed and touched neither containerd, nor the OS layer, nor
    the store; without a failing clean-up the namespaces and the CNI state
    are those of before; if every logged forward call completed, the error
    is that of the specification builder, wrapped. *)
Definition nothing_provisioned (c : criContainerdService)
    (r : RunPodSandboxRequest) (w : World) (res : result string) (w' : World)
  : Prop :=
  (∃ e, res = Err e)
  ∧ containers w' = containers w ∧ tasks w' = tasks w ∧ os w' = os w
  ∧ store w' = store w
  ∧ (no_rollback_fault c → nextNetNSPath c ∉ netns w →
     cni w !! GenerateID c = None →
     netns w' = netns w ∧ cni w' = cni w)
  ∧ (∀ new, log w' = (log w ++ new)%list →
     Forall (λ ev, ev.2 = true) (forward_calls new) →
     ∃ e', res = Err (Wrap FailedGenerateSpec e')
           ∧ generateSandboxContainerSpec c (GenerateID c) (GetConfig r)
               (imgConfig (sandboxImage c))
               (if hostNetOf (GetConfig r) then "" else nextNetNSPath c)
             = Err e').

(** The claim as the spec words it: with a sandbox image without
    entrypoint the specification is not generated, the call fails, and no
    resource of the sandbox exists when it returns. *)
Definition spec_entrypoint_requirement (c : criContainerdService)
    (r : RunPodSandboxRequest) (w : World) : Prop :=
  Entrypoint (imgConfig (sandboxImage c)) = [] →
  ∀ res w', RunPodSandbox c r w = (res, w') →
    (∀ nsPath,
       is_OK (generateSandboxContainerSpec c (GenerateID c) (GetConfig r)
                (imgConfig (sandboxImage c)) nsPath) = false)
    ∧ (∃ e, res = Err e)
    ∧ store w' = store w
    ∧ (sandbox_absent c w → sandbox_absent c w').

(** The stored sandbox and its container agree with the pod's choice of
    network: with host networking there is no handle, no path, no
    network-namespace entry and no new namespace; otherwise the handle, the
    path, the entry and the CNI wiring all name the created namespace. *)
Definition netns_consistent (c : criContainerdService)
    (r : RunPodSandboxRequest) (w : World) (id : string) (w' : World) : Prop :=
  let p := nextNetNSPath c in
  ∃ sb ctr,
    store w' !! id = Some sb
    ∧ containers w' !! id = Some ctr
    ∧ (sbNetNSPath sb ≠ "" ↔ hostNetOf (GetConfig r) = false)
    ∧ if hostNetOf (GetConfig r) then
        sbNetNS sb = None ∧ sbNetNSPath sb = ""
        ∧ ns_entries NetworkNamespace (cSpec ctr) = []
        ∧ netns w' = netns w ∧ cni w' = cni w
      else
        sbNetNS sb = Some {| GetPath := p |} ∧ sbNetNSPath sb = p
        ∧ ns_entries NetworkNamespace (cSpec ctr)
          = [{| nsType := NetworkNamespace; nsPath := p |}]
        ∧ p ∈ netns w'
        ∧ ∃ pn, cni w' !! id = Some pn ∧ pnNetNS pn = p.

(** The sandbox metadata as it is when the container is created: the
    network namespace is filled in, the container handle is not. *)
Definition created_sandbox (c : criContainerdService) (r : RunPodSandboxRequest)
  : Sandbox :=
  let config := GetConfig r in
  {| sbID := GenerateID c;
     sbName := makeSandboxName c (Metadata config);
     sbConfig := config;
     sbNetNSPath := if hostNetOf config then "" else nextNetNSPath c;
     sbNetNS := if hostNetOf config then None
                else Some {| GetPath := nextNetNSPath c |};
     sbContainer := None |}.

(** The descriptor handed to the network plugin. *)
Definition pod_network (c : criContainerdService) (r : RunPodSandboxRequest)
  : PodNetwork :=
  let config := GetConfig r in
  {| pnName := GetName (Metadata config);
     pnNamespace := GetNamespace (Metadata config);
     pnID := GenerateID c;
     pnNetNS := nextNetNSPath c;
     pnPortMappings := toCNIPortMappings (PortMappings config) |}.

(** The resolver content the file setup renders for a pod. *)
Definition rendered_content (config : PodSandboxConfig) : result string :=
  match DnsConfig config with
  | Some dns => parseDNSOptions (Servers dns) (Searches dns) (Options dns)
  | None => OK ""
  end.

(** The calls of a file setup in which every step succeeds, for the
    resolver content rendered for the pod. *)
Definition files_calls (rootDir : string) (config : PodSandboxConfig)
    (content : string) : list Call :=
  ([CopyFile etcHosts (getSandboxHosts rootDir) mode_0644;
    resolv_call rootDir content]
   ++ (if hostIpcOf config then [Stat devShm]
       else [MkdirAll (getSandboxDevShm rootDir) mode_0700;
             Mount "shm" (getSandboxDevShm rootDir) "tmpfs"
               (Z.lor (Z.lor MS_NOEXEC MS_NOSUID) MS_NODEV)
               ("mode=1777,size=" ++ GoStrings.itoa defaultShmSize)]))%list.

(** The calls of a run in which every step succeeds, around those of the
    file setup. *)
Definition calls_before_files (c : criContainerdService)
    (r : RunPodSandboxRequest) : list Call :=
  let config := GetConfig r in
  let id := GenerateID c in
  ([Reserve (makeSandboxName c (Metadata config)) id;
    EnsureImageExists (SandboxImage (c_config c))]
   ++ (if hostNetOf config then []
       else [NewNetNS (nextNetNSPath c); SetUpPod (pod_network c r)])
   ++ [NewContainer id;
       MkdirAll (getSandboxRootDir (RootDir (c_config c)) id) mode_0755])%list.

Definition calls_after_files (c : criContainerdService) : list Call :=
  let id := GenerateID c in [NewTask id; TaskStart id; StoreAdd id].

Definition succeeded (k : Call) : Event := (k, true).

(** The state a successful run leaves. *)
Definition sandbox_started (c : criContainerdService) (r : RunPodSandboxRequest)
    (w w' : World) : Prop :=
  let config := GetConfig r in
  let id := GenerateID c in
  let name := makeSandboxName c (Metadata config) in
  let securityContext := GetSecurityContext (Linux config) in
  names w' = <[name := id]> (names w)
  ∧ store w !! id = None
  ∧ store w' = <[id := with_Container (Some id) (created_sandbox c r)]> (store w)
  ∧ tasks w' = <[id := TaskRunning]> (tasks w)
  ∧ netns w' = (if hostNetOf config then netns w
                else {[nextNetNSPath c]} ∪ netns w)
  ∧ cni w' = (if hostNetOf config then cni w
              else <[id := pod_network c r]> (cni w))
  ∧ (∃ spec seccompSpecOpts,
       generateSandboxContainerSpec c id config (imgConfig (sandboxImage c))
         (sbNetNSPath (created_sandbox c r)) = OK spec
       ∧ generateSeccompSpecOpts c (GetSeccompProfilePath securityContext)
           (GetPrivileged securityContext) (seccompEnabled c)
         = OK seccompSpecOpts
       ∧ containers w'
         = <[id := {| cSnapshotter := Snapshotter (c_config c);
                      cImage := imgImage (sandboxImage c);
                      cSnapshotKey := id;
                      cSpec := spec;
                      cSpecOpts :=
                        (from_option (λ uid, [WithUserID (uint32 uid)]) []
                           (GetRunAsUser securityContext)
                         ++ from_option (λ o, [o]) [] seccompSpecOpts)%list;
                      cLabels := buildLabels c (Labels config) containerKindSandbox;
                      cExtension := created_sandbox c r;
                      cRuntime := Runtime (c_config c);
                      cRuntimeEngine := RuntimeEngine (c_config c);
                      cRuntimeRoot := RuntimeRoot (c_config c);
                      cSystemdCgroup := SystemdCgroup (c_config c) |}]>
             (containers w))
  ∧ ∃ content,
      rendered_content config = OK content
      ∧ log w'
        = (log w
           ++ map succeeded
                (calls_before_files c r
                 ++ files_calls (getSandboxRootDir (RootDir (c_config c)) id)
                      config content
                 ++ calls_after_files c))%list.

Definition is_os_call (k : Call) : bool :=
  match k with
  | MkdirAll _ _ | RemoveAll _ | CopyFile _ _ _ | WriteFile _ _ _ | Stat _
  | Mount _ _ _ _ _ | Unmount _ _ => true
  | _ => false
  end.

Definition is_network_call (k : Call) : bool :=
  match k with
  | NewNetNS _ | NetNSRemove _ | SetUpPod _ | TearDownPod _ => true
  | _ => false
  end.

(** The network is left alone: no namespace and no CNI state changes, and
    no call goes to the namespace manager or the network plugin. *)
Definition network_untouched (w w' : World) : Prop :=
  netns w' = netns w ∧ cni w' = cni w
  ∧ ∃ new, log w' = (log w ++ new)%list
           ∧ Forall (λ ev : Event, is_network_call ev.1 = false) new.

Module Tuned.
Definition pod : PodSandboxConfig :=
  {| Metadata := Some {| mdName := "db"; mdUid := "u2"; mdNamespace := "prod";
                         mdAttempt := 1 |};
     Hostname := "db";
     DnsConfig := Some {| Servers := ["10.0.0.10"]; Searches := ["svc.local"];
                          Options := ["ndots:5"] |};
     PortMappings :=
       [ {| Protocol_ := TCP; ContainerPort := 5432; HostPort := 15432;
            HostIp := "" |};
         {| Protocol_ := UDP; ContainerPort := 53; HostPort := 0;
            HostIp := "" |} ];
     Labels := ∅;
     Linux := Some {| CgroupParent := "/kubepods";
                      SecurityContext := Some
                        {| NamespaceOptions := Some
                             {| HostNetwork := false; HostPid := true;
                                HostIpc := false |};
                           SelinuxOptions := None; RunAsUser := Some (-1);
                           SupplementalGroups := [-1; 1000];
                           Privileged := false;
                           SeccompProfilePath := "" |};
                      Sysctls := {[ "net.core.somaxconn" := "1024" ]} |} |}.

Definition image : Image :=
  {| imgImage := "pause:3.0";
     imgConfig := {| Env_ := ["A=1"]; Entrypoint := ["/pause"]; Cmd := [];
                     WorkingDir := "/work" |} |}.

Definition service : criContainerdService := Demo.service image Demo.no_fault.

Definition spec : Spec :=
  match generateSandboxContainerSpec service "sb1" pod (imgConfig image)
          "/var/run/netns/cni-1" with
  | OK s => s
  | Err _ => Demo.baseSpec
  end.

Definition request : RunPodSandboxRequest := {| GetConfig := pod |}.

Definition name_taken : World :=
  set_names (<[makeSandboxName service (Metadata pod) := "sb0"]>) Demo.host.

Definition bare : World :=
  {| names := ∅; netns := ∅; cni := ∅; containers := ∅; tasks := ∅;
     os := {| files := ∅; dirs := ∅; mounts := ∅ |};
     store := ∅; log := [] |}.
End Tuned.

(** * The vxlan backend of flannel: subnet lease events
    ([backend/vxlan/vxlan_network.go]). The kernel is reached through
    netlink and the vxlan device; every such call is recorded with its
    outcome, and the outcome of a call may depend on all the calls made
    before it. *)
Module Vxlan.

(** [ip.IP4] and [ip.IP4Net]; the conversions [ToIP] and [ToIPNet] to the
    types of package [net] keep the address and the prefix. *)
Definition IP4 : Type := Z.
Record IP4Net := { IP : IP4; PrefixLen : Z }.
Definition ToIP (a : IP4) : IP4 := a.
Definition ToIPNet (n : IP4Net) : IP4Net := n.

(** [net.HardwareAddr]. *)
Definition HardwareAddr : Type := list Z.

(** [subnet.LeaseAttrs], [subnet.Lease] and [subnet.Event]. *)
Record LeaseAttrs := {
  PublicIP : IP4;
  BackendType : string;
  BackendData : string;
}.

Record Lease := { Subnet : IP4Net; Attrs : LeaseAttrs }.

(** [subnet.EventType] is an [int]; [EventAdded] and [EventRemoved] are
    its first two values. *)
Definition EventType : Type := Z.
Definition EventAdded : EventType := 0.
Definition EventRemoved : EventType := 1.

Record subnet_Event := { Type_ : EventType; Lease_ : Lease }.

Record vxlanLeaseAttrs := { VtepMAC : HardwareAddr }.

(** [neighbor] of the vxlan device. *)
Record neighbor := { nMAC : HardwareAddr; nIP : IP4 }.

(** [netlink.Route], the fields this file sets; a nil [Dst] or [Gw] is
    [None]. *)
Record Route := {
  LinkIndex : Z;
  Scope : Z;
  Dst : option IP4Net;
  Gw : option IP4;
  Flags : Z;
}.

Definition SCOPE_UNIVERSE : Z := 0.
Definition RTNH_F_ONLINK : Z := 4.

(** [Route.SetFlag]. *)
Definition SetFlag (flag : Z) (r : Route) : Route :=
  {| LinkIndex := LinkIndex r; Scope := Scope r; Dst := Dst r; Gw := Gw r;
     Flags := Z.lor (Flags r) flag |}.

(** The calls to netlink and to the vxlan device. *)
Inductive NlCall :=
  | RouteGet (dst : IP4)
  | RouteReplace (r : Route)
  | RouteDel (r : Route)
  | AddARP (n : neighbor)
  | AddFDB (n : neighbor)
  | DelARP (n : neighbor)
  | DelFDB (n : neighbor).

(** The calls made so far, each with whether it returned without error. *)
Definition History : Type := list (NlCall * bool).

(** What the code does not decide: the JSON decoder, the routes the kernel
    reports, and which calls fail. *)
Record Kernel := {
  json_Unmarshal : string → option vxlanLeaseAttrs;
  routes_to : History → IP4 → option (list Route);
  fails : History → NlCall → bool;
}.

(** [vxlanDevice] and [network], the fields this file reads. *)
Record vxlanDevice := { link_Index : Z; directRouting : bool }.
Record network := { dev : vxlanDevice }.

Section Events.
Context (k : Kernel).

(** A call with an [error] result; [true] is [err == nil]. *)
Definition call (c : NlCall) (h : History) : bool * History :=
  let ok := negb (fails k h c) in (ok, (h ++ [(c, ok)])%list).

Definition netlink_RouteGet (dst : IP4) (h : History)
  : option (list Route) * History :=
  let r := routes_to k h dst in (r, (h ++ [(RouteGet dst, bool_decide (is_Some r))])%list).

(** The two routes to the subnet of a lease. *)
Definition vxlanRoute (nw : network) (sn : IP4Net) : Route :=
  SetFlag RTNH_F_ONLINK
    {| LinkIndex := link_Index (dev nw);
       Scope := SCOPE_UNIVERSE;
       Dst := Some (ToIPNet sn);
       Gw := Some (ToIP (IP sn));
       Flags := 0 |}.

Definition directRoute (sn : IP4Net) (attrs : LeaseAttrs) : Route :=
  {| LinkIndex := 0; Scope := 0;
     Dst := Some (ToIPNet sn);
     Gw := Some (ToIP (PublicIP attrs));
     Flags := 0 |}.

(** [len(routes) == 1 && routes[0].Gw == nil]. *)
Definition directly_connected (routes : list Route) : bool :=
  match routes with
  | [r] => match Gw r with None => true | Some _ => false end
  | _ => false
  end.

(** The body of the loop of [handleSubnetEvents] for one event. *)
Definition handleSubnetEvent (nw : network) (event : subnet_Event)
    (h : History) : History :=
  let sn := Subnet (Lease_ event) in
  let attrs := Attrs (Lease_ event) in
  if negb (String.eqb (BackendType attrs) "vxlan") then h (* continue *)
  else
  match json_Unmarshal k (BackendData attrs) with
  | None => h (* continue *)
  | Some vxlanAttrs =>
  let arp := {| nIP := IP sn; nMAC := VtepMAC vxlanAttrs |} in
  let fdb := {| nIP := PublicIP attrs; nMAC := VtepMAC vxlanAttrs |} in
  let lookup :=
    if directRouting (dev nw) then
      match netlink_RouteGet (ToIP (PublicIP attrs)) h with
      | (None, h) => (None, h) (* continue *)
      | (Some routes, h) => (Some (directly_connected routes), h)
      end
    else (Some false, h) in
  match lookup with
  | (None, h) => h
  | (Some directRoutingOK, h) =>
  if Type_ event =? EventAdded then
    if directRoutingOK then
      (call (RouteReplace (directRoute sn attrs)) h).2
    else
      match call (AddARP arp) h with
      | (false, h) => h (* continue *)
      | (true, h) =>
      match call (AddFDB fdb) h with
      | (false, h) =>
          (* Try to clean up the ARP entry then continue *)
          (call (DelARP arp) h).2
      | (true, h) =>
      match call (RouteReplace (vxlanRoute nw sn)) h with
      | (false, h) =>
          (* Try to clean up both the ARP and FDB entries then continue *)
          let h := (call (DelARP arp) h).2 in
          (call (DelFDB fdb) h).2
      | (true, h) => h
      end end end
  else if Type_ event =? EventRemoved then
    if directRoutingOK then
      (call (RouteDel (directRoute sn attrs)) h).2
    else
      (* Try to remove all entries - don't bail out if one of them fails. *)
      let h := (call (DelARP arp) h).2 in
      let h := (call (DelFDB fdb) h).2 in
      (call (RouteDel (vxlanRoute nw sn)) h).2
  else h
  end end.

(** [handleSubnetEvents]. *)
Definition handleSubnetEvents (nw : network) (batch : list subnet_Event)
    (h : History) : History :=
  foldl (λ h event, handleSubnetEvent nw event h) h batch.

End Events.

(** The lease of an event is one this backend handles: its type is
    [vxlan] and its data decodes. *)
Definition vxlan_lease (k : Kernel) (event : subnet_Event)
    (a : vxlanLeaseAttrs) : Prop :=
  BackendType (Attrs (Lease_ event)) = "vxlan"
  ∧ json_Unmarshal k (BackendData (Attrs (Lease_ event))) = Some a.

Definition arp_of (event : subnet_Event) (a : vxlanLeaseAttrs) : neighbor :=
  {| nIP := IP (Subnet (Lease_ event)); nMAC := VtepMAC a |}.

Definition fdb_of (event : subnet_Event) (a : vxlanLeaseAttrs) : neighbor :=
  {| nIP := PublicIP (Attrs (Lease_ event)); nMAC := VtepMAC a |}.

Definition changes_kernel (c : NlCall) : bool :=
  match c with RouteGet _ => false | _ => true end.

Definition touches_neighbors (c : NlCall) : bool :=
  match c with
  | AddARP _ | AddFDB _ | DelARP _ | DelFDB _ => true
  | _ => false
  end.

(** A kernel in which no call fails and that decodes every lease to one
    address. *)
Definition quiet (mac : HardwareAddr) : Kernel :=
  {| json_Unmarshal := λ _, Some {| VtepMAC := mac |};
     routes_to := λ _ _, Some [];
     fails := λ _ _, false |}.

Definition lease1 : Lease :=
  {| Subnet := {| IP := 167837952; PrefixLen := 24 |};
     Attrs := {| PublicIP := 3232235786; BackendType := "vxlan";
                 BackendData := "{}" |} |}.

End Vxlan.

(** * Properties *)

(** ** Resolver rendering *)

Lemma string_app_assoc (a b d : string) : (a ++ b) ++ d = a ++ (b ++ d).
Proof.
  induction a as [|x a IH]; [reflexivity|].
  change (String x ((a ++ b) ++ d) = String x (a ++ (b ++ d))). by rewrite IH.
Qed.

Lemma string_app_nil_r (a : string) : a ++ "" = a.
Proof.
  induction a as [|x a IH]; [reflexivity|].
  change (String x (a ++ "") = String x a). by rewrite IH.
Qed.

Lemma nameserver_join (s : string) (servers : list string) :
  "nameserver " ++ GoStrings.Join (s :: servers) (GoStrings.nl ++ "nameserver ")
    ++ GoStrings.nl
  = nameserver_lines (s :: servers).
Proof.
  unfold nameserver_lines, GoStrings.Join.
  revert s. induction servers as [|t servers IH]; intros s.
  - reflexivity.
  - change (String.concat ?sep (s :: t :: servers))
      with (s ++ sep ++ String.concat sep (t :: servers)).
    change (map ?f (s :: t :: servers)) with (f s :: map f (t :: servers)).
    change (String.concat "" (?a :: map ?f (t :: servers)))
      with (a ++ "" ++ String.concat "" (map f (t :: servers))).
    rewrite <- IH. rewrite !string_app_assoc. reflexivity.
Qed.

Lemma parseDNSOptions_lines (servers searches options : list string) :
  parseDNSOptions servers searches options
  = if (maxDNSSearches <? length searches)%nat then Err TooManySearches
    else OK (search_line searches ++ nameserver_lines servers
             ++ options_line options).
Proof.
  unfold parseDNSOptions. destruct (maxDNSSearches <? length searches)%nat; [done|].
  f_equal.
  destruct searches as [|s ss], servers as [|n ns], options as [|o os'];
    cbn [length Nat.ltb Nat.leb search_line options_line];
    rewrite ?nameserver_join; try reflexivity.
  all: rewrite ?string_app_nil_r; try reflexivity.
  rewrite !string_app_assoc. reflexivity.
Qed.

(** C4. DNS rendering: a search line, then the nameserver lines, then an
    options line. For servers 10.0.0.1 and 10.0.0.2, searches a.svc and
    b.svc and the option ndots:5, [parseDNSOptions] returns, with no error,
    "search a.svc b.svc\nnameserver 10.0.0.1\nnameserver 10.0.0.2\noptions ndots:5\n". *)
Theorem parseDNSOptions_renders_resolv_conf :
  parseDNSOptions ["10.0.0.1"; "10.0.0.2"] ["a.svc"; "b.svc"] ["ndots:5"]
  = OK ("search a.svc b.svc" ++ GoStrings.nl ++
        "nameserver 10.0.0.1" ++ GoStrings.nl ++
        "nameserver 10.0.0.2" ++ GoStrings.nl ++
        "options ndots:5" ++ GoStrings.nl)
  ∧ ∀ servers searches options,
      parseDNSOptions servers searches options
      = if (maxDNSSearches <? length searches)%nat then Err TooManySearches
        else OK (search_line searches ++ nameserver_lines servers
                 ++ options_line options).
Proof. split; [reflexivity | apply parseDNSOptions_lines]. Qed.

(** ** Port mappings *)

Lemma toCNIPortMappings_loop_filter (acc : list CNIPortMapping)
    (l : list PortMapping) :
  toCNIPortMappings_loop acc l
  = (acc ++ map toCNI (filter (λ m, 0 < HostPort m) l))%list.
Proof.
  revert acc. induction l as [|m l IH]; intros acc; simpl.
  - by rewrite app_nil_r.
  - rewrite filter_cons. destruct (Z.leb_spec (HostPort m) 0) as [Hle|Hgt].
    + rewrite decide_False by lia. apply IH.
    + rewrite decide_True by lia. rewrite IH. simpl.
      by rewrite <- app_assoc.
Qed.

(** C6. The CNI translation forwards exactly the mappings whose host port
    is positive, in order, keeping host port (and host IP) and container
    port and lower-casing the protocol name; HostPort=0 is dropped and
    (8080, 80, TCP) becomes (8080, 80, "tcp"). *)
Theorem toCNIPortMappings_positive_host_ports :
  (∀ criPortMappings,
     toCNIPortMappings criPortMappings
     = map toCNI (filter (λ m, 0 < HostPort m) criPortMappings))
  ∧ (∀ m, cniHostPort (toCNI m) = HostPort m
          ∧ cniContainerPort (toCNI m) = ContainerPort m
          ∧ cniProtocol (toCNI m)
            = match Protocol_ m with TCP => "tcp" | UDP => "udp" end)
  ∧ toCNIPortMappings
      [ {| Protocol_ := UDP; ContainerPort := 53; HostPort := 0; HostIp := "" |};
        {| Protocol_ := TCP; ContainerPort := 80; HostPort := 8080; HostIp := "" |} ]
    = [ {| cniHostPort := 8080; cniContainerPort := 80; cniProtocol := "tcp";
           cniHostIP := "" |} ].
Proof.
  split; [|split].
  - intros l. unfold toCNIPortMappings. by rewrite toCNIPortMappings_loop_filter.
  - intros [[] ? ? ?]; repeat split.
  - reflexivity.
Qed.

Ltac run_files :=
  unfold setupSandboxFiles, unmountSandboxFiles, bind, wrap, pure, ret,
    os_CopyFile, os_WriteFile, os_Stat, os_MkdirAll, os_Mount, os_Unmount,
    os_call, logged, os_IsNotExist in *;
  simpl in *.

(** C7. The file teardown touches only the mount at the sandbox shm path;
    on a host-IPC sandbox it calls nothing and succeeds; without a mount at
    that path it succeeds and changes nothing; after a teardown that
    succeeded a second one succeeds and changes nothing; and unless the
    unmount itself fails, two teardowns in a row both return no error. *)
Theorem unmountSandboxFiles_idempotent (c : criContainerdService)
    (rootDir : string) (config : PodSandboxConfig) (w w1 w2 : World)
    (r1 r2 : result unit) :
  unmountSandboxFiles c rootDir config w = (r1, w1) →
  unmountSandboxFiles c rootDir config w1 = (r2, w2) →
  let shm := getSandboxDevShm rootDir in
  (* only the mount at the sandbox shm path is touched *)
  (files (os w1) = files (os w) ∧ dirs (os w1) = dirs (os w)
   ∧ ∀ t, t ≠ shm → mounts (os w1) !! t = mounts (os w) !! t)
  (* a host-IPC sandbox: nothing is called *)
  ∧ (hostIpcOf config = true → r1 = OK () ∧ w1 = w ∧ r2 = OK () ∧ w2 = w)
  (* no mount at the shm path: no error, nothing changes *)
  ∧ (mounts (os w) !! shm = None →
     r1 = OK () ∧ os w1 = os w ∧ r2 = OK () ∧ os w2 = os w)
  (* twice in a row *)
  ∧ (r1 = OK () → r2 = OK () ∧ os w2 = os w1)
  ∧ (fault c (Unmount shm MNT_DETACH) = false →
     r1 = OK () ∧ r2 = OK ()
     ∧ (hostIpcOf config = false → mounts (os w1) !! shm = None)).
Proof.
  intros H1 H2 shm. subst shm. run_files.
  destruct (hostIpcOf config); simpl in *.
  { simplify_eq. repeat split; try done. }
  repeat (case_match; simplify_eq/=);
    try (match goal with H : delete _ _ !! _ = Some _ |- _ =>
                           by rewrite lookup_delete_eq in H end);
    repeat split; try done; try congruence;
    try (by intros; rewrite lookup_delete_ne).
Qed.

Ltac list_mem :=
  repeat match goal with
    | H : _ ∈ [] |- _ => by apply elem_of_nil in H
    | H : _ ∈ _ :: _ |- _ => apply elem_of_cons in H as [H | H]; simplify_eq/=
    end.

Ltac split_log :=
  match goal with
  | |- ∃ new, ?l = (?l0 ++ new)%list ∧ _ =>
      rewrite <- ?app_assoc; eexists; split; [reflexivity|]; simpl
  end.

(** C8. For a pod sharing the host IPC namespace the file setup creates
    no directory and no mount and only stats the host /dev/shm, failing
    with a FilesystemError if it is missing; otherwise it creates the
    sandbox shm directory (mode 0700) and mounts a tmpfs named shm there
    with the flags noexec, nosuid and nodev and the data
    "mode=1777,size=<defaultShmSize>". *)
Theorem setupSandboxFiles_shm (c : criContainerdService) (rootDir : string)
    (config : PodSandboxConfig) (w w' : World) (r : result unit) :
  setupSandboxFiles c rootDir config w = (r, w') →
  let shm := getSandboxDevShm rootDir in
  ∃ new, log w' = (log w ++ new)%list ∧
  if hostIpcOf config then
    dirs (os w') = dirs (os w) ∧ mounts (os w') = mounts (os w)
    ∧ (∀ k ok, (k, ok) ∈ new → is_Mount k = false ∧ is_MkdirAll k = false)
    ∧ (r = OK () → exists_path (os w') devShm = true ∧ (Stat devShm, true) ∈ new)
    ∧ (∀ ok, (Stat devShm, ok) ∈ new → exists_path (os w') devShm = false →
         ∃ en, r = Err (Wrap HostShmUnavailable (Errno en))
               ∧ error_kind (Wrap HostShmUnavailable (Errno en))
                 = Some FilesystemError)
  else
    (r = OK () →
       dirs (os w') = {[shm]} ∪ dirs (os w)
       ∧ mounts (os w') = <[shm := shm_mount_entry]> (mounts (os w))
       ∧ ∃ pre, new = (pre ++ [(MkdirAll shm mode_0700, true);
                               (Mount "shm" shm "tmpfs" (mFlags shm_mount_entry)
                                  (mData shm_mount_entry), true)])%list)
    ∧ (∀ k ok, (k, ok) ∈ new → is_Mount k = true →
         k = Mount "shm" shm "tmpfs" (mFlags shm_mount_entry)
               (mData shm_mount_entry))
    ∧ (∀ k ok, (k, ok) ∈ new → is_MkdirAll k = true → k = MkdirAll shm mode_0700)
    ∧ Z.testbit (mFlags shm_mount_entry) 1 = true    (* MS_NOSUID *)
    ∧ Z.testbit (mFlags shm_mount_entry) 2 = true    (* MS_NODEV *)
    ∧ Z.testbit (mFlags shm_mount_entry) 3 = true    (* MS_NOEXEC *)
    ∧ mData shm_mount_entry
      = "mode=1777,size=" ++ GoStrings.itoa defaultShmSize.
Proof.
  intros H shm. subst shm. run_files.
  destruct (hostIpcOf config); simpl in *.
  - repeat (case_match; simplify_eq/=); split_log;
      repeat split; intros; list_mem; simplify_eq/=; eauto;
      try congruence; try (by repeat constructor).
  - repeat (case_match; simplify_eq/=); split_log;
      repeat split; intros; list_mem; simplify_eq/=; eauto;
      try congruence; try (by repeat constructor);
      try (by eexists [_; _]).
Qed.

Lemma hosts_resolv_distinct (rootDir : string) :
  getSandboxHosts rootDir ≠ getResolvPath rootDir.
Proof.
  unfold getSandboxHosts, getResolvPath, filepath_Join.
  intros H. apply (inj (String.app rootDir)) in H. discriminate H.
Qed.

Lemma parseDNSOptions_ok_iff (servers searches options : list string) :
  (length searches ≤ maxDNSSearches)%nat →
  ∃ content, parseDNSOptions servers searches options = OK content.
Proof.
  intros H. rewrite parseDNSOptions_lines.
  destruct (Nat.ltb_spec maxDNSSearches (length searches)); [lia | eauto].
Qed.

Lemma parseDNSOptions_overflow (servers searches options : list string) :
  (maxDNSSearches < length searches)%nat →
  parseDNSOptions servers searches options = Err TooManySearches.
Proof.
  intros H. rewrite parseDNSOptions_lines.
  destruct (Nat.ltb_spec maxDNSSearches (length searches)); [done | lia].
Qed.

(** C5. With more than 6 search domains the file setup fails, with the
    InvalidConfig error of [parseDNSOptions] as soon as the hosts file was
    copied, and the resolver file of the sandbox is not written (the only
    call made is the hosts copy); with at most 6 the rendering succeeds and
    no error of the setup has that kind. *)
Theorem setupSandboxFiles_search_overflow (c : criContainerdService)
    (rootDir : string) (config : PodSandboxConfig) (dns : DNSConfig)
    (w w' : World) (r : result unit) :
  DnsConfig config = Some dns →
  setupSandboxFiles c rootDir config w = (r, w') →
  ((maxDNSSearches < length (Searches dns))%nat →
     parseDNSOptions (Servers dns) (Searches dns) (Options dns)
       = Err TooManySearches
     ∧ (∃ e, r = Err e)
     ∧ ((os_CopyFile c etcHosts (getSandboxHosts rootDir) mode_0644 w).1 = OK () →
        r = Err (Wrap FailedParseDNS TooManySearches)
        ∧ error_kind (Wrap FailedParseDNS TooManySearches) = Some InvalidConfig)
     ∧ files (os w') !! getResolvPath rootDir = files (os w) !! getResolvPath rootDir
     ∧ ∃ ok, log w'
             = (log w ++ [(CopyFile etcHosts (getSandboxHosts rootDir) mode_0644,
                           ok)])%list)
  ∧ ((length (Searches dns) ≤ maxDNSSearches)%nat →
     (∃ content, parseDNSOptions (Servers dns) (Searches dns) (Options dns)
                 = OK content)
     ∧ ∀ e, r = Err e → error_kind e = Some FilesystemError).
Proof.
  intros Hdns H. split.
  - intros Hlen.
    pose proof (parseDNSOptions_overflow (Servers dns) _ (Options dns) Hlen) as Hp.
    split; [done|]. pose proof (hosts_resolv_distinct rootDir) as Hne.
    run_files. rewrite Hdns, Hp in H. simpl in H.
    repeat (case_match; simplify_eq/=); rewrite ?lookup_insert_ne by done;
      repeat split; eauto; try congruence.
  - intros Hlen.
    destruct (parseDNSOptions_ok_iff (Servers dns) _ (Options dns) Hlen)
      as [content Hp].
    split; [eauto|]. run_files. rewrite Hdns, Hp in H. simpl in H.
    repeat (case_match; simplify_eq/=); intros; simplify_eq/=; done.
Qed.


Ltac run_saga :=
  unfold RunPodSandbox, RunPodSandbox_body, run_deferred, retErr_of, bind, wrap,
    pure, ret, liftW, defer, get_sandbox, update_sandbox, on_error, logging_error,
    sandboxNameIndex_Reserve, sandboxNameIndex_ReleaseByName, sandboxStore_Add,
    ensureImageExists, sandboxstore_NewNetNS, NetNS_Remove, netPlugin_SetUpPod,
    netPlugin_TearDownPod, client_NewContainer, container_Delete,
    container_NewTask, task_Delete, task_Start, external, logged in *.

(** C10. The image is resolved after the name reservation and before
    anything else is provisioned: when image resolution fails the call
    returns the image error, the calls made are the reservation, the image
    lookup and the release of the name, and the world is otherwise
    unchanged. *)
Theorem RunPodSandbox_image_failure (c : criContainerdService)
    (r : RunPodSandboxRequest) (w : World) :
  let name := makeSandboxName c (Metadata (GetConfig r)) in
  let id := GenerateID c in
  let ref := SandboxImage (c_config c) in
  (sandboxNameIndex_Reserve name id w).1 = OK () →
  fault c (EnsureImageExists ref) = true →
  RunPodSandbox c r w
  = (Err (Wrap FailedGetImage (External "image")),
     set_log (λ l, (l ++ [(Reserve name id, true); (EnsureImageExists ref, false);
                         (ReleaseByName name, true)])%list)
       (set_names (delete name) w))
  ∧ error_kind (Wrap FailedGetImage (External "image")) = Some ImageError.
Proof.
  intros name id ref Hres Himg. split; [|done]. subst name id ref.
  run_saga. simpl in *. rewrite Himg.
  repeat (case_match; simplify_eq/=);
    f_equal; unfold set_log, set_names; simpl; f_equal;
    rewrite <- ?app_assoc; try done; by rewrite delete_insert_eq.
Qed.

(** ** The specification builder *)

Section BuilderFacts.
Import Generator.

Lemma ns_entries_remove_same (t : NamespaceType) (l : list LinuxNamespace) :
  (length (filter (λ n, nsType n = t) l) ≤ 1)%nat →
  filter (λ n, nsType n = t) (remove_ns t l) = [].
Proof.
  induction l as [|n l IH]; simpl; [done|].
  rewrite filter_cons. destruct (decide (nsType n = t)) as [Heq|Hne]; simpl.
  - intros Hlen. destruct (filter _ l) eqn:E; [done | simpl in Hlen; lia].
  - intros Hlen. rewrite filter_cons, decide_False by done. auto.
Qed.

Lemma ns_entries_remove_other (t u : NamespaceType) (l : list LinuxNamespace) :
  t ≠ u →
  filter (λ n, nsType n = t) (remove_ns u l) = filter (λ n, nsType n = t) l.
Proof.
  intros Hne. induction l as [|n l IH]; simpl; [done|].
  destruct (decide (nsType n = u)) as [Heq|Hneq].
  - rewrite filter_cons, decide_False; [done | congruence].
  - rewrite !filter_cons. destruct (decide (nsType n = t)); by rewrite IH.
Qed.

Lemma ns_entries_add_or_replace (n : LinuxNamespace) (l : list LinuxNamespace) :
  (length (filter (λ m, nsType m = nsType n) l) ≤ 1)%nat →
  filter (λ m, nsType m = nsType n) (add_or_replace_ns n l) = [n].
Proof.
  induction l as [|m l IH]; simpl.
  - intros _. by rewrite filter_cons, decide_True.
  - rewrite filter_cons.
    destruct (decide (nsType m = nsType n)) as [Heq|Hne]; simpl; intros Hlen.
    + rewrite filter_cons, decide_True by done.
      destruct (filter _ l) eqn:E; [done | simpl in Hlen; lia].
    + rewrite filter_cons, decide_False by done. auto.
Qed.

Lemma foldl_gids_fields (gids : list Z) (g : Spec) :
  LinuxNamespaces
    (foldl (λ g group, AddProcessAdditionalGid (uint32 group) g) g gids)
  = LinuxNamespaces g
  ∧ ProcessArgs
      (foldl (λ g group, AddProcessAdditionalGid (uint32 group) g) g gids)
    = ProcessArgs g.
Proof.
  revert g. induction gids as [|x gids IH]; intros g; simpl; [done|].
  destruct (IH (AddProcessAdditionalGid (uint32 x) g)) as [-> ->]. done.
Qed.

Lemma map_fold_sysctl_fields (m : gmap string string) (g : Spec) :
  LinuxNamespaces (map_fold (λ key value g, AddLinuxSysctl key value g) g m)
  = LinuxNamespaces g
  ∧ ProcessArgs (map_fold (λ key value g, AddLinuxSysctl key value g) g m)
    = ProcessArgs g.
Proof.
  apply (map_fold_weak_ind
    (λ g' _, LinuxNamespaces g' = LinuxNamespaces g
             ∧ ProcessArgs g' = ProcessArgs g)); [done|].
  intros k v m' g' _ [H1 H2]. done.
Qed.

Lemma addImageEnvs_fields (envs : list string) (g g' : Spec) :
  addImageEnvs g envs = OK g' →
  LinuxNamespaces g' = LinuxNamespaces g.
Proof.
  revert g. induction envs as [|e envs IH]; intros g; simpl.
  - by intros [= ->].
  - destruct (has_equals e); [|done]. intros H. by rewrite (IH _ H).
Qed.

End BuilderFacts.

Lemma generateSandboxContainerSpec_netns (c : criContainerdService) (id : string)
    (config : PodSandboxConfig) (imageConfig : ImageConfig) (nsPath : string)
    (s : Spec) :
  baseline_ok c id →
  generateSandboxContainerSpec c id config imageConfig nsPath = OK s →
  ns_entries NetworkNamespace s
  = if hostNetOf config then []
    else [{| nsType := NetworkNamespace; nsPath := nsPath |}].
Proof.
  intros Hbase. unfold generateSandboxContainerSpec, hostNetOf.
  destruct (defaultRuntimeSpec c id) as [g0|] eqn:Hg0; [|done].
  specialize (Hbase _ Hg0).
  destruct (addImageEnvs g0 _) as [g1|] eqn:Hg1; [|done].
  apply addImageEnvs_fields in Hg1.
  destruct (length (Entrypoint imageConfig) =? 0)%nat; [done|].
  destruct (initSelinuxOpts c _) as [[pl ml]|]; [|done].
  intros [= <-]. unfold ns_entries in *. simpl.
  rewrite (proj1 (map_fold_sysctl_fields _ _)), (proj1 (foldl_gids_fields _ _)).
  destruct (GetHostIpc _), (GetHostPid _), (GetHostNetwork _),
    (decide (GetCgroupParent (Linux config) ≠ "")),
    (decide (WorkingDir imageConfig ≠ "")); simpl;
    rewrite ?ns_entries_remove_other by done; rewrite ?Hg1;
    first [ by apply ns_entries_remove_same
          | by apply (ns_entries_add_or_replace
                        {| nsType := NetworkNamespace; nsPath := nsPath |}) ].
Qed.

Lemma generateSandboxContainerSpec_args (c : criContainerdService) (id : string)
    (config : PodSandboxConfig) (imageConfig : ImageConfig) (nsPath : string) :
  match Entrypoint imageConfig with
  | [] =>
      ∃ e, generateSandboxContainerSpec c id config imageConfig nsPath = Err e
           ∧ ∀ g g', defaultRuntimeSpec c id = OK g →
                     addImageEnvs g (Env_ imageConfig) = OK g' →
                     e = EmptyEntrypoint
  | _ :: _ =>
      ∀ s, generateSandboxContainerSpec c id config imageConfig nsPath = OK s →
           ProcessArgs s = (Entrypoint imageConfig ++ Cmd imageConfig)%list
  end.
Proof.
  unfold generateSandboxContainerSpec.
  destruct (Entrypoint imageConfig) as [|e0 es] eqn:Hentry; simpl.
  - destruct (defaultRuntimeSpec c id) as [g0|] eqn:Hg0;
      [|eexists; split; [done|]; done].
    destruct (addImageEnvs g0 _) as [g1|] eqn:Hg1; eexists; (split; [done|]);
      intros g g' [= <-] Hg'; congruence.
  - intros s.
    destruct (defaultRuntimeSpec c id) as [g0|]; [|done].
    destruct (addImageEnvs g0 _) as [g1|]; [|done].
    destruct (initSelinuxOpts c _) as [[pl ml]|]; [|done].
    intros [= <-]. simpl.
    rewrite (proj2 (map_fold_sysctl_fields _ _)), (proj2 (foldl_gids_fields _ _)).
    by destruct (GetHostIpc _), (GetHostPid _), (GetHostNetwork _),
      (decide (GetCgroupParent (Linux config) ≠ "")),
      (decide (WorkingDir imageConfig ≠ "")).
Qed.

(** ** The saga: compensation *)

Lemma string_app_ne (s t : string) : t ≠ "" → s ++ t ≠ s.
Proof.
  intros Ht. induction s as [|a s IH]; [done|].
  intros H. injection H. done.
Qed.

Lemma shm_not_root (rootDir : string) :
  (getSandboxDevShm rootDir =? rootDir)%string = false.
Proof. apply String.eqb_neq. by apply string_app_ne. Qed.

Lemma world_eq (w1 w2 : World) :
  names w1 = names w2 → netns w1 = netns w2 → cni w1 = cni w2 →
  containers w1 = containers w2 → tasks w1 = tasks w2 → os w1 = os w2 →
  store w1 = store w2 → log w1 = log w2 → w1 = w2.
Proof. destruct w1, w2; simpl; by intros -> -> -> -> -> -> -> ->. Qed.

Lemma setupSandboxFiles_summary (c : criContainerdService) (rootDir : string)
    (config : PodSandboxConfig) (w w1 : World) (r : result unit) :
  setupSandboxFiles c rootDir config w = (r, w1) →
  ∃ o1 new,
    w1 = set_log (λ l, (l ++ new)%list) (set_os (λ _, o1) w)
    ∧ forward_calls new = new
    ∧ rollback_calls new = []
    ∧ omap (compensation rootDir) (completed new)
      = (if is_OK r && negb (hostIpcOf config)
         then [Unmount (getSandboxDevShm rootDir) MNT_DETACH] else [])
    ∧ mounts o1 !! getSandboxDevShm rootDir
      = (if is_OK r && negb (hostIpcOf config) then Some shm_mount_entry
         else mounts (os w) !! getSandboxDevShm rootDir).
Proof.
  intros H. pose proof (shm_not_root rootDir) as Hne. run_files.
  destruct (hostIpcOf config); simpl in *.
  all: repeat (case_match; simplify_eq/=).
  all: match goal with
       | |- ∃ o1 new, ?W = set_log _ (set_os _ ?w0) ∧ _ =>
           exists (os W), (drop (length (log w0)) (log W))
       end; simpl; rewrite <- ?app_assoc, ?drop_app_length.
  all: (split; [apply world_eq; simpl; rewrite <- ?app_assoc; reflexivity|]).
  all: unfold forward_calls, rollback_calls, completed; simpl.
  all: rewrite ?Hne; simpl; rewrite ?lookup_insert_eq.
  all: repeat split; reflexivity.
Qed.

#[local] Arguments setupSandboxFiles : simpl never.
#[local] Arguments generateSandboxContainerSpec : simpl never.

#[local] Arguments logging_error : simpl never.

(** Unfold the forward steps of the saga; the clean-ups stay folded under
    [logging_error]. *)
Ltac run_forward :=
  unfold RunPodSandbox, RunPodSandbox_body, run_deferred, retErr_of, bind, wrap,
    pure, ret, liftW, defer, get_sandbox, update_sandbox, on_error,
    sandboxNameIndex_Reserve, sandboxStore_Add,
    ensureImageExists, sandboxstore_NewNetNS, netPlugin_SetUpPod,
    client_NewContainer, container_NewTask, task_Start, os_MkdirAll, os_call,
    external, logged in *.

Ltac saga_cases :=
  repeat first
    [ match goal with
      | H : setupSandboxFiles _ _ _ _ = (_, _) |- _ =>
          apply setupSandboxFiles_summary in H as (? & ? & -> & ? & ? & ? & ?)
      end
    | case_match; simplify_eq/= ].

(** *** What a clean-up leaves, whether it fails or not *)

Lemma log_cleanup_external (c : criContainerdService) (k : Call) (what : string)
    (effect : World → World) (w : World) :
  (∀ w, log (effect w) = log w) →
  log (logging_error (external c k what () effect) w)
  = (log w ++ [(k, negb (fault c k))])%list.
Proof.
  intros Heff. unfold logging_error, external, logged.
  destruct (fault c k); simpl; by rewrite ?Heff.
Qed.

Lemma store_cleanup_external (c : criContainerdService) (k : Call) (what : string)
    (effect : World → World) (w : World) :
  (∀ w, store (effect w) = store w) →
  store (logging_error (external c k what () effect) w) = store w.
Proof.
  intros Heff. unfold logging_error, external, logged.
  destruct (fault c k); simpl; by rewrite ?Heff.
Qed.

Lemma names_cleanup_external (c : criContainerdService) (k : Call) (what : string)
    (effect : World → World) (w : World) :
  (∀ w, names (effect w) = names w) →
  names (logging_error (external c k what () effect) w) = names w.
Proof.
  intros Heff. unfold logging_error, external, logged.
  destruct (fault c k); simpl; by rewrite ?Heff.
Qed.

Lemma log_cleanup_RemoveAll (c : criContainerdService) (path : string) (w : World) :
  log (logging_error (os_RemoveAll c path) w)
  = (log w ++ [(RemoveAll path, negb (fault c (RemoveAll path)))])%list.
Proof.
  unfold logging_error, os_RemoveAll, os_call, logged.
  by destruct (fault c _).
Qed.

Lemma store_cleanup_RemoveAll (c : criContainerdService) (path : string) (w : World) :
  store (logging_error (os_RemoveAll c path) w) = store w.
Proof.
  unfold logging_error, os_RemoveAll, os_call, logged.
  by destruct (fault c _).
Qed.

Lemma names_cleanup_RemoveAll (c : criContainerdService) (path : string) (w : World) :
  names (logging_error (os_RemoveAll c path) w) = names w.
Proof.
  unfold logging_error, os_RemoveAll, os_call, logged.
  by destruct (fault c _).
Qed.

Lemma log_cleanup_unmount (c : criContainerdService) (rootDir : string)
    (config : PodSandboxConfig) (w : World) :
  log (logging_error (unmountSandboxFiles c rootDir config) w)
  = (log w ++
     if hostIpcOf config then []
     else [(Unmount (getSandboxDevShm rootDir) MNT_DETACH,
            unmount_ok c rootDir w)])%list.
Proof.
  unfold logging_error, unmountSandboxFiles, unmount_ok, os_Unmount, logged, ret.
  destruct (hostIpcOf config); simpl; [by rewrite app_nil_r|].
  repeat (case_match; simplify_eq/=); done.
Qed.

Lemma fields_cleanup_unmount (c : criContainerdService) (rootDir : string)
    (config : PodSandboxConfig) (w : World) :
  names (logging_error (unmountSandboxFiles c rootDir config) w) = names w
  ∧ netns (logging_error (unmountSandboxFiles c rootDir config) w) = netns w
  ∧ cni (logging_error (unmountSandboxFiles c rootDir config) w) = cni w
  ∧ containers (logging_error (unmountSandboxFiles c rootDir config) w)
    = containers w
  ∧ tasks (logging_error (unmountSandboxFiles c rootDir config) w) = tasks w
  ∧ store (logging_error (unmountSandboxFiles c rootDir config) w) = store w
  ∧ (hostIpcOf config = true →
     mounts (os (logging_error (unmountSandboxFiles c rootDir config) w))
     = mounts (os w))
  ∧ (hostIpcOf config = false →
     fault c (Unmount (getSandboxDevShm rootDir) MNT_DETACH) = false →
     mounts (os (logging_error (unmountSandboxFiles c rootDir config) w))
       !! getSandboxDevShm rootDir = None).
Proof.
  unfold logging_error, unmountSandboxFiles, os_Unmount, logged, ret.
  destruct (hostIpcOf config); simpl; [done|].
  repeat (case_match; simplify_eq/=); repeat split; try done;
    intros; by rewrite ?lookup_delete_eq.
Qed.

#[local] Arguments rolled_back : simpl never.

Ltac abstract_flags :=
  repeat match goal with
    | |- context [unmount_ok ?c ?r ?w] => generalize (unmount_ok c r w); intro
    | |- context [negb (fault ?c ?k)] => generalize (negb (fault c k)); intro
    end.

Ltac use_summary :=
  repeat match goal with
    | H : List.filter _ ?x = _ |- context [List.filter _ ?x] => rewrite H
    | H : omap _ (map fst (List.filter snd ?x)) = _
      |- context [omap _ (map fst (List.filter snd ?x))] => rewrite H
    end.

Lemma RunPodSandbox_rolled_back (c : criContainerdService)
    (r : RunPodSandboxRequest) (w w' : World) (e : error) :
  (sandboxNameIndex_Reserve (makeSandboxName c (Metadata (GetConfig r)))
     (GenerateID c) w).1 = OK () →
  RunPodSandbox c r w = (Err e, w') →
  rolled_back c r w w'.
Proof.
  intros Hres H.
  run_forward. simpl in *.
  saga_cases.
  all: unfold rolled_back.
  all: unfold NetNS_Remove, netPlugin_TearDownPod, container_Delete, task_Delete.
  all: repeat (rewrite ?log_cleanup_external, ?store_cleanup_external,
                 ?names_cleanup_external by done;
            rewrite ?log_cleanup_RemoveAll, ?log_cleanup_unmount,
              ?store_cleanup_RemoveAll, ?names_cleanup_RemoveAll,
              ?(proj1 (fields_cleanup_unmount _ _ _ _)),
              ?(proj1 (proj2 (proj2 (proj2 (proj2 (proj2
                   (fields_cleanup_unmount _ _ _ _)))))));
            simpl).
  all: abstract_flags.
  all: rewrite <- ?app_assoc; simpl.
  all: (eexists; split; [reflexivity|]).
  all: unfold forward_calls, rollback_calls, completed in *.
  all: try (destruct (hostIpcOf (GetConfig r)); simplify_eq/=).
  all: repeat first
      [ progress simpl | rewrite List.filter_app | rewrite List.map_app
      | rewrite omap_app | rewrite rev_app_distr | rewrite String.eqb_refl
      | rewrite app_nil_r | progress use_summary ].
  all: repeat split; rewrite <- ?app_assoc; try reflexivity;
    try (by rewrite ?lookup_delete_eq).
Qed.

(** *** What a clean-up does when it does not fail *)

Lemma cleanup_external_ok (c : criContainerdService) (k : Call) (what : string)
    (effect : World → World) (w : World) :
  fault c k = false →
  logging_error (external c k what () effect) w
  = set_log (λ l, (l ++ [(k, true)])%list) (effect w).
Proof. intros Hk. unfold logging_error, external, logged. by rewrite Hk. Qed.

Lemma cleanup_RemoveAll_ok (c : criContainerdService) (path : string) (w : World) :
  fault c (RemoveAll path) = false →
  path ∉ dirs (os (logging_error (os_RemoveAll c path) w))
  ∧ mounts (os (logging_error (os_RemoveAll c path) w)) = mounts (os w)
  ∧ netns (logging_error (os_RemoveAll c path) w) = netns w
  ∧ cni (logging_error (os_RemoveAll c path) w) = cni w
  ∧ containers (logging_error (os_RemoveAll c path) w) = containers w
  ∧ tasks (logging_error (os_RemoveAll c path) w) = tasks w.
Proof.
  intros Hk. unfold logging_error, os_RemoveAll, os_call, logged.
  rewrite Hk. simpl. repeat split.
  rewrite elem_of_filter. intros [Hn _]. apply Hn.
  unfold under. by rewrite bool_decide_true.
Qed.

Lemma RunPodSandbox_nothing_left (c : criContainerdService)
    (r : RunPodSandboxRequest) (w w' : World) (e : error) :
  no_rollback_fault c →
  sandbox_absent c w →
  RunPodSandbox c r w = (Err e, w') →
  sandbox_absent c w'.
Proof.
  intros Hnf (F1 & F2 & F3 & F4 & F5 & F6) H.
  run_forward. simpl in *.
  saga_cases.
  all: destruct (hostIpcOf (GetConfig r)) eqn:Hipc; simplify_eq/=.
  all: unfold sandbox_absent.
  all: unfold NetNS_Remove, netPlugin_TearDownPod, container_Delete, task_Delete.
  all: rewrite ?cleanup_external_ok by (by apply Hnf).
  all: try match goal with
       | |- context [logging_error (os_RemoveAll ?c ?p)
                       (logging_error (unmountSandboxFiles ?c ?p2 ?cfg) ?W)] =>
           pose proof (cleanup_RemoveAll_ok c p
                         (logging_error (unmountSandboxFiles c p2 cfg) W)
                         (Hnf (RemoveAll p) eq_refl)) as HR;
           pose proof (fields_cleanup_unmount c p2 cfg W) as HU;
           pose proof (Hnf (Unmount (getSandboxDevShm p2) MNT_DETACH) eq_refl)
             as HUf;
           revert HR HU;
           generalize (logging_error (os_RemoveAll c p)
                         (logging_error (unmountSandboxFiles c p2 cfg) W));
           generalize (logging_error (unmountSandboxFiles c p2 cfg) W);
           intros Y X (R0 & R1 & R2 & R3 & R4 & R5)
             (_ & U2 & U3 & U4 & U5 & _ & U7 & U8)
       | |- context [logging_error (os_RemoveAll ?c ?p) ?W] =>
           pose proof (cleanup_RemoveAll_ok c p W (Hnf (RemoveAll p) eq_refl))
             as HR;
           revert HR; generalize (logging_error (os_RemoveAll c p) W);
           intros X (R0 & R1 & R2 & R3 & R4 & R5)
       end.
  all: simpl in *.
  all: rewrite ?R1, ?R2, ?R3, ?R4, ?R5, ?U2, ?U3, ?U4, ?U5.
  all: repeat split;
    first [ assumption | apply lookup_delete_eq
          | by (rewrite U7 by done; congruence) | by apply U8 | congruence
          | by (apply not_elem_of_difference; right; apply elem_of_singleton)
          | idtac ].
Qed.

(** C1 (amended). For every creation request that fails after the name
    reservation succeeded, when the call returns every completed step has
    been compensated, last completed first: the task is deleted, then the
    sandbox files are unmounted, the root directory removed, the container
    deleted, the CNI wiring torn down, the namespace removed and the name
    released. The store is as before and the name can be reserved again;
    when no clean-up call fails and the id and namespace path were fresh,
    no root directory, shm mount, network namespace, CNI state, container or
    task of the sandbox remains. *)
Theorem RunPodSandbox_rollback (c : criContainerdService)
    (r : RunPodSandboxRequest) (w w' : World) (e : error) :
  let name := makeSandboxName c (Metadata (GetConfig r)) in
  (sandboxNameIndex_Reserve name (GenerateID c) w).1 = OK () →
  RunPodSandbox c r w = (Err e, w') →
  rolled_back c r w w'
  ∧ (∀ id', (sandboxNameIndex_Reserve name id' w').1 = OK ())
  ∧ (no_rollback_fault c → sandbox_absent c w → sandbox_absent c w').
Proof.
  intros name Hres H.
  pose proof (RunPodSandbox_rolled_back c r w w' e Hres H) as Hrb.
  split; [done|]. split.
  - intros id'. destruct Hrb as (new & _ & _ & _ & _ & Hname).
    unfold sandboxNameIndex_Reserve, logged. subst name. simpl in *.
    by rewrite Hname.
  - intros Hnf Hfresh. by eapply RunPodSandbox_nothing_left.
Qed.

Lemma RunPodSandbox_rollback_witness :
  let c := Demo.service Demo.pause Demo.start_fails in
  let r := {| GetConfig := Demo.pod false false None |} in
  rolled_back c r Demo.host (RunPodSandbox c r Demo.host).2
  ∧ sandbox_absent c (RunPodSandbox c r Demo.host).2.
Proof.
  intros c r.
  assert (Hfst : (RunPodSandbox c r Demo.host).1
                 = Err (Wrap FailedStartTask (External "containerd")))
    by (vm_compute; reflexivity).
  pose proof (surjective_pairing (RunPodSandbox c r Demo.host)) as Hrun.
  rewrite Hfst in Hrun.
  assert (Hres : (sandboxNameIndex_Reserve
                    (makeSandboxName c (Metadata (GetConfig r)))
                    (GenerateID c) Demo.host).1 = OK ()).
  { vm_compute. reflexivity. }
  destruct (RunPodSandbox_rollback c r Demo.host _ _ Hres Hrun) as (H1 & _ & H3).
  split; [exact H1|]. apply H3.
  - intros k Hk. destruct k; simpl in Hk; try discriminate Hk; reflexivity.
  - vm_compute. repeat split; try reflexivity; intros Hin; discriminate Hin.
Defined.

Lemma RunPodSandbox_not_in_spec_order :
  ¬ rollback_in_spec_order (Demo.service Demo.pause Demo.start_fails)
      {| GetConfig := Demo.pod false false None |} Demo.host.
Proof.
  intros Hc.
  set (c := Demo.service Demo.pause Demo.start_fails) in *.
  set (r := {| GetConfig := Demo.pod false false None |}) in *.
  assert (Hfst : (RunPodSandbox c r Demo.host).1
                 = Err (Wrap FailedStartTask (External "containerd")))
    by (vm_compute; reflexivity).
  pose proof (surjective_pairing (RunPodSandbox c r Demo.host)) as Hrun.
  rewrite Hfst in Hrun.
  destruct (Hc _ _ Hrun) as (new & Hlog & Horder).
  change (log Demo.host) with (@nil Event) in Hlog. simpl in Hlog. subst new.
  vm_compute in Horder. discriminate Horder.
Qed.

(** ** The saga: a failing specification *)

Lemma field_cleanup_external {A} (proj : World → A) (c : criContainerdService)
    (k : Call) (what : string) (effect : World → World) (w : World) :
  (∀ w, proj (effect w) = proj w) →
  (∀ f w, proj (set_log f w) = proj w) →
  proj (logging_error (external c k what () effect) w) = proj w.
Proof.
  intros Heff Hlog. unfold logging_error, external, logged.
  destruct (fault c k); simpl; by rewrite Hlog, ?Heff.
Qed.

Lemma field_cleanup_Release {A} (proj : World → A) (name : string) (w : World) :
  (∀ f w, proj (set_names f w) = proj w) →
  (∀ f w, proj (set_log f w) = proj w) →
  proj (logging_error (sandboxNameIndex_ReleaseByName name) w) = proj w.
Proof.
  intros Hn Hl. unfold logging_error, sandboxNameIndex_ReleaseByName, logged.
  simpl. by rewrite Hl, Hn.
Qed.

Lemma log_cleanup_Release (name : string) (w : World) :
  log (logging_error (sandboxNameIndex_ReleaseByName name) w)
  = (log w ++ [(ReleaseByName name, true)])%list.
Proof. reflexivity. Qed.

Lemma names_cleanup_Release (name : string) (w : World) :
  names (logging_error (sandboxNameIndex_ReleaseByName name) w)
  = delete name (names w).
Proof. reflexivity. Qed.

Ltac forall_events :=
  repeat match goal with
    | H : Forall _ (_ :: _) |- _ =>
        let H1 := fresh in
        apply Forall_cons in H as [H1 H]; simpl in H1; try discriminate H1
    end.

#[local] Arguments nothing_provisioned : simpl never.

Lemma RunPodSandbox_nothing_provisioned (c : criContainerdService)
    (r : RunPodSandboxRequest) (w w' : World) (res : result string) :
  Entrypoint (imgConfig (sandboxImage c)) = [] →
  RunPodSandbox c r w = (res, w') →
  nothing_provisioned c r w res w'.
Proof.
  intros Hent H.
  pose proof (generateSandboxContainerSpec_args c (GenerateID c) (GetConfig r)
                (imgConfig (sandboxImage c)) "") as He1.
  pose proof (generateSandboxContainerSpec_args c (GenerateID c) (GetConfig r)
                (imgConfig (sandboxImage c)) (nextNetNSPath c)) as He2.
  rewrite Hent in He1, He2.
  destruct He1 as (e1 & He1 & _), He2 as (e2 & He2 & _).
  run_forward. simpl in *.
  saga_cases.
  all: try congruence.
  all: unfold nothing_provisioned.
  all: unfold NetNS_Remove, netPlugin_TearDownPod.
  all: repeat split; try (by eexists).
  all: try (rewrite ?(field_cleanup_Release containers),
              ?(field_cleanup_Release tasks), ?(field_cleanup_Release os),
              ?(field_cleanup_Release store) by done;
            rewrite ?(field_cleanup_external containers),
              ?(field_cleanup_external tasks), ?(field_cleanup_external os),
              ?(field_cleanup_external store) by done;
            reflexivity).
  all: try (match goal with Hnf : no_rollback_fault _ |- _ =>
            rewrite ?(field_cleanup_Release netns),
              ?(field_cleanup_Release cni) by done;
            rewrite ?cleanup_external_ok by (by apply Hnf);
            simpl; first [ done | by apply delete_insert_id | set_solver ]
            end).
  all: try (intros new Hlog Hall;
            rewrite ?log_cleanup_Release in Hlog;
            rewrite ?log_cleanup_external in Hlog by done;
            simpl in Hlog; rewrite <- ?app_assoc in Hlog;
            apply app_inv_head in Hlog; subst new;
            unfold forward_calls in Hall; simpl in Hall; forall_events;
            unfold hostNetOf; destruct (GetHostNetwork _); simplify_eq/=;
            by eexists).
Qed.

(** ** The saga: the network namespace of a stored sandbox *)

#[local] Arguments netns_consistent : simpl never.

(** C2. For a call that succeeds (the namespace manager returning a
    non-empty path and the baseline specification being well formed), the
    stored sandbox has a non-empty network namespace path iff the pod does
    not request host networking: with host networking no namespace and no
    handle or path is created and the specification has no network-namespace
    entry; without it a namespace is created and the specification's entry
    points at its path. *)
Theorem RunPodSandbox_netns_consistent (c : criContainerdService)
    (r : RunPodSandboxRequest) (w w' : World) (id : string) :
  nextNetNSPath c ≠ "" →
  baseline_ok c (GenerateID c) →
  RunPodSandbox c r w = (OK id, w') →
  netns_consistent c r w id w'.
Proof.
  intros Hp Hbase H.
  run_forward. simpl in *.
  saga_cases.
  all: match goal with
       | Hg : generateSandboxContainerSpec _ _ _ _ _ = OK _ |- _ =>
           apply generateSandboxContainerSpec_netns in Hg; [|done]
       end.
  all: unfold netns_consistent, hostNetOf in *.
  all: destruct (GetHostNetwork _); simplify_eq/=.
  all: eexists _, _; (split; [apply lookup_insert_eq|]);
       (split; [apply lookup_insert_eq|]); simpl.
  all: repeat split; try done; try set_solver.
  all: try (eexists; split; [apply lookup_insert_eq | done]).
Qed.

Lemma RunPodSandbox_netns_consistent_witness :
  let c := Demo.service Demo.pause Demo.no_fault in
  let r := {| GetConfig := Demo.pod false false None |} in
  netns_consistent c r Demo.host "sb1" (RunPodSandbox c r Demo.host).2.
Proof.
  intros c r.
  assert (Hfst : (RunPodSandbox c r Demo.host).1 = OK "sb1")
    by (vm_compute; reflexivity).
  pose proof (surjective_pairing (RunPodSandbox c r Demo.host)) as Hrun.
  rewrite Hfst in Hrun.
  apply (RunPodSandbox_netns_consistent c r Demo.host _ "sb1"); [| |exact Hrun].
  - vm_compute. discriminate.
  - intros g Hg. injection Hg as <-. vm_compute. lia.
Defined.

(** C3 (amended). With a sandbox image whose entrypoint is empty,
    specification generation fails, with an error of kind InvalidConfig
    once the default specification is produced (the empty-entrypoint
    error, or that of an invalid image environment, which is checked
    first), and the creation call fails. When it returns, no container,
    task, root directory, file, mount or store entry has been created, and
    the name, the network namespace and the CNI wiring provisioned before
    the specification is generated have been handed to their clean-ups:
    they are gone when no clean-up call fails, a failed clean-up being only
    logged. With a non-empty entrypoint a specification is produced
    whenever the default specification, the image environment and the
    SELinux labels are, and the process arguments of every produced
    specification are the entrypoint followed by the image's default
    command. *)
Theorem RunPodSandbox_entrypoint (c : criContainerdService)
    (r : RunPodSandboxRequest) (w w' : World) (res : result string) :
  let ic := imgConfig (sandboxImage c) in
  let name := makeSandboxName c (Metadata (GetConfig r)) in
  RunPodSandbox c r w = (res, w') →
  (Entrypoint ic = [] →
     (∀ config nsPath, ∃ e',
        generateSandboxContainerSpec c (GenerateID c) config ic nsPath = Err e'
        ∧ ∀ g, defaultRuntimeSpec c (GenerateID c) = OK g →
               error_kind e' = Some InvalidConfig
               ∧ error_kind (Wrap FailedGenerateSpec e') = Some InvalidConfig
               ∧ (is_OK (addImageEnvs g (Env_ ic)) = true →
                  e' = EmptyEntrypoint))
     ∧ nothing_provisioned c r w res w'
     ∧ ((sandboxNameIndex_Reserve name (GenerateID c) w).1 = OK () →
        rolled_back c r w w')
     ∧ (no_rollback_fault c → sandbox_absent c w → sandbox_absent c w'))
  ∧ (Entrypoint ic ≠ [] →
     ∀ id config nsPath,
       (∀ s, generateSandboxContainerSpec c id config ic nsPath = OK s →
             ProcessArgs s = (Entrypoint ic ++ Cmd ic)%list)
       ∧ (∀ g, defaultRuntimeSpec c id = OK g →
               is_OK (addImageEnvs g (Env_ ic)) = true →
               is_OK (initSelinuxOpts c
                        (GetSelinuxOptions (GetSecurityContext (Linux config))))
               = true →
               ∃ s, generateSandboxContainerSpec c id config ic nsPath = OK s
                    ∧ ProcessArgs s = (Entrypoint ic ++ Cmd ic)%list)).
Proof.
  intros ic name H. split.
  - intros Hent.
    destruct (RunPodSandbox_nothing_provisioned c r w w' res Hent H)
      as ([e ->] & Hrest).
    split; [|split; [|split]].
    + intros config nsPath.
      unfold generateSandboxContainerSpec. fold ic. rewrite Hent. simpl.
      destruct (defaultRuntimeSpec c (GenerateID c)) as [g0|e0];
        [|eexists; split; [reflexivity | done]].
      destruct (addImageEnvs g0 (Env_ ic)) as [g1|e1] eqn:Henv.
      * eexists. split; [reflexivity|]. intros g [= <-]. done.
      * eexists. split; [reflexivity|]. intros g [= <-].
        rewrite Henv. simpl.
        assert (Hk : error_kind e1 = Some InvalidConfig).
        { clear -Henv. revert g0 Henv.
          induction (Env_ ic) as [|v envs IH]; intros g0; simpl; [done|].
          destruct (has_equals v); [apply IH | by intros [= <-]]. }
        by rewrite Hk.
    + by apply RunPodSandbox_nothing_provisioned.
    + intros Hres. by eapply RunPodSandbox_rolled_back.
    + intros Hnf Hfresh. by eapply RunPodSandbox_nothing_left.
  - intros Hent id config nsPath.
    pose proof (generateSandboxContainerSpec_args c id config ic nsPath) as Hg.
    destruct (Entrypoint ic) as [|e0 es] eqn:He; [done|].
    split; [exact Hg|].
    intros g Hg0 Henv Hse.
    assert (Hok : ∃ s, generateSandboxContainerSpec c id config ic nsPath = OK s).
    { unfold generateSandboxContainerSpec. fold ic. rewrite Hg0, He. simpl.
      destruct (addImageEnvs g (Env_ ic)); [|done].
      destruct (initSelinuxOpts c _) as [[pl ml]|]; [|done]. by eexists. }
    destruct Hok as [s Hs]. exists s. split; [exact Hs | by apply Hg].
Qed.

Lemma RunPodSandbox_entrypoint_witness :
  let c := Demo.service Demo.no_entrypoint Demo.no_fault in
  let r := {| GetConfig := Demo.pod false false None |} in
  (nothing_provisioned c r Demo.host (RunPodSandbox c r Demo.host).1
     (RunPodSandbox c r Demo.host).2
   ∧ sandbox_absent c (RunPodSandbox c r Demo.host).2)
  ∧ ∃ s, generateSandboxContainerSpec (Demo.service Demo.pause Demo.no_fault)
           "sb1" (GetConfig r) (imgConfig Demo.pause) "/var/run/netns/cni-1"
         = OK s
         ∧ ProcessArgs s = ["/pause"].
Proof.
  intros c r. split.
  - destruct (RunPodSandbox_entrypoint c r Demo.host _ _
                (surjective_pairing (RunPodSandbox c r Demo.host)))
      as [H _].
    destruct (H eq_refl) as (_ & H2 & _ & H4). split; [exact H2|]. apply H4.
    + intros k Hk. reflexivity.
    + vm_compute. repeat split; try reflexivity; intros Hin; discriminate Hin.
  - destruct (RunPodSandbox_entrypoint (Demo.service Demo.pause Demo.no_fault)
                r Demo.host _ _ (surjective_pairing _)) as [_ H].
    assert (Hne : Entrypoint (imgConfig Demo.pause) ≠ []) by discriminate.
    destruct (H Hne "sb1" (GetConfig r) "/var/run/netns/cni-1") as [_ Hlive].
    exact (Hlive Demo.baseSpec eq_refl eq_refl eq_refl).
Defined.

Lemma RunPodSandbox_entrypoint_leaves_namespace :
  ¬ spec_entrypoint_requirement
      (Demo.service Demo.no_entrypoint Demo.netns_remove_fails)
      {| GetConfig := Demo.pod false false None |} Demo.host.
Proof.
  intros Hc.
  destruct (Hc eq_refl _ _ (surjective_pairing _)) as (_ & _ & _ & Habs).
  destruct Habs as [Hn _].
  - vm_compute. repeat split; try reflexivity; intros Hin; discriminate Hin.
  - apply Hn. vm_compute. reflexivity.
Qed.

(** ** Witnesses on a concrete host *)

Lemma setupSandboxFiles_search_overflow_witness :
  let c := Demo.service Demo.pause Demo.no_fault in
  let config := Demo.pod false false (Some Demo.seven_searches) in
  (maxDNSSearches < length (Searches Demo.seven_searches))%nat
  ∧ (setupSandboxFiles c "/var/lib/cri-containerd/sb1" config Demo.host).1
    = Err (Wrap FailedParseDNS TooManySearches).
Proof.
  intros c config.
  assert (Hlen : (maxDNSSearches < length (Searches Demo.seven_searches))%nat)
    by (vm_compute; lia).
  split; [exact Hlen|].
  destruct (setupSandboxFiles_search_overflow c "/var/lib/cri-containerd/sb1"
              config Demo.seven_searches Demo.host _ _ eq_refl
              (surjective_pairing _)) as [H _].
  destruct (H Hlen) as (_ & _ & H3 & _).
  apply H3. vm_compute. reflexivity.
Defined.

Lemma unmountSandboxFiles_idempotent_witness :
  let c := Demo.service Demo.pause Demo.no_fault in
  let config := Demo.pod false false None in
  let root := "/var/lib/cri-containerd/sb1" in
  let w := (RunPodSandbox c {| GetConfig := config |} Demo.host).2 in
  let once := unmountSandboxFiles c root config w in
  once.1 = OK () ∧ (unmountSandboxFiles c root config once.2).1 = OK ().
Proof.
  intros c config root w once.
  destruct (unmountSandboxFiles_idempotent c root config w once.2
              (unmountSandboxFiles c root config once.2).2 once.1
              (unmountSandboxFiles c root config once.2).1
              (surjective_pairing _) (surjective_pairing _))
    as (_ & _ & _ & _ & H).
  destruct (H eq_refl) as (H1 & H2 & _). split; assumption.
Defined.

Lemma setupSandboxFiles_shm_witness :
  let c := Demo.service Demo.pause Demo.no_fault in
  let config := Demo.pod false false None in
  let root := "/var/lib/cri-containerd/sb1" in
  mounts (os (setupSandboxFiles c root config Demo.host).2)
    !! getSandboxDevShm root
  = Some shm_mount_entry.
Proof.
  intros c config root.
  assert (Hok : (setupSandboxFiles c root config Demo.host).1 = OK ())
    by (vm_compute; reflexivity).
  destruct (setupSandboxFiles_shm c root config Demo.host _ _
              (surjective_pairing _)) as (new & _ & H).
  change (hostIpcOf config) with false in H.
  destruct H as (H & _). destruct (H Hok) as (_ & Hm & _).
  rewrite Hm. apply lookup_insert_eq.
Defined.


Lemma RunPodSandbox_image_failure_witness :
  let c := Demo.service Demo.pause Demo.image_fails in
  let r := {| GetConfig := Demo.pod false false None |} in
  (RunPodSandbox c r Demo.host).1 = Err (Wrap FailedGetImage (External "image"))
  ∧ map fst (log (RunPodSandbox c r Demo.host).2)
    = [ Reserve "web_default_u1_0" "sb1";
        EnsureImageExists "gcr.io/google_containers/pause:3.0";
        ReleaseByName "web_default_u1_0" ].
Proof.
  intros c r.
  destruct (RunPodSandbox_image_failure c r Demo.host) as [H _].
  - vm_compute. reflexivity.
  - vm_compute. reflexivity.
  - rewrite H. split; reflexivity.
Defined.

(** * Further properties of the sandbox code *)

(** ** Port mappings and resolver rendering *)

(** X1. The port translation is a list homomorphism: a list in two parts
    translates to the translations of the parts, in order; and a list
    without a positive host port translates to the nil slice. *)
Theorem toCNIPortMappings_app (l1 l2 : list PortMapping) :
  toCNIPortMappings (l1 ++ l2) = (toCNIPortMappings l1 ++ toCNIPortMappings l2)%list
  ∧ (Forall (λ m, HostPort m ≤ 0) l1 → toCNIPortMappings l1 = [])
  ∧ Forall (λ m, 0 < cniHostPort m) (toCNIPortMappings l1)
  ∧ (length (toCNIPortMappings l1) ≤ length l1)%nat.
Proof.
  unfold toCNIPortMappings. rewrite !toCNIPortMappings_loop_filter. simpl.
  repeat split.
  - by rewrite filter_app, map_app.
  - induction 1 as [|m l Hm _ IH]; [done|].
    rewrite filter_cons, decide_False by lia. done.
  - apply Forall_forall. intros x Hx.
    change (x ∈ toCNI <$> filter (λ m, 0 < HostPort m) l1) in Hx.
    apply list_elem_of_fmap in Hx as (m & -> & Hm).
    apply list_elem_of_filter in Hm as [Hm _]. done.
  - rewrite length_map. apply length_filter.
Qed.

Lemma toCNIPortMappings_app_witness :
  toCNIPortMappings
    [ {| Protocol_ := UDP; ContainerPort := 53; HostPort := -1; HostIp := "" |} ]
  = [].
Proof.
  apply (toCNIPortMappings_app _ []). repeat constructor. simpl. lia.
Defined.

Lemma string_app_empty (a b : string) : a ++ b = "" → a = "" ∧ b = "".
Proof. destruct a; [done|]. intros H. discriminate H. Qed.

(** X2. [parseDNSOptions] returns the empty content exactly when no option is
    given: with at most 6 search domains the rendered content is empty iff
    the three lists are empty. *)
Theorem parseDNSOptions_empty_iff (servers searches options : list string)
    (content : string) :
  parseDNSOptions servers searches options = OK content →
  (content = "" ↔ servers = [] ∧ searches = [] ∧ options = []).
Proof.
  rewrite parseDNSOptions_lines.
  destruct (maxDNSSearches <? length searches)%nat; [done|].
  intros [= <-]. split.
  - intros H. apply string_app_empty in H as [H1 H].
    apply string_app_empty in H as [H2 H3].
    destruct searches; [|discriminate H1]. destruct options; [|discriminate H3].
    destruct servers; [done|]. rewrite <- nameserver_join in H2. discriminate H2.
  - by intros (-> & -> & ->).
Qed.

Lemma parseDNSOptions_empty_iff_witness :
  "nameserver " ++ GoStrings.nl = "" ↔ [""] = [] ∧ @nil string = [] ∧ @nil string = [].
Proof. apply (parseDNSOptions_empty_iff [""] [] []). reflexivity. Defined.

(** ** The specification builder *)

Lemma foldl_gids_spec (gids : list Z) (g : Spec) :
  foldl (λ g group, Generator.AddProcessAdditionalGid (uint32 group) g) g gids
  = Generator.SetAdditionalGids (ProcessAdditionalGids g ++ map uint32 gids)%list g.
Proof.
  revert g. induction gids as [|x gids IH]; intros g; simpl.
  - rewrite app_nil_r. by destruct g.
  - rewrite IH.
    unfold Generator.AddProcessAdditionalGid, Generator.SetAdditionalGids. simpl.
    by rewrite <- app_assoc.
Qed.

Lemma map_fold_sysctl_spec (m : gmap string string) (g : Spec) :
  map_fold (λ key value g, Generator.AddLinuxSysctl key value g) g m
  = Generator.SetLinuxSysctl (m ∪ LinuxSysctl g) g.
Proof.
  apply (map_fold_weak_ind
    (λ g' m', g' = Generator.SetLinuxSysctl (m' ∪ LinuxSysctl g) g)).
  - rewrite (left_id_L ∅ (∪)). by destruct g.
  - intros k v m' g' Hk ->.
    unfold Generator.AddLinuxSysctl, Generator.SetLinuxSysctl; simpl.
    by rewrite insert_union_l.
Qed.

Lemma addImageEnvs_spec (envs : list string) (g g' : Spec) :
  addImageEnvs g envs = OK g' →
  g' = Generator.SetProcessEnv (ProcessEnv g ++ envs)%list g.
Proof.
  revert g. induction envs as [|e envs IH]; intros g; simpl.
  - intros [= <-]. rewrite app_nil_r. by destruct g.
  - destruct (has_equals e); [|done]. intros H. rewrite (IH _ H).
    unfold Generator.AddProcessEnvs, Generator.SetProcessEnv. simpl.
    by rewrite <- app_assoc.
Qed.

Lemma ns_entries_remove_drop (t : NamespaceType) (l : list LinuxNamespace) :
  filter (λ n, nsType n = t) (Generator.remove_ns t l)
  = drop 1 (filter (λ n, nsType n = t) l).
Proof.
  induction l as [|n l IH]; simpl; [done|].
  rewrite filter_cons. destruct (decide (nsType n = t)) as [Heq|Hne]; simpl.
  - by rewrite drop_0.
  - by rewrite filter_cons, decide_False.
Qed.

Lemma ns_entries_add_or_replace_other (t : NamespaceType) (n : LinuxNamespace)
    (l : list LinuxNamespace) :
  t ≠ nsType n →
  filter (λ m, nsType m = t) (Generator.add_or_replace_ns n l)
  = filter (λ m, nsType m = t) l.
Proof.
  intros Hne. induction l as [|m l IH]; simpl.
  - by rewrite filter_cons, decide_False.
  - destruct (decide (nsType m = nsType n)) as [Heq|Hneq].
    + rewrite !filter_cons, !decide_False; [done | congruence | done].
    + rewrite !filter_cons. destruct (decide (nsType m = t)); by rewrite IH.
Qed.

(** X3. The builder succeeds exactly when the default specification is
    produced, the image environment is accepted, the entrypoint is not
    empty and the SELinux labels are initialised. Otherwise its error is
    the first of these, in this order: the error of the default
    specification, returned as it is; the error of the image environment,
    returned as it is; the empty-entrypoint error; the SELinux error,
    wrapped. Nothing else of the pod configuration (cgroup parent,
    namespaces, groups, sysctls) can make the builder fail. *)
Theorem generateSandboxContainerSpec_ok_iff (c : criContainerdService)
    (id : string) (config : PodSandboxConfig) (imageConfig : ImageConfig)
    (nsPath : string) :
  let selinuxOpt := GetSelinuxOptions (GetSecurityContext (Linux config)) in
  (is_OK (generateSandboxContainerSpec c id config imageConfig nsPath) = true
   ↔ ∃ g0, defaultRuntimeSpec c id = OK g0
           ∧ is_OK (addImageEnvs g0 (Env_ imageConfig)) = true
           ∧ Entrypoint imageConfig ≠ []
           ∧ is_OK (initSelinuxOpts c selinuxOpt) = true)
  ∧ (∀ e, generateSandboxContainerSpec c id config imageConfig nsPath = Err e ↔
          defaultRuntimeSpec c id = Err e
          ∨ (∃ g0, defaultRuntimeSpec c id = OK g0
                   ∧ addImageEnvs g0 (Env_ imageConfig) = Err e)
          ∨ (∃ g0, defaultRuntimeSpec c id = OK g0
                   ∧ is_OK (addImageEnvs g0 (Env_ imageConfig)) = true
                   ∧ Entrypoint imageConfig = []
                   ∧ e = EmptyEntrypoint)
          ∨ (∃ g0 e', defaultRuntimeSpec c id = OK g0
                      ∧ is_OK (addImageEnvs g0 (Env_ imageConfig)) = true
                      ∧ Entrypoint imageConfig ≠ []
                      ∧ initSelinuxOpts c selinuxOpt = Err e'
                      ∧ e = Wrap FailedInitSelinux e')).
Proof.
  unfold generateSandboxContainerSpec. simpl.
  destruct (defaultRuntimeSpec c id) as [g0|e0] eqn:Hg0.
  2:{ split; [split; [done | by intros (? & ? & _)]|].
      intros e. split; [intros [= ->]; by left|].
      intros [[= ->] | [(? & ? & _) | [(? & ? & _) | (? & ? & ? & _)]]]; done. }
  destruct (addImageEnvs g0 _) as [g1|e1] eqn:Hg1.
  2:{ split.
      - split; [done|]. intros (g & [= <-] & H & _). by rewrite Hg1 in H.
      - intros e. split.
        + intros [= ->]. right; left. by exists g0.
        + intros [? | [(g & [= <-] & He) | [(g & [= <-] & He & _)
                  | (g & e' & [= <-] & He & _)]]]; try done.
          * rewrite Hg1 in He. by injection He as ->.
          * by rewrite Hg1 in He.
          * by rewrite Hg1 in He. }
  destruct (Entrypoint imageConfig) as [|a l] eqn:Hent; simpl.
  { split.
    - split; [done | by intros (? & _ & _ & ? & _)].
    - intros e. split.
      + intros [= <-]. right; right; left. exists g0. by rewrite Hg1.
      + intros [? | [(g & [= <-] & He) | [(g & _ & _ & _ & ->)
                | (g & e' & _ & _ & Hne & _)]]]; try done.
        by rewrite Hg1 in He. }
  destruct (initSelinuxOpts c _) as [[pl ml]|e2] eqn:Hse; simpl.
  - split.
    + split; [|done]. intros _. exists g0. by rewrite Hg1.
    + intros e. split; [done|].
      intros [? | [(g & [= <-] & He) | [(g & _ & _ & ? & _)
              | (g & e' & _ & _ & _ & ? & _)]]]; try done.
      by rewrite Hg1 in He.
  - split.
    + split; [done | by intros (? & _ & _ & _ & ?)].
    + intros e. split.
      * intros [= <-]. right; right; right. exists g0, e2. by rewrite Hg1.
      * intros [? | [(g & [= <-] & He) | [(g & _ & _ & ? & _)
                | (g & e' & _ & _ & _ & [= <-] & ->)]]]; try done.
        by rewrite Hg1 in He.
Qed.

Lemma generateSandboxContainerSpec_inv (c : criContainerdService) (id : string)
    (config : PodSandboxConfig) (imageConfig : ImageConfig) (nsPath : string)
    (s : Spec) :
  generateSandboxContainerSpec c id config imageConfig nsPath = OK s →
  ∃ g0 pl ml,
    defaultRuntimeSpec c id = OK g0
    ∧ initSelinuxOpts c (GetSelinuxOptions (GetSecurityContext (Linux config)))
      = OK (pl, ml)
    ∧ ProcessCwd s = (if decide (WorkingDir imageConfig ≠ "")
                      then WorkingDir imageConfig else ProcessCwd g0)
    ∧ ProcessEnv s = (ProcessEnv g0 ++ Env_ imageConfig)%list
    ∧ ProcessSelinuxLabel s = pl
    ∧ ProcessAdditionalGids s
      = (ProcessAdditionalGids g0
         ++ map uint32 (GetSupplementalGroups (GetSecurityContext (Linux config))))%list
    ∧ ProcessOOMScoreAdj s = Some (defaultSandboxOOMAdj c)
    ∧ RootPath s = relativeRootfsPath
    ∧ RootReadonly s = true
    ∧ SpecHostname s = Hostname config
    ∧ LinuxCgroupsPath s
      = (if decide (GetCgroupParent (Linux config) ≠ "")
         then getCgroupsPath c (GetCgroupParent (Linux config)) id
                (SystemdCgroup (c_config c))
         else LinuxCgroupsPath g0)
    ∧ LinuxNamespaces s
      = (let nsOptions := GetNamespaceOptions (GetSecurityContext (Linux config)) in
         let l := LinuxNamespaces g0 in
         let l := if GetHostNetwork nsOptions
                  then Generator.remove_ns NetworkNamespace l
                  else Generator.add_or_replace_ns
                         {| nsType := NetworkNamespace; nsPath := nsPath |} l in
         let l := if GetHostPid nsOptions
                  then Generator.remove_ns PIDNamespace l else l in
         if GetHostIpc nsOptions then Generator.remove_ns IPCNamespace l else l)
    ∧ LinuxMountLabel s = ml
    ∧ LinuxSysctl s = GetSysctls (Linux config) ∪ LinuxSysctl g0
    ∧ LinuxCPUShares s = Some (defaultSandboxCPUshares c).
Proof.
  unfold generateSandboxContainerSpec.
  destruct (defaultRuntimeSpec c id) as [g0|] eqn:Hg0; [|done].
  destruct (addImageEnvs g0 _) as [g1|] eqn:Hg1; [|done].
  apply addImageEnvs_spec in Hg1. subst g1.
  destruct (length (Entrypoint imageConfig) =? 0)%nat; [done|].
  destruct (initSelinuxOpts c _) as [[pl ml]|]; [|done].
  intros [= <-]. exists g0, pl, ml.
  rewrite map_fold_sysctl_spec, foldl_gids_spec.
  destruct (GetHostIpc _), (GetHostPid _), (GetHostNetwork _),
    (decide (GetCgroupParent (Linux config) ≠ "")),
    (decide (WorkingDir imageConfig ≠ "")); simpl; repeat split; reflexivity.
Qed.

(** X4. Whatever the pod asks for, a generated specification has the relative
    root path [rootfs], a read-only root, the host name of the pod
    configuration, the default CPU shares and OOM score adjustment of the
    sandbox, and the SELinux labels the label initialisation returned. *)
Theorem generateSandboxContainerSpec_fixed_fields (c : criContainerdService)
    (id : string) (config : PodSandboxConfig) (imageConfig : ImageConfig)
    (nsPath : string) (s : Spec) :
  generateSandboxContainerSpec c id config imageConfig nsPath = OK s →
  RootPath s = "rootfs"
  ∧ RootReadonly s = true
  ∧ SpecHostname s = Hostname config
  ∧ LinuxCPUShares s = Some (defaultSandboxCPUshares c)
  ∧ ProcessOOMScoreAdj s = Some (defaultSandboxOOMAdj c)
  ∧ initSelinuxOpts c (GetSelinuxOptions (GetSecurityContext (Linux config)))
    = OK (ProcessSelinuxLabel s, LinuxMountLabel s).
Proof.
  intros H. apply generateSandboxContainerSpec_inv in H
    as (g0 & pl & ml & _ & Hse & _ & _ & Hpl & _ & Hoom & Hroot & Hro & Hhost
        & _ & _ & Hml & _ & Hcpu).
  rewrite Hpl, Hml. done.
Qed.

(** X5. The cgroups path and the working directory are overridden only when
    the pod (cgroup parent) resp. the image (working directory) gives a
    non-empty value; otherwise the values of the default specification
    stay. The cgroups path is computed from the parent, the sandbox id and
    the systemd-cgroup setting. *)
Theorem generateSandboxContainerSpec_overrides (c : criContainerdService)
    (id : string) (config : PodSandboxConfig) (imageConfig : ImageConfig)
    (nsPath : string) (g0 s : Spec) :
  defaultRuntimeSpec c id = OK g0 →
  generateSandboxContainerSpec c id config imageConfig nsPath = OK s →
  let parent := GetCgroupParent (Linux config) in
  (parent = "" → LinuxCgroupsPath s = LinuxCgroupsPath g0)
  ∧ (parent ≠ "" →
     LinuxCgroupsPath s
     = getCgroupsPath c parent id (SystemdCgroup (c_config c)))
  ∧ (WorkingDir imageConfig = "" → ProcessCwd s = ProcessCwd g0)
  ∧ (WorkingDir imageConfig ≠ "" → ProcessCwd s = WorkingDir imageConfig).
Proof.
  intros Hg0 H. apply generateSandboxContainerSpec_inv in H
    as (g & pl & ml & Hg & _ & Hcwd & _ & _ & _ & _ & _ & _ & _ & Hcg & _).
  rewrite Hg0 in Hg. injection Hg as <-. simpl.
  rewrite Hcwd, Hcg.
  repeat split; intros Hx;
    first [ by rewrite decide_False by (by intros ?)
          | by rewrite decide_True ].
Qed.

(** X6. Of the namespaces of the default specification the builder touches
    the network, PID and IPC entries only: a host-PID (host-IPC) pod loses
    the first PID (IPC) entry, another pod keeps the PID (IPC) entries, and
    the entries of every other type stay as they are. *)
Theorem generateSandboxContainerSpec_namespaces (c : criContainerdService)
    (id : string) (config : PodSandboxConfig) (imageConfig : ImageConfig)
    (nsPath : string) (g0 s : Spec) :
  defaultRuntimeSpec c id = OK g0 →
  generateSandboxContainerSpec c id config imageConfig nsPath = OK s →
  let nsOptions := GetNamespaceOptions (GetSecurityContext (Linux config)) in
  ns_entries PIDNamespace s
  = (if GetHostPid nsOptions then drop 1 (ns_entries PIDNamespace g0)
     else ns_entries PIDNamespace g0)
  ∧ ns_entries IPCNamespace s
    = (if GetHostIpc nsOptions then drop 1 (ns_entries IPCNamespace g0)
       else ns_entries IPCNamespace g0)
  ∧ ∀ t, t ≠ NetworkNamespace → t ≠ PIDNamespace → t ≠ IPCNamespace →
         ns_entries t s = ns_entries t g0.
Proof.
  intros Hg0 H. apply generateSandboxContainerSpec_inv in H
    as (g & pl & ml & Hg & _ & _ & _ & _ & _ & _ & _ & _ & _ & _ & Hns & _).
  rewrite Hg0 in Hg. injection Hg as <-. unfold ns_entries. rewrite Hns. simpl.
  destruct (GetHostIpc _), (GetHostPid _), (GetHostNetwork _);
    (split; [|split; [|intros t Hn Hp Hi]]);
    rewrite ?ns_entries_remove_drop;
    repeat first
      [ rewrite ns_entries_remove_other by done
      | rewrite ns_entries_remove_drop
      | rewrite ns_entries_add_or_replace_other by done ];
    reflexivity.
Qed.

(** X7. The requested sysctls are written over those of the default
    specification, which keeps its other keys; the supplemental groups of
    the pod are converted to 32-bit unsigned numbers (a negative group
    wraps around) and added to the additional groups, which get nothing
    else. *)
Theorem generateSandboxContainerSpec_sysctls_groups (c : criContainerdService)
    (id : string) (config : PodSandboxConfig) (imageConfig : ImageConfig)
    (nsPath : string) (g0 s : Spec) :
  defaultRuntimeSpec c id = OK g0 →
  generateSandboxContainerSpec c id config imageConfig nsPath = OK s →
  let sysctls := GetSysctls (Linux config) in
  let groups := GetSupplementalGroups (GetSecurityContext (Linux config)) in
  (∀ k, LinuxSysctl s !! k
        = match sysctls !! k with
          | Some v => Some v
          | None => LinuxSysctl g0 !! k
          end)
  ∧ (∀ y, y ∈ ProcessAdditionalGids s
          ↔ y ∈ ProcessAdditionalGids g0 ∨ ∃ x, x ∈ groups ∧ y = x mod 2 ^ 32)
  ∧ (∀ y, y ∈ ProcessAdditionalGids s → y ∉ ProcessAdditionalGids g0 →
          0 ≤ y < 2 ^ 32).
Proof.
  intros Hg0 H. apply generateSandboxContainerSpec_inv in H
    as (g & pl & ml & Hg & _ & _ & _ & _ & Hgids & _ & _ & _ & _ & _ & _ & _
        & Hsys & _).
  rewrite Hg0 in Hg. injection Hg as <-. simpl.
  assert (Hmem : ∀ y, y ∈ ProcessAdditionalGids s
          ↔ y ∈ ProcessAdditionalGids g0
            ∨ ∃ x, x ∈ GetSupplementalGroups (GetSecurityContext (Linux config))
                   ∧ y = x mod 2 ^ 32).
  { intros y. rewrite Hgids, elem_of_app.
    change (map uint32 ?l) with (uint32 <$> l). rewrite list_elem_of_fmap.
    unfold uint32. naive_solver. }
  split; [|split].
  - intros k. rewrite Hsys, lookup_union.
    destruct (GetSysctls (Linux config) !! k), (LinuxSysctl g0 !! k); done.
  - exact Hmem.
  - intros y Hy Hn. apply Hmem in Hy as [Hy | (x & _ & ->)]; [done|].
    apply Z.mod_pos_bound. lia.
Qed.

(** ** The saga: a call that succeeds *)

#[local] Arguments sandbox_started : simpl never.

Lemma setupSandboxFiles_success_log (c : criContainerdService)
    (rootDir : string) (config : PodSandboxConfig) (w w1 : World)
    (r : result unit) :
  setupSandboxFiles c rootDir config w = (r, w1) →
  is_OK r = true →
  ∃ content,
    rendered_content config = OK content
    ∧ ∀ new, log w1 = (log w ++ new)%list →
             new = map succeeded (files_calls rootDir config content).
Proof.
  intros H Hok. unfold rendered_content, files_calls, resolv_call, succeeded.
  run_files.
  destruct (DnsConfig config) as [dns|]; simpl in *;
    [destruct (parseDNSOptions _ _ _) as [content|]; simpl in * |];
    destruct (hostIpcOf config); simpl in *;
    repeat (case_match; simplify_eq/=);
    eexists; (split; [reflexivity|]);
    intros new Hlog; rewrite <- ?app_assoc in Hlog;
    apply app_inv_head in Hlog; subst new;
    rewrite ?decide_True by done; rewrite ?decide_False by done;
    reflexivity.
Qed.

#[local] Arguments files_calls : simpl never.
#[local] Arguments rendered_content : simpl never.

Lemma RunPodSandbox_success_inv (c : criContainerdService)
    (r : RunPodSandboxRequest) (w w' : World) (id' : string) :
  RunPodSandbox c r w = (OK id', w') →
  id' = GenerateID c ∧ sandbox_started c r w w'.
Proof.
  intros H.
  run_forward. simpl in *.
  repeat first
    [ match goal with
      | H : setupSandboxFiles _ _ _ _ = (_, _) |- _ =>
          let X := fresh "Hfl" in
          pose proof (setupSandboxFiles_success_log _ _ _ _ _ _ H) as X;
          apply setupSandboxFiles_summary in H as (? & ? & -> & ? & ? & ? & ?)
      end
    | case_match; simplify_eq/= ].
  all: match goal with
       | X : _ → ∃ content : string, rendered_content _ = OK content ∧ _ |- _ =>
           destruct (X eq_refl) as (content & Hcontent & Hnew);
           specialize (Hnew _ eq_refl); subst; clear X
       end.
  all: split; [reflexivity|].
  all: unfold sandbox_started, created_sandbox, pod_network, calls_before_files,
         calls_after_files, hostNetOf in *.
  all: destruct (GetHostNetwork _); simplify_eq/=.
  all: repeat match goal with
       | |- _ ∧ _ => split
       end.
  all: try done.
  all: try (symmetry; by apply insert_id).
  all: try apply insert_insert_eq.
  all: try (eexists _, _; split; [eassumption|]; split; [eassumption|];
            by destruct (GetRunAsUser _), a3).
  all: eexists; (split; [eassumption|]).
  all: unfold files_calls, succeeded in *.
  all: destruct (hostIpcOf (GetConfig r)); simplify_eq/=.
  all: rewrite <- ?app_assoc; reflexivity.
Qed.

(** X8. A successful call returns the generated id and leaves the name
    reserved for it, the sandbox in the store under the id (which was not
    in the store before) with its name, configuration and container handle,
    and the task running; no other entry of the store changes. *)
Theorem RunPodSandbox_success_registers (c : criContainerdService)
    (r : RunPodSandboxRequest) (w w' : World) (id' : string) :
  RunPodSandbox c r w = (OK id', w') →
  let id := GenerateID c in
  let name := makeSandboxName c (Metadata (GetConfig r)) in
  id' = id
  ∧ names w' !! name = Some id
  ∧ store w !! id = None
  ∧ (∃ sb, store w' !! id = Some sb
           ∧ sbID sb = id ∧ sbName sb = name ∧ sbConfig sb = GetConfig r
           ∧ sbContainer sb = Some id)
  ∧ (∀ k, k ≠ id → store w' !! k = store w !! k)
  ∧ tasks w' !! id = Some TaskRunning.
Proof.
  intros H. apply RunPodSandbox_success_inv in H as [-> H].
  unfold sandbox_started in H.
  destruct H as (Hn & Hs0 & Hs & Ht & _). simpl.
  rewrite Hn, Hs, Ht. repeat split.
  - apply lookup_insert_eq.
  - done.
  - eexists. split; [apply lookup_insert_eq | done].
  - intros k Hk. by apply lookup_insert_ne.
  - apply lookup_insert_eq.
Qed.

(** X9. On success the calls made are exactly, in this order and each
    returning without error: the name reservation, the image lookup, for a
    pod with its own network the namespace creation and the CNI set-up, the
    container creation, the creation of the root directory, then the calls
    of the file setup (the copy of the host's hosts file, the copy of the
    host's resolv.conf or the write of the rendered one, and the stat of
    the host's /dev/shm or the creation and mount of the sandbox's), then
    the task creation, the task start and the store insertion. No clean-up
    call is made. *)
Theorem RunPodSandbox_success_calls (c : criContainerdService)
    (r : RunPodSandboxRequest) (w w' : World) (id' : string) :
  RunPodSandbox c r w = (OK id', w') →
  let config := GetConfig r in
  let id := GenerateID c in
  let root := getSandboxRootDir (RootDir (c_config c)) id in
  let shm := getSandboxDevShm root in
  ∃ content,
    rendered_content config = OK content
    ∧ log w'
      = (log w
         ++ map (λ k, (k, true))
              ([Reserve (makeSandboxName c (Metadata config)) id;
                EnsureImageExists (SandboxImage (c_config c))]
               ++ (if hostNetOf config then []
                   else [NewNetNS (nextNetNSPath c);
                         SetUpPod
                           {| pnName := GetName (Metadata config);
                              pnNamespace := GetNamespace (Metadata config);
                              pnID := id;
                              pnNetNS := nextNetNSPath c;
                              pnPortMappings :=
                                toCNIPortMappings (PortMappings config) |}])
               ++ [NewContainer id; MkdirAll root mode_0755;
                   CopyFile etcHosts (getSandboxHosts root) mode_0644;
                   if decide (content = "")
                   then CopyFile resolvConfPath (getResolvPath root) mode_0644
                   else WriteFile (getResolvPath root) content mode_0644]
               ++ (if hostIpcOf config then [Stat devShm]
                   else [MkdirAll shm mode_0700;
                         Mount "shm" shm "tmpfs"
                           (Z.lor (Z.lor MS_NOEXEC MS_NOSUID) MS_NODEV)
                           ("mode=1777,size=" ++ GoStrings.itoa defaultShmSize)])
               ++ [NewTask id; TaskStart id; StoreAdd id]))%list
    ∧ rollback_calls (drop (length (log w)) (log w')) = [].
Proof.
  intros H. apply RunPodSandbox_success_inv in H as [-> H].
  unfold sandbox_started in H.
  destruct H as (_ & _ & _ & _ & _ & _ & _ & content & Hc & Hlog).
  simpl. exists content. split; [exact Hc|].
  assert (Hlog' : log w'
      = (log w
         ++ map (λ k, (k, true))
              ([Reserve (makeSandboxName c (Metadata (GetConfig r)))
                  (GenerateID c);
                EnsureImageExists (SandboxImage (c_config c))]
               ++ (if hostNetOf (GetConfig r) then []
                   else [NewNetNS (nextNetNSPath c);
                         SetUpPod (pod_network c r)])
               ++ [NewContainer (GenerateID c);
                   MkdirAll (getSandboxRootDir (RootDir (c_config c))
                               (GenerateID c)) mode_0755;
                   CopyFile etcHosts
                     (getSandboxHosts
                        (getSandboxRootDir (RootDir (c_config c))
                           (GenerateID c))) mode_0644;
                   resolv_call
                     (getSandboxRootDir (RootDir (c_config c)) (GenerateID c))
                     content]
               ++ (if hostIpcOf (GetConfig r) then [Stat devShm]
                   else [MkdirAll
                           (getSandboxDevShm
                              (getSandboxRootDir (RootDir (c_config c))
                                 (GenerateID c))) mode_0700;
                         Mount "shm"
                           (getSandboxDevShm
                              (getSandboxRootDir (RootDir (c_config c))
                                 (GenerateID c))) "tmpfs"
                           (Z.lor (Z.lor MS_NOEXEC MS_NOSUID) MS_NODEV)
                           ("mode=1777,size=" ++ GoStrings.itoa defaultShmSize)])
               ++ [NewTask (GenerateID c); TaskStart (GenerateID c);
                   StoreAdd (GenerateID c)]))%list).
  { rewrite Hlog. unfold calls_before_files, calls_after_files, files_calls,
      succeeded.
    f_equal. f_equal.
    destruct (hostNetOf (GetConfig r)), (hostIpcOf (GetConfig r)); reflexivity. }
  split; [exact Hlog'|].
  rewrite Hlog', drop_app_length. unfold rollback_calls, resolv_call.
  destruct (hostNetOf (GetConfig r)), (hostIpcOf (GetConfig r)),
    (decide (content = "")); reflexivity.
Qed.


(** X11. On success, for a pod with its own network, the network plugin holds
    for the sandbox id the descriptor with the name and namespace of the
    pod metadata, the sandbox id, the created namespace and the port
    mappings of the pod that have a positive host port, translated; the
    entries of other sandboxes are as before. *)
Theorem RunPodSandbox_network_descriptor (c : criContainerdService)
    (r : RunPodSandboxRequest) (w w' : World) (id' : string) :
  hostNetOf (GetConfig r) = false →
  RunPodSandbox c r w = (OK id', w') →
  let config := GetConfig r in
  cni w' !! GenerateID c
  = Some {| pnName := GetName (Metadata config);
            pnNamespace := GetNamespace (Metadata config);
            pnID := GenerateID c;
            pnNetNS := nextNetNSPath c;
            pnPortMappings :=
              map toCNI (filter (λ m, 0 < HostPort m) (PortMappings config)) |}
  ∧ ∀ k, k ≠ GenerateID c → cni w' !! k = cni w !! k.
Proof.
  intros Hnet H. apply RunPodSandbox_success_inv in H as [-> H].
  unfold sandbox_started in H.
  destruct H as (_ & _ & _ & _ & _ & Hcni & _).
  rewrite Hnet in Hcni. simpl. rewrite Hcni. split.
  - rewrite lookup_insert_eq. unfold pod_network, toCNIPortMappings.
    by rewrite toCNIPortMappings_loop_filter.
  - intros k Hk. by apply lookup_insert_ne.
Qed.

(** ** The saga: a name that is taken *)

(** X12. When the sandbox name is reserved for another id the call fails with
    the reservation error and does nothing else: the only call made is the
    refused reservation, no clean-up runs (so the reservation of the other
    sandbox is not released), and the world is otherwise unchanged. *)
Theorem RunPodSandbox_name_conflict (c : criContainerdService)
    (r : RunPodSandboxRequest) (w : World) (other : string) :
  let name := makeSandboxName c (Metadata (GetConfig r)) in
  let id := GenerateID c in
  names w !! name = Some other →
  other ≠ id →
  RunPodSandbox c r w
  = (Err (Wrap FailedReserveName (NameReserved name other)),
     set_log (λ l, (l ++ [(Reserve name id, false)])%list) w)
  ∧ error_kind (Wrap FailedReserveName (NameReserved name other)) = Some Conflict.
Proof.
  intros name id Hname Hne. split; [|reflexivity].
  unfold RunPodSandbox, RunPodSandbox_body, bind, liftW, wrap,
    sandboxNameIndex_Reserve, logged. simpl.
  fold name id. rewrite Hname. rewrite decide_False by done. reflexivity.
Qed.

(** ** The saga: the store *)

(** X13. Whatever the outcome, the call changes the store at most at the
    generated id, and never there when the id is already stored: a stored
    sandbox is neither overwritten nor removed, and the call then fails. *)
Theorem RunPodSandbox_store_frame (c : criContainerdService)
    (r : RunPodSandboxRequest) (w w' : World) (res : result string) :
  RunPodSandbox c r w = (res, w') →
  (∀ k, k ≠ GenerateID c → store w' !! k = store w !! k)
  ∧ (is_OK res = false → store w' = store w)
  ∧ (∀ sb, store w !! GenerateID c = Some sb →
           store w' !! GenerateID c = Some sb ∧ is_OK res = false).
Proof.
  intros H.
  assert (Hcases : (is_OK res = true ∧ store w !! GenerateID c = None
                    ∧ ∃ sb, store w' = <[GenerateID c := sb]> (store w))
                   ∨ (is_OK res = false ∧ store w' = store w)).
  { destruct res as [id'|e].
    - left. apply RunPodSandbox_success_inv in H as [-> H].
      unfold sandbox_started in H. destruct H as (_ & Hs0 & Hs & _).
      split; [done|]. split; [done|]. by eexists.
    - right. split; [done|].
      destruct (sandboxNameIndex_Reserve
                  (makeSandboxName c (Metadata (GetConfig r)))
                  (GenerateID c) w).1 as [[]|e0] eqn:Hres.
      + apply RunPodSandbox_rolled_back in H; [|done].
        unfold rolled_back in H. by destruct H as (new & _ & _ & _ & Hs & _).
      + revert H Hres.
        unfold RunPodSandbox, RunPodSandbox_body, bind, liftW, wrap,
          sandboxNameIndex_Reserve, logged. simpl.
        destruct (names w !! _) as [k|]; [|done].
        destruct (decide (k = GenerateID c)); [done|]. simpl.
        by intros [= <- <-] _. }
  destruct Hcases as [(Hok & Hnone & sb' & Hs) | (Herr & Hs)]; rewrite Hs.
  - split; [intros k Hk; by apply lookup_insert_ne|].
    split; [by rewrite Hok|]. intros sb Hsb. congruence.
  - split; [done|]. split; [done|]. done.
Qed.

(** ** The sandbox files: what is written, and when the setup succeeds *)

Lemma hosts_not_resolvConf (rootDir : string) :
  getSandboxHosts rootDir ≠ resolvConfPath.
Proof.
  unfold getSandboxHosts, resolvConfPath, filepath_Join. intros H.
  do 16 (destruct rootDir as [|? rootDir]; [discriminate H|];
         injection H as _ H).
  destruct rootDir; discriminate H.
Qed.

(** X14. A file setup that succeeds leaves in the sandbox a hosts file with
    the content of the host's /etc/hosts, and a resolv.conf with the
    rendered DNS options of the pod or, when these render to nothing, with
    the content of the host's /etc/resolv.conf. No other file is written,
    whether the setup succeeds or not. *)
Theorem setupSandboxFiles_contents (c : criContainerdService) (rootDir : string)
    (config : PodSandboxConfig) (w w' : World) (r : result unit) :
  setupSandboxFiles c rootDir config w = (r, w') →
  (∀ p, p ≠ getSandboxHosts rootDir → p ≠ getResolvPath rootDir →
        files (os w') !! p = files (os w) !! p)
  ∧ (r = OK () →
     ∃ hosts content,
       files (os w) !! etcHosts = Some hosts
       ∧ files (os w') !! getSandboxHosts rootDir = Some hosts
       ∧ rendered_content config = OK content
       ∧ files (os w') !! getResolvPath rootDir
         = if decide (content = "") then files (os w) !! resolvConfPath
           else Some content).
Proof.
  intros H.
  pose proof (hosts_resolv_distinct rootDir) as Hne.
  pose proof (hosts_not_resolvConf rootDir) as Hnr.
  unfold rendered_content. run_files.
  destruct (DnsConfig config) as [dns|]; simpl in *;
    [destruct (parseDNSOptions _ _ _) as [content|]; simpl in * |];
    destruct (hostIpcOf config); simpl in *;
    repeat (case_match; simplify_eq/=);
    (split; [intros p Hp1 Hp2; by rewrite ?lookup_insert_ne by done|]);
    try done; intros _; eexists _, _;
    (split; [done|]);
    (split; [by rewrite ?(lookup_insert_ne _ (getResolvPath rootDir)) by done;
             rewrite lookup_insert_eq|]);
    (split; [done|]);
    rewrite ?decide_True by done; rewrite ?decide_False by done;
    rewrite lookup_insert_eq; try done;
    match goal with
    | Hc : <[_ := _]> _ !! resolvConfPath = Some _ |- _ =>
        rewrite lookup_insert_ne in Hc by done; by rewrite Hc
    end.
Qed.

(** X15. A failure of the hosts copy ends the setup at once: its error is
    returned as a hosts-file error, the copy is the only call made, and
    the files, directories and mounts are as before. *)
Theorem setupSandboxFiles_hosts_failure (c : criContainerdService)
    (rootDir : string) (config : PodSandboxConfig) (w : World) (e : error) :
  (os_CopyFile c etcHosts (getSandboxHosts rootDir) mode_0644 w).1 = Err e →
  setupSandboxFiles c rootDir config w
  = (Err (Wrap FailedHostsFile e),
     set_log (λ l, (l ++ [(CopyFile etcHosts (getSandboxHosts rootDir) mode_0644,
                           false)])%list) w)
  ∧ error_kind (Wrap FailedHostsFile e) = Some FilesystemError
  ∧ (fault c (CopyFile etcHosts (getSandboxHosts rootDir) mode_0644) = false →
     e = Errno ENOENT ∧ files (os w) !! etcHosts = None).
Proof.
  intros H. run_files.
  repeat (case_match; simplify_eq/=); repeat split; try done.
  all: try (apply world_eq; simpl; try done; by destruct (os w)).
  all: f_equal; apply world_eq; simpl; try done; by destruct (os w).
Qed.

Lemma exists_path_insert (o : OSState) (p q data : string) :
  exists_path o p = true →
  exists_path (set_files (<[q := data]>) o) p = true.
Proof.
  unfold exists_path. simpl. intros H.
  apply orb_true_iff in H as [H|H]; apply orb_true_iff; [by left|right].
  apply bool_decide_eq_true in H. apply bool_decide_eq_true.
  destruct (decide (q = p)) as [->|Hne].
  - by rewrite lookup_insert_eq.
  - by rewrite lookup_insert_ne.
Qed.

Lemma setupSandboxFiles_returns_ok (c : criContainerdService) (rootDir : string)
    (config : PodSandboxConfig) (w : World) (content : string) :
  (∀ k, is_os_call k = true → fault c k = false) →
  is_Some (files (os w) !! etcHosts) →
  rendered_content config = OK content →
  (content = "" → is_Some (files (os w) !! resolvConfPath)) →
  (hostIpcOf config = true → exists_path (os w) devShm = true) →
  (setupSandboxFiles c rootDir config w).1 = OK ().
Proof.
  intros Hnf [hosts Hh] Hc Hresolv Hshm.
  pose proof (hosts_not_resolvConf rootDir) as Hnr.
  unfold rendered_content in Hc. run_files.
  rewrite !Hnf by done. rewrite Hh. simpl.
  destruct (DnsConfig config) as [dns|]; [rewrite Hc | injection Hc as <-];
    simpl.
  all: try match goal with
       | |- context [decide (?x = "")] =>
           destruct (decide (x = "")) as [Heq|Hne]
       end; simpl.
  all: try (first [ destruct (Hresolv Heq) as [data Hd]
                  | destruct (Hresolv eq_refl) as [data Hd] ];
            rewrite lookup_insert_ne by done; rewrite Hd; simpl).
  all: rewrite ?Hnf by done; simpl.
  all: destruct (hostIpcOf config); simpl; [|done].
  all: rewrite exists_path_insert
         by (repeat apply exists_path_insert; by apply Hshm); done.
Qed.

(** X16. The file setup succeeds whenever no OS call is made to fail, the host
    has an /etc/hosts, the pod gives at most 6 search domains, the host has
    an /etc/resolv.conf if the pod gives no DNS option at all, and, for a
    pod sharing the host IPC namespace, the host has a /dev/shm. *)
Theorem setupSandboxFiles_succeeds (c : criContainerdService) (rootDir : string)
    (config : PodSandboxConfig) (w : World) (content : string) :
  (∀ k, is_os_call k = true → fault c k = false) →
  is_Some (files (os w) !! etcHosts) →
  rendered_content config = OK content →
  (content = "" → is_Some (files (os w) !! resolvConfPath)) →
  (hostIpcOf config = true → exists_path (os w) devShm = true) →
  (setupSandboxFiles c rootDir config w).1 = OK ().
Proof. apply setupSandboxFiles_returns_ok. Qed.

Lemma setupSandboxFiles_os_calls (c : criContainerdService) (rootDir : string)
    (config : PodSandboxConfig) (w w' : World) (r : result unit) :
  setupSandboxFiles c rootDir config w = (r, w') →
  (∀ new, log w' = (log w ++ new)%list →
          Forall (λ ev : Event, is_os_call ev.1 = true) new)
  ∧ names w' = names w ∧ netns w' = netns w ∧ cni w' = cni w
  ∧ containers w' = containers w ∧ tasks w' = tasks w ∧ store w' = store w.
Proof.
  intros H. run_files.
  destruct (hostIpcOf config); simpl in *;
    repeat (case_match; simplify_eq/=);
    (split; [|done]); intros new Hlog; rewrite <- ?app_assoc in Hlog;
    apply app_inv_head in Hlog; subst new; repeat constructor.
Qed.

(** X17. The file setup talks to the OS layer only: every call it makes is an
    OS call, and the name index, the network namespaces, the CNI state, the
    containers, the tasks and the store are as before, whatever the
    outcome. *)
Theorem setupSandboxFiles_os_only (c : criContainerdService) (rootDir : string)
    (config : PodSandboxConfig) (w w' : World) (r : result unit) :
  setupSandboxFiles c rootDir config w = (r, w') →
  (∀ new, log w' = (log w ++ new)%list →
          Forall (λ ev : Event, is_os_call ev.1 = true) new)
  ∧ names w' = names w ∧ netns w' = netns w ∧ cni w' = cni w
  ∧ containers w' = containers w ∧ tasks w' = tasks w ∧ store w' = store w.
Proof. apply setupSandboxFiles_os_calls. Qed.

(** X18. The file teardown returns an error only when the pod has its own IPC
    namespace and the unmount of a mounted sandbox /dev/shm fails; the
    error of the unmount is returned as it is, and the mount is still
    there. A missing path is no error. *)
Theorem unmountSandboxFiles_error (c : criContainerdService) (rootDir : string)
    (config : PodSandboxConfig) (w w' : World) (r : result unit) :
  unmountSandboxFiles c rootDir config w = (r, w') →
  let shm := getSandboxDevShm rootDir in
  (∀ e, r = Err e ↔
        hostIpcOf config = false
        ∧ (os_Unmount c shm MNT_DETACH w).1 = Err e
        ∧ os_IsNotExist e = false)
  ∧ (∀ e, r = Err e →
          is_Some (mounts (os w) !! shm) ∧ os w' = os w
          ∧ fault c (Unmount shm MNT_DETACH) = true)
  ∧ (mounts (os w) !! shm = None → exists_path (os w) shm = false →
     hostIpcOf config = false →
     (os_Unmount c shm MNT_DETACH w).1 = Err (Errno ENOENT) ∧ r = OK ()).
Proof.
  intros H shm. subst shm. run_files.
  destruct (hostIpcOf config); simpl in *.
  { simplify_eq. repeat split; try done. intros (? & _). done. }
  repeat (case_match; simplify_eq/=); repeat split; try done;
    try (intros (_ & He & Hn); by simplify_eq/=);
    try (by intros; simplify_eq/=); try by eexists.
Qed.

(** ** The saga: when the call succeeds *)

Lemma exists_path_mkdir (o : OSState) (p q : string) :
  exists_path o p = true →
  exists_path (set_dirs (λ d, {[q]} ∪ d) o) p = true.
Proof.
  unfold exists_path. simpl. intros H.
  apply orb_true_iff in H as [H|H]; apply orb_true_iff; [left|by right].
  apply bool_decide_eq_true in H. apply bool_decide_eq_true. set_solver.
Qed.

(** X19. The call succeeds, returning the generated id, whenever no
    collaborator call is made to fail, the name is free or already
    reserved for the id, the id is not in the store, the specification and
    the seccomp options can be generated, and the host provides what the
    file setup needs: an /etc/hosts, an /etc/resolv.conf if the pod gives
    no DNS option, at most 6 search domains, and a /dev/shm for a pod
    sharing the host IPC namespace. *)
Theorem RunPodSandbox_succeeds (c : criContainerdService)
    (r : RunPodSandboxRequest) (w : World) (content : string) :
  let config := GetConfig r in
  let id := GenerateID c in
  let securityContext := GetSecurityContext (Linux config) in
  (∀ k, fault c k = false) →
  (sandboxNameIndex_Reserve (makeSandboxName c (Metadata config)) id w).1
    = OK () →
  store w !! id = None →
  is_OK (generateSandboxContainerSpec c id config (imgConfig (sandboxImage c))
           (if hostNetOf config then "" else nextNetNSPath c)) = true →
  is_OK (generateSeccompSpecOpts c (GetSeccompProfilePath securityContext)
           (GetPrivileged securityContext) (seccompEnabled c)) = true →
  is_Some (files (os w) !! etcHosts) →
  rendered_content config = OK content →
  (content = "" → is_Some (files (os w) !! resolvConfPath)) →
  (hostIpcOf config = true → exists_path (os w) devShm = true) →
  (RunPodSandbox c r w).1 = OK id.
Proof.
  intros config id securityContext Hnf Hres Hstore Hgen Hsec Hhosts Hc Hresolv
    Hshm.
  subst config id securityContext.
  destruct (RunPodSandbox c r w) as [res w'] eqn:H. simpl.
  destruct res as [id'|e];
    [by apply RunPodSandbox_success_inv in H as [-> _]|].
  exfalso. unfold hostNetOf in Hgen.
  assert (Hfiles : ∀ W, files (os W) = files (os w) →
            (exists_path (os w) devShm = true → exists_path (os W) devShm = true) →
            (setupSandboxFiles c
               (getSandboxRootDir (RootDir (c_config c)) (GenerateID c))
               (GetConfig r) W).1 = OK ()).
  { intros W Hf Hd. apply (setupSandboxFiles_returns_ok _ _ _ _ content);
      rewrite ?Hf; auto. }
  run_forward. simpl in *.
  rewrite ?Hnf in H. simpl in H.
  repeat first
    [ match goal with
      | H : setupSandboxFiles _ _ _ ?W = (Err _, _) |- _ =>
          let X := fresh in
          pose proof (Hfiles W eq_refl (exists_path_mkdir _ _ _)) as X;
          rewrite H in X; discriminate X
      | H : setupSandboxFiles _ _ _ _ = (OK _, _) |- _ =>
          apply setupSandboxFiles_summary in H as (? & ? & -> & ? & ? & ? & ?)
      | H : context [fault c ?k] |- _ => rewrite (Hnf k) in H
      end
    | case_match; simplify_eq/= ].
  all: match goal with
       | H : ?t = Err _, H' : is_OK ?t = true |- _ =>
           rewrite H in H'; discriminate H'
       end.
Qed.

(** ** The saga: a pod in the host network *)

#[local] Arguments network_untouched : simpl never.

Lemma os_call_not_network (evs : list Event) :
  Forall (λ ev : Event, is_os_call ev.1 = true) evs →
  Forall (λ ev : Event, is_network_call ev.1 = false) evs.
Proof. intros H. eapply Forall_impl; [exact H|]. intros [[] ?]; simpl; done. Qed.

Lemma net_cleanup_RemoveAll (c : criContainerdService) (path : string) (w : World) :
  netns (logging_error (os_RemoveAll c path) w) = netns w
  ∧ cni (logging_error (os_RemoveAll c path) w) = cni w.
Proof.
  unfold logging_error, os_RemoveAll, os_call, logged.
  by destruct (fault c _).
Qed.

(** X20. For a pod in the host network the call leaves the network alone,
    whether it succeeds or fails and whatever fails: neither the forward
    steps nor the clean-ups create or remove a namespace or call the
    network plugin. *)
Theorem RunPodSandbox_host_network (c : criContainerdService)
    (r : RunPodSandboxRequest) (w w' : World) (res : result string) :
  hostNetOf (GetConfig r) = true →
  RunPodSandbox c r w = (res, w') →
  network_untouched w w'.
Proof.
  intros Hhost H. unfold hostNetOf in Hhost.
  run_forward. rewrite Hhost in H. simpl in *.
  repeat first
    [ match goal with
      | H : setupSandboxFiles _ _ _ _ = (_, _) |- _ =>
          let X := fresh "Hos" in
          pose proof (proj1 (setupSandboxFiles_os_calls _ _ _ _ _ _ H)) as X;
          apply setupSandboxFiles_summary in H as (? & ? & -> & ? & ? & ? & ?);
          specialize (X _ eq_refl); apply os_call_not_network in X
      end
    | case_match; simplify_eq/= ].
  all: unfold network_untouched.
  all: unfold container_Delete, task_Delete.
  all: repeat (rewrite ?log_cleanup_external, ?(field_cleanup_external netns),
                 ?(field_cleanup_external cni) by done;
            rewrite ?log_cleanup_Release, ?(field_cleanup_Release netns),
              ?(field_cleanup_Release cni) by done;
            rewrite ?log_cleanup_RemoveAll, ?log_cleanup_unmount,
              ?(proj1 (net_cleanup_RemoveAll _ _ _)),
              ?(proj2 (net_cleanup_RemoveAll _ _ _)),
              ?(proj1 (proj2 (fields_cleanup_unmount _ _ _ _))),
              ?(proj1 (proj2 (proj2 (fields_cleanup_unmount _ _ _ _))));
            simpl).
  all: abstract_flags.
  all: rewrite <- ?app_assoc; simpl.
  all: (split; [reflexivity|]); (split; [reflexivity|]).
  all: (eexists; split; [reflexivity|]).
  all: repeat first
         [ assumption
         | apply Forall_nil_2
         | apply Forall_cons; split; [reflexivity|]
         | apply Forall_app; split
         | destruct (hostIpcOf (GetConfig r)) ].
Qed.

Lemma generateSandboxContainerSpec_fixed_fields_witness :
  RootPath Tuned.spec = "rootfs" ∧ RootReadonly Tuned.spec = true.
Proof.
  destruct (generateSandboxContainerSpec_fixed_fields Tuned.service "sb1"
              Tuned.pod (imgConfig Tuned.image) "/var/run/netns/cni-1"
              Tuned.spec) as (H1 & H2 & _); [vm_compute; reflexivity|].
  by split.
Defined.

Lemma generateSandboxContainerSpec_overrides_witness :
  LinuxCgroupsPath Tuned.spec = "/kubepods/sb1"
  ∧ ProcessCwd Tuned.spec = "/work".
Proof.
  destruct (generateSandboxContainerSpec_overrides Tuned.service "sb1"
              Tuned.pod (imgConfig Tuned.image) "/var/run/netns/cni-1"
              Demo.baseSpec Tuned.spec) as (_ & H2 & _ & H4);
    [reflexivity | vm_compute; reflexivity |].
  split; [apply H2 | apply H4]; discriminate.
Defined.

Lemma generateSandboxContainerSpec_namespaces_witness :
  ns_entries PIDNamespace Tuned.spec = []
  ∧ ns_entries IPCNamespace Tuned.spec
    = [{| nsType := IPCNamespace; nsPath := "" |}].
Proof.
  destruct (generateSandboxContainerSpec_namespaces Tuned.service "sb1"
              Tuned.pod (imgConfig Tuned.image) "/var/run/netns/cni-1"
              Demo.baseSpec Tuned.spec) as (H1 & H2 & _);
    [reflexivity | vm_compute; reflexivity |].
  split; [exact H1 | exact H2].
Defined.

Lemma generateSandboxContainerSpec_sysctls_groups_witness :
  4294967295 ∈ ProcessAdditionalGids Tuned.spec.
Proof.
  destruct (generateSandboxContainerSpec_sysctls_groups Tuned.service "sb1"
              Tuned.pod (imgConfig Tuned.image) "/var/run/netns/cni-1"
              Demo.baseSpec Tuned.spec) as (_ & H2 & _);
    [reflexivity | vm_compute; reflexivity |].
  apply H2. right. exists (-1). split; [apply list_elem_of_here | reflexivity].
Defined.

Lemma RunPodSandbox_success_registers_witness :
  tasks (RunPodSandbox Tuned.service Tuned.request Demo.host).2 !! "sb1"
  = Some TaskRunning.
Proof.
  assert (Hfst : (RunPodSandbox Tuned.service Tuned.request Demo.host).1
                 = OK "sb1") by (vm_compute; reflexivity).
  pose proof (surjective_pairing
                (RunPodSandbox Tuned.service Tuned.request Demo.host)) as Hrun.
  rewrite Hfst in Hrun.
  exact (proj2 (proj2 (proj2 (proj2 (proj2
           (RunPodSandbox_success_registers _ _ _ _ _ Hrun)))))).
Defined.

Lemma RunPodSandbox_success_calls_witness :
  map fst
    (drop (length (log Demo.host))
       (log (RunPodSandbox Tuned.service Tuned.request Demo.host).2))
  = [Reserve "db_prod_u2_1" "sb1";
     EnsureImageExists "gcr.io/google_containers/pause:3.0";
     NewNetNS "/var/run/netns/cni-1";
     SetUpPod {| pnName := "db"; pnNamespace := "prod"; pnID := "sb1";
                 pnNetNS := "/var/run/netns/cni-1";
                 pnPortMappings :=
                   [ {| cniHostPort := 15432; cniContainerPort := 5432;
                        cniProtocol := "tcp"; cniHostIP := "" |} ] |};
     NewContainer "sb1";
     MkdirAll "/var/lib/cri-containerd/sb1" mode_0755;
     CopyFile "/etc/hosts" "/var/lib/cri-containerd/sb1/etc-hosts" mode_0644;
     WriteFile "/var/lib/cri-containerd/sb1/resolv.conf"
       ("search svc.local" ++ GoStrings.nl ++ "nameserver 10.0.0.10"
        ++ GoStrings.nl ++ "options ndots:5" ++ GoStrings.nl) mode_0644;
     MkdirAll "/var/lib/cri-containerd/sb1/shm" mode_0700;
     Mount "shm" "/var/lib/cri-containerd/sb1/shm" "tmpfs" 14
       "mode=1777,size=67108864";
     NewTask "sb1"; TaskStart "sb1"; StoreAdd "sb1"].
Proof.
  assert (Hfst : (RunPodSandbox Tuned.service Tuned.request Demo.host).1
                 = OK "sb1") by (vm_compute; reflexivity).
  pose proof (surjective_pairing
                (RunPodSandbox Tuned.service Tuned.request Demo.host)) as Hrun.
  rewrite Hfst in Hrun.
  destruct (RunPodSandbox_success_calls _ _ _ _ _ Hrun)
    as (content & Hc & Hlog & _).
  rewrite Hlog, drop_app_length.
  assert (Hcontent : content
            = "search svc.local" ++ GoStrings.nl ++ "nameserver 10.0.0.10"
              ++ GoStrings.nl ++ "options ndots:5" ++ GoStrings.nl).
  { vm_compute in Hc. injection Hc as <-. vm_compute. reflexivity. }
  rewrite Hcontent. vm_compute. reflexivity.
Defined.


Lemma RunPodSandbox_network_descriptor_witness :
  cni (RunPodSandbox Tuned.service Tuned.request Demo.host).2 !! "sb1"
  = Some {| pnName := "db"; pnNamespace := "prod"; pnID := "sb1";
            pnNetNS := "/var/run/netns/cni-1";
            pnPortMappings :=
              [ {| cniHostPort := 15432; cniContainerPort := 5432;
                   cniProtocol := "tcp"; cniHostIP := "" |} ] |}.
Proof.
  assert (Hfst : (RunPodSandbox Tuned.service Tuned.request Demo.host).1
                 = OK "sb1") by (vm_compute; reflexivity).
  pose proof (surjective_pairing
                (RunPodSandbox Tuned.service Tuned.request Demo.host)) as Hrun.
  rewrite Hfst in Hrun.
  exact (proj1 (RunPodSandbox_network_descriptor Tuned.service Tuned.request
                  Demo.host _ _ eq_refl Hrun)).
Defined.

Lemma RunPodSandbox_name_conflict_witness :
  (RunPodSandbox Tuned.service Tuned.request Tuned.name_taken).1
  = Err (Wrap FailedReserveName
           (NameReserved (makeSandboxName Tuned.service (Metadata Tuned.pod))
              "sb0")).
Proof.
  destruct (RunPodSandbox_name_conflict Tuned.service Tuned.request
              Tuned.name_taken "sb0") as [H _].
  - apply lookup_insert_eq.
  - discriminate.
  - simpl in H. by rewrite H.
Defined.

Lemma RunPodSandbox_store_frame_witness :
  let res := RunPodSandbox Tuned.service Tuned.request Demo.host in
  (∀ k, k ≠ "sb1" → store res.2 !! k = store Demo.host !! k)
  ∧ (is_OK res.1 = false → store res.2 = store Demo.host)
  ∧ (∀ sb, store Demo.host !! "sb1" = Some sb →
           store res.2 !! "sb1" = Some sb ∧ is_OK res.1 = false).
Proof.
  exact (RunPodSandbox_store_frame Tuned.service Tuned.request Demo.host
           _ _ (surjective_pairing _)).
Defined.

Lemma RunPodSandbox_succeeds_witness :
  (RunPodSandbox Tuned.service Tuned.request Demo.host).1 = OK "sb1".
Proof.
  apply (RunPodSandbox_succeeds Tuned.service Tuned.request Demo.host
           ("search svc.local" ++ GoStrings.nl ++ "nameserver 10.0.0.10"
            ++ GoStrings.nl ++ "options ndots:5" ++ GoStrings.nl)).
  - reflexivity.
  - vm_compute. reflexivity.
  - vm_compute. reflexivity.
  - vm_compute. reflexivity.
  - vm_compute. reflexivity.
  - eexists. vm_compute. reflexivity.
  - vm_compute. reflexivity.
  - intros H. vm_compute in H. discriminate H.
  - intros H. vm_compute in H. discriminate H.
Defined.

Lemma RunPodSandbox_host_network_witness :
  network_untouched Demo.host
    (RunPodSandbox (Demo.service Demo.pause Demo.start_fails)
       {| GetConfig := Demo.pod true false None |} Demo.host).2.
Proof.
  apply (RunPodSandbox_host_network (Demo.service Demo.pause Demo.start_fails)
           {| GetConfig := Demo.pod true false None |} Demo.host _ _ eq_refl
           (surjective_pairing _)).
Defined.

Lemma setupSandboxFiles_contents_witness :
  let res := setupSandboxFiles Tuned.service "/sb" Tuned.pod Demo.host in
  ∃ hosts content,
    files (os Demo.host) !! etcHosts = Some hosts
    ∧ files (os res.2) !! getSandboxHosts "/sb" = Some hosts
    ∧ rendered_content Tuned.pod = OK content
    ∧ files (os res.2) !! getResolvPath "/sb"
      = if decide (content = "") then files (os Demo.host) !! resolvConfPath
        else Some content.
Proof.
  intros res.
  apply (proj2 (setupSandboxFiles_contents Tuned.service "/sb" Tuned.pod
                  Demo.host _ _ (surjective_pairing _))).
  vm_compute. reflexivity.
Defined.

Lemma setupSandboxFiles_hosts_failure_witness :
  (setupSandboxFiles Tuned.service "/sb" Tuned.pod Tuned.bare).1
  = Err (Wrap FailedHostsFile (Errno ENOENT)).
Proof.
  destruct (setupSandboxFiles_hosts_failure Tuned.service "/sb" Tuned.pod
              Tuned.bare (Errno ENOENT)) as [H _];
    [vm_compute; reflexivity|].
  by rewrite H.
Defined.

Lemma setupSandboxFiles_succeeds_witness :
  (setupSandboxFiles Tuned.service "/sb" (Demo.pod false true None) Demo.host).1
  = OK ().
Proof.
  apply (setupSandboxFiles_succeeds Tuned.service "/sb"
           (Demo.pod false true None) Demo.host "").
  - intros k _. reflexivity.
  - eexists. vm_compute. reflexivity.
  - reflexivity.
  - intros _. eexists. vm_compute. reflexivity.
  - intros _. vm_compute. reflexivity.
Defined.

Lemma setupSandboxFiles_os_only_witness :
  store (setupSandboxFiles Tuned.service "/sb" Tuned.pod Demo.host).2
  = store Demo.host.
Proof.
  destruct (setupSandboxFiles_os_only Tuned.service "/sb" Tuned.pod Demo.host
              _ _ (surjective_pairing _)) as (_ & _ & _ & _ & _ & _ & H).
  exact H.
Defined.

Lemma unmountSandboxFiles_error_witness :
  (unmountSandboxFiles Tuned.service "/sb" Tuned.pod Tuned.bare).1 = OK ().
Proof.
  destruct (unmountSandboxFiles_error Tuned.service "/sb" Tuned.pod Tuned.bare
              _ _ (surjective_pairing _)) as (_ & _ & H).
  apply H; vm_compute; reflexivity.
Defined.

(** ** Subnet lease events of the vxlan backend *)

Import Vxlan.

Ltac run_event :=
  unfold handleSubnetEvents, handleSubnetEvent, netlink_RouteGet, call,
    vxlan_lease, arp_of, fdb_of in *;
  simpl in *.

(** X21. Leases of another backend and leases whose data does not decode are
    skipped: a batch of such events makes no call at all, whatever the
    event types. *)
Theorem handleSubnetEvents_ignores_foreign (k : Kernel) (nw : network)
    (batch : list subnet_Event) (h : History) :
  Forall (λ ev, BackendType (Attrs (Lease_ ev)) ≠ "vxlan"
                ∨ json_Unmarshal k (BackendData (Attrs (Lease_ ev))) = None)
    batch →
  handleSubnetEvents k nw batch h = h.
Proof.
  unfold handleSubnetEvents. induction 1 as [|ev batch Hev _ IH]; simpl; [done|].
  rewrite <- IH at 2. f_equal. unfold handleSubnetEvent.
  destruct Hev as [Hty | Hdec].
  - apply String.eqb_neq in Hty. by rewrite Hty.
  - rewrite Hdec. by destruct (negb _).
Qed.

Lemma handleSubnetEvents_ignores_foreign_witness :
  handleSubnetEvents (quiet [2; 0; 0; 0; 0; 1]) {| dev := {| link_Index := 4;
                                                           directRouting := true |} |}
    [ {| Type_ := EventAdded;
         Lease_ := {| Subnet := {| IP := 167838208; PrefixLen := 24 |};
                      Attrs := {| PublicIP := 3232235787;
                                  BackendType := "host-gw";
                                  BackendData := "" |} |} |} ] []
  = [].
Proof.
  apply handleSubnetEvents_ignores_foreign.
  constructor; [|constructor]. left. simpl. discriminate.
Defined.

(** X22. Without direct routing, an added vxlan lease installs the ARP entry of
    the subnet address, then the FDB entry of the public address, both with
    the VTEP address of the lease, then the on-link route to the subnet
    through the subnet address on the vxlan device. A failure stops the
    event and what was installed is removed again: the ARP entry when the
    FDB entry fails, the ARP and the FDB entry when the route fails; the
    removals are attempted whether or not they fail. *)
Theorem handleSubnetEvent_added (k : Kernel) (nw : network)
    (ev : subnet_Event) (a : vxlanLeaseAttrs) (h : History) :
  vxlan_lease k ev a →
  Type_ ev = EventAdded →
  directRouting (dev nw) = false →
  let arp := arp_of ev a in
  let fdb := fdb_of ev a in
  let route := {| LinkIndex := link_Index (dev nw); Scope := 0;
                  Dst := Some (Subnet (Lease_ ev));
                  Gw := Some (IP (Subnet (Lease_ ev)));
                  Flags := 4 |} in
  ∃ new, handleSubnetEvent k nw ev h = (h ++ new)%list
    ∧ (new = [(AddARP arp, false)]
       ∨ (∃ b, new = [(AddARP arp, true); (AddFDB fdb, false); (DelARP arp, b)])
       ∨ (∃ b1 b2, new = [(AddARP arp, true); (AddFDB fdb, true);
                          (RouteReplace route, false);
                          (DelARP arp, b1); (DelFDB fdb, b2)])
       ∨ new = [(AddARP arp, true); (AddFDB fdb, true);
                (RouteReplace route, true)]).
Proof.
  intros [Hty Hdec] Hadd Hdr. run_event.
  rewrite Hty, Hdec, Hadd, Hdr. simpl.
  repeat (case_match; simplify_eq/=); rewrite <- ?app_assoc; simpl;
    eexists; (split; [reflexivity|]); eauto 10.
Qed.

Lemma handleSubnetEvent_added_witness :
  ∃ new,
    handleSubnetEvent (quiet [2; 0; 0; 0; 0; 1])
      {| dev := {| link_Index := 4; directRouting := false |} |}
      {| Type_ := EventAdded; Lease_ := lease1 |} [] = new
    ∧ length new = 3%nat.
Proof.
  destruct (handleSubnetEvent_added (quiet [2; 0; 0; 0; 0; 1])
              {| dev := {| link_Index := 4; directRouting := false |} |}
              {| Type_ := EventAdded; Lease_ := lease1 |}
              {| VtepMAC := [2; 0; 0; 0; 0; 1] |} [])
    as (new & Hnew & _); [by split | reflexivity | reflexivity |].
  eexists. split; reflexivity.
Defined.

(** X23. Without direct routing, a removed vxlan lease removes the ARP entry,
    the FDB entry and the route an added lease installs, in this order,
    and attempts all three whichever of them fails. *)
Theorem handleSubnetEvent_removed (k : Kernel) (nw : network)
    (ev : subnet_Event) (a : vxlanLeaseAttrs) (h : History) :
  vxlan_lease k ev a →
  Type_ ev = EventRemoved →
  directRouting (dev nw) = false →
  ∃ b1 b2 b3,
    handleSubnetEvent k nw ev h
    = (h ++ [(DelARP (arp_of ev a), b1); (DelFDB (fdb_of ev a), b2);
             (RouteDel (vxlanRoute nw (Subnet (Lease_ ev))), b3)])%list
    ∧ vxlanRoute nw (Subnet (Lease_ ev))
      = {| LinkIndex := link_Index (dev nw); Scope := 0;
           Dst := Some (Subnet (Lease_ ev));
           Gw := Some (IP (Subnet (Lease_ ev)));
           Flags := 4 |}.
Proof.
  intros [Hty Hdec] Hrem Hdr. run_event.
  rewrite Hty, Hdec, Hrem, Hdr. simpl.
  rewrite <- !app_assoc. simpl. by eexists _, _, _.
Qed.

Lemma handleSubnetEvent_removed_witness :
  ∃ b1 b2 b3,
    handleSubnetEvent (quiet [2; 0; 0; 0; 0; 1])
      {| dev := {| link_Index := 4; directRouting := false |} |}
      {| Type_ := EventRemoved; Lease_ := lease1 |} []
    = [(DelARP {| nMAC := [2; 0; 0; 0; 0; 1]; nIP := 167837952 |}, b1);
       (DelFDB {| nMAC := [2; 0; 0; 0; 0; 1]; nIP := 3232235786 |}, b2);
       (RouteDel {| LinkIndex := 4; Scope := 0;
                    Dst := Some {| IP := 167837952; PrefixLen := 24 |};
                    Gw := Some 167837952; Flags := 4 |}, b3)].
Proof.
  destruct (handleSubnetEvent_removed (quiet [2; 0; 0; 0; 0; 1])
              {| dev := {| link_Index := 4; directRouting := false |} |}
              {| Type_ := EventRemoved; Lease_ := lease1 |}
              {| VtepMAC := [2; 0; 0; 0; 0; 1] |} [])
    as (b1 & b2 & b3 & H & _); [by split | reflexivity | reflexivity |].
  by exists b1, b2, b3.
Defined.

(** X24. With direct routing the route to the public address of the lease is
    looked up first. If the lookup fails the event is dropped. If it
    reports a single route without gateway, an added lease only replaces
    and a removed lease only deletes the direct route to the subnet through
    the public address, and no ARP or FDB entry is touched. Otherwise the
    event is handled as without direct routing. *)
Theorem handleSubnetEvent_direct (k : Kernel) (nw : network)
    (ev : subnet_Event) (a : vxlanLeaseAttrs) (h : History) :
  vxlan_lease k ev a →
  directRouting (dev nw) = true →
  let pub := PublicIP (Attrs (Lease_ ev)) in
  let direct := {| LinkIndex := 0; Scope := 0;
                   Dst := Some (Subnet (Lease_ ev)); Gw := Some pub;
                   Flags := 0 |} in
  match routes_to k h pub with
  | None => handleSubnetEvent k nw ev h = (h ++ [(RouteGet pub, false)])%list
  | Some routes =>
      let h1 := (h ++ [(RouteGet pub, true)])%list in
      if directly_connected routes then
        (∃ new, handleSubnetEvent k nw ev h = (h1 ++ new)%list
                ∧ Forall (λ c, touches_neighbors c.1 = false) new)
        ∧ (Type_ ev = EventAdded →
           ∃ b, handleSubnetEvent k nw ev h
                = (h1 ++ [(RouteReplace direct, b)])%list)
        ∧ (Type_ ev = EventRemoved →
           ∃ b, handleSubnetEvent k nw ev h
                = (h1 ++ [(RouteDel direct, b)])%list)
      else
        handleSubnetEvent k nw ev h
        = handleSubnetEvent k
            {| dev := {| link_Index := link_Index (dev nw);
                         directRouting := false |} |} ev h1
  end.
Proof.
  intros [Hty Hdec] Hdr. run_event.
  rewrite Hty, Hdec, Hdr. simpl.
  destruct (routes_to k h _) as [routes|] eqn:Hr; simpl.
  2:{ done. }
  destruct (directly_connected routes); [|done].
  split; [|split].
  - destruct (Type_ ev =? EventAdded); [|destruct (Type_ ev =? EventRemoved)];
      first [ by exists []; rewrite app_nil_r
            | eexists; (split; [reflexivity|]); repeat constructor ].
  - intros ->. simpl. by eexists.
  - intros ->. simpl. by eexists.
Qed.

Lemma handleSubnetEvent_direct_witness :
  handleSubnetEvent (quiet [2; 0; 0; 0; 0; 1])
    {| dev := {| link_Index := 4; directRouting := true |} |}
    {| Type_ := EventAdded; Lease_ := lease1 |} []
  = handleSubnetEvent (quiet [2; 0; 0; 0; 0; 1])
      {| dev := {| link_Index := 4; directRouting := false |} |}
      {| Type_ := EventAdded; Lease_ := lease1 |}
      [(RouteGet 3232235786, true)].
Proof.
  apply (handleSubnetEvent_direct (quiet [2; 0; 0; 0; 0; 1])
           {| dev := {| link_Index := 4; directRouting := true |} |}
           {| Type_ := EventAdded; Lease_ := lease1 |}
           {| VtepMAC := [2; 0; 0; 0; 0; 1] |} []); [by split | reflexivity].
Defined.

Lemma app_self_nil {A} (l k : list A) : l = (l ++ k)%list → k = [].
Proof. intros H. apply (app_inv_head l). by rewrite app_nil_r. Qed.

Lemma handleSubnetEvent_grows (k : Kernel) (nw : network)
    (ev : subnet_Event) (h : History) :
  ∃ new, handleSubnetEvent k nw ev h = (h ++ new)%list.
Proof.
  unfold handleSubnetEvent, netlink_RouteGet, call. simpl.
  repeat (case_match; simplify_eq/=); rewrite <- ?app_assoc;
    first [ by exists []; rewrite app_nil_r | by eexists ].
Qed.

(** X25. An event that is neither an addition nor a removal changes nothing in
    the kernel: the only call it can make is the route lookup of direct
    routing. In every case the calls made before an event stay on
    record. *)
Theorem handleSubnetEvent_unknown_type (k : Kernel) (nw : network)
    (ev : subnet_Event) (h : History) :
  ∃ new, handleSubnetEvent k nw ev h = (h ++ new)%list
    ∧ (Type_ ev ≠ EventAdded → Type_ ev ≠ EventRemoved →
       Forall (λ c, changes_kernel c.1 = false) new
       ∧ (directRouting (dev nw) = false → new = [])).
Proof.
  destruct (handleSubnetEvent_grows k nw ev h) as [new Hnew].
  exists new. split; [done|]. intros Ha Hr.
  apply Z.eqb_neq in Ha, Hr. revert Hnew.
  unfold handleSubnetEvent, netlink_RouteGet, call. simpl.
  rewrite Ha, Hr.
  repeat (case_match; simplify_eq/=); intros Hnew;
    first [ apply app_inv_head in Hnew
          | apply app_self_nil in Hnew ];
    subst new; split; try done; repeat constructor.
Qed.

(** X26. When no call fails, an added and then removed vxlan lease leaves, without
    direct routing, the record of three installations followed by the
    removal of the same three entries. *)
Theorem handleSubnetEvents_add_remove (k : Kernel) (nw : network)
    (l : Lease) (a : vxlanLeaseAttrs) (h : History) :
  vxlan_lease k {| Type_ := EventAdded; Lease_ := l |} a →
  directRouting (dev nw) = false →
  (∀ h c, fails k h c = false) →
  let arp := {| nMAC := VtepMAC a; nIP := IP (Subnet l) |} in
  let fdb := {| nMAC := VtepMAC a; nIP := PublicIP (Attrs l) |} in
  let route := vxlanRoute nw (Subnet l) in
  handleSubnetEvents k nw
    [ {| Type_ := EventAdded; Lease_ := l |};
      {| Type_ := EventRemoved; Lease_ := l |} ] h
  = (h ++ [(AddARP arp, true); (AddFDB fdb, true); (RouteReplace route, true);
           (DelARP arp, true); (DelFDB fdb, true); (RouteDel route, true)])%list.
Proof.
  intros [Hty Hdec] Hdr Hnf. run_event.
  rewrite Hty, Hdec, Hdr. simpl. rewrite !Hnf. simpl.
  by rewrite <- !app_assoc.
Qed.

Lemma handleSubnetEvents_add_remove_witness :
  length (handleSubnetEvents (quiet [2; 0; 0; 0; 0; 1])
            {| dev := {| link_Index := 4; directRouting := false |} |}
            [ {| Type_ := EventAdded; Lease_ := lease1 |};
              {| Type_ := EventRemoved; Lease_ := lease1 |} ] [])
  = 6%nat.
Proof.
  rewrite (handleSubnetEvents_add_remove (quiet [2; 0; 0; 0; 0; 1])
             {| dev := {| link_Index := 4; directRouting := false |} |}
             lease1 {| VtepMAC := [2; 0; 0; 0; 0; 1] |} []);
    [reflexivity | by split | reflexivity | reflexivity].
Defined.
